(** * munin: the VirusTotal enrichment library (lib/munin_vt.py)

    A shallow embedding of the functions of [lib/munin_vt.py] and the
    properties of its records, and of the report script
    [munin-json-parse.py] that lists them.

    Python values are the values [json.loads] produces, with integer
    numbers (the counts, sizes and timestamps of the API are integers; a
    JSON float is outside the model).  A Python [str] is a Rocq [string]
    holding its UTF-8 bytes.  A Python [dict] is an association list in
    insertion order, as Python iterates it.  An operation that can raise
    returns a [result].  What the library leaves to the Python runtime and
    to other packages (floating point in [math], [datetime], the iteration
    order of a [set], [str()] of a container, the order [sorted] builds) is
    an interface, [PyRuntime]; the theorems hold for every implementation
    of it. *)

From Stdlib Require Import ZArith List String Ascii Bool Lia Permutation.
From Stdlib Require Import DecimalString.
Import ListNotations.
Open Scope string_scope.
Open Scope Z_scope.

Set Implicit Arguments.
Set Warnings "-register-all".

(** ** Values and exceptions *)

Inductive pyval : Type :=
| PNone
| PBool (b : bool)
| PInt (z : Z)
| PStr (s : string)
| PList (l : list pyval)
| PDict (d : list (pyval * pyval)).

Coercion PStr : string >-> pyval.

Definition dict := list (pyval * pyval).

Inductive exn : Type :=
| KeyError | TypeError | IndexError | ValueError | AttributeError
| NameError | OverflowError | RequestException.

Inductive result (A : Type) : Type :=
| Ok (a : A)
| Raise (e : exn).
Arguments Ok {A} a.
Arguments Raise {A} e.

(** ** Monads and their notation *)

Class Monad (m : Type -> Type) : Type := {
  ret : forall {A}, A -> m A;
  bind : forall {A B}, m A -> (A -> m B) -> m B
}.

Notation "x <- c ;; k" := (bind c (fun x => k))
  (at level 61, c at next level, right associativity).
Notation "c ;;; k" := (bind c (fun _ => k))
  (at level 61, right associativity).

#[export] Instance result_monad : Monad result := {
  ret := fun A a => Ok a;
  bind := fun A B c k => match c with Ok a => k a | Raise e => Raise e end
}.

(** The body of a [try] block that mutates one dict: the dict as it is when
    an exception is raised stays in the state. *)
Definition M (A : Type) : Type := dict -> dict * result A.

#[export] Instance M_monad : Monad M := {
  ret := fun A a s => (s, Ok a);
  bind := fun A B c k s =>
    match c s with
    | (s', Ok a) => k a s'
    | (s', Raise e) => (s', Raise e)
    end
}.

Definition lift {A} (r : result A) : M A := fun s => (s, r).

(** ** Python's operations on values *)

Definition as_int (v : pyval) : option Z :=
  match v with
  | PBool b => Some (Z.b2z b)
  | PInt z => Some z
  | _ => None
  end.

Definition hashable (v : pyval) : bool :=
  match v with
  | PList _ | PDict _ => false
  | _ => true
  end.

(** Equality of dict keys and set elements: [True == 1] and [False == 0]. *)
Definition key_eqb (a b : pyval) : bool :=
  match a, b with
  | PNone, PNone => true
  | PStr x, PStr y => String.eqb x y
  | (PBool _ | PInt _), (PBool _ | PInt _) =>
      match as_int a, as_int b with
      | Some x, Some y => x =? y
      | _, _ => false
      end
  | _, _ => false
  end.

Fixpoint dict_get (k : pyval) (d : dict) : option pyval :=
  match d with
  | [] => None
  | (k', v) :: r => if key_eqb k k' then Some v else dict_get k r
  end.

(** [d[k] = v]: an existing key keeps its place, a new one goes last. *)
Fixpoint dict_set (k v : pyval) (d : dict) : dict :=
  match d with
  | [] => [(k, v)]
  | (k', v') :: r =>
      if key_eqb k k' then (k', v) :: r else (k', v') :: dict_set k v r
  end.

(** [d.update(u)] *)
Definition dict_update (u d : dict) : dict :=
  fold_left (fun acc kv => dict_set (fst kv) (snd kv) acc) u d.

(** [a == b] *)
Fixpoint py_eq (a b : pyval) {struct a} : bool :=
  match a, b with
  | PNone, PNone => true
  | PBool x, PBool y => Bool.eqb x y
  | PBool x, PInt y => Z.b2z x =? y
  | PInt x, PBool y => x =? Z.b2z y
  | PInt x, PInt y => x =? y
  | PStr x, PStr y => String.eqb x y
  | PList xs, PList ys =>
      (fix go (xs ys : list pyval) {struct xs} : bool :=
         match xs, ys with
         | [], [] => true
         | x :: xs', y :: ys' => py_eq x y && go xs' ys'
         | _, _ => false
         end) xs ys
  | PDict d1, PDict d2 =>
      Nat.eqb (List.length d1) (List.length d2) &&
      (fix go (d : list (pyval * pyval)) {struct d} : bool :=
         match d with
         | [] => true
         | (k, v) :: r =>
             match dict_get k d2 with
             | Some v' => py_eq v v'
             | None => false
             end && go r
         end) d1
  | _, _ => false
  end.

(** [bool(v)] *)
Definition py_truthy (v : pyval) : bool :=
  match v with
  | PNone => false
  | PBool b => b
  | PInt z => negb (z =? 0)
  | PStr s => negb (String.eqb s "")
  | PList l => match l with [] => false | _ => true end
  | PDict d => match d with [] => false | _ => true end
  end.

(** [needle in hay] for two strings *)
Definition is_substring (needle hay : string) : bool :=
  match String.index 0 needle hay with
  | Some _ => true
  | None => false
  end.

(** The code points of a string: a UTF-8 continuation byte (10xxxxxx) stays
    with the byte before it. *)
Definition is_continuation (c : ascii) : bool :=
  let n := nat_of_ascii c in (128 <=? n)%nat && (n <? 192)%nat.

Definition starts_with_continuation (s : string) : bool :=
  match s with
  | String c _ => is_continuation c
  | EmptyString => false
  end.

Fixpoint str_chars (s : string) : list string :=
  match s with
  | EmptyString => []
  | String c r =>
      match str_chars r with
      | h :: t =>
          if starts_with_continuation r then String c h :: t
          else String c EmptyString :: h :: t
      | [] => [String c EmptyString]
      end
  end.

(** [x in c] *)
Definition py_contains (c x : pyval) : result bool :=
  match c with
  | PDict d =>
      if hashable x
      then Ok (match dict_get x d with Some _ => true | None => false end)
      else Raise TypeError
  | PList l => Ok (existsb (py_eq x) l)
  | PStr s =>
      match x with
      | PStr n => Ok (is_substring n s)
      | _ => Raise TypeError
      end
  | _ => Raise TypeError
  end.

(** [l[i]] for a sequence, a negative index counting from the end *)
Definition seq_index {A} (l : list A) (i : Z) : result A :=
  let n := Z.of_nat (List.length l) in
  let j := if i <? 0 then i + n else i in
  if (j <? 0) || (n <=? j) then Raise IndexError
  else match nth_error l (Z.to_nat j) with
       | Some a => Ok a
       | None => Raise IndexError
       end.

(** [c[k]] *)
Definition py_getitem (c k : pyval) : result pyval :=
  match c with
  | PDict d =>
      if hashable k
      then match dict_get k d with
           | Some v => Ok v
           | None => Raise KeyError
           end
      else Raise TypeError
  | PList l =>
      match as_int k with
      | Some i => seq_index l i
      | None => Raise TypeError
      end
  | PStr s =>
      match as_int k with
      | Some i => seq_index (map PStr (str_chars s)) i
      | None => Raise TypeError
      end
  | _ => Raise TypeError
  end.

(** The elements [for x in v] visits *)
Definition py_iter (v : pyval) : result (list pyval) :=
  match v with
  | PList l => Ok l
  | PDict d => Ok (map fst d)
  | PStr s => Ok (map PStr (str_chars s))
  | _ => Raise TypeError
  end.

(** [a + b] *)
Definition py_add (a b : pyval) : result pyval :=
  match a, b with
  | (PBool _ | PInt _), (PBool _ | PInt _) =>
      match as_int a, as_int b with
      | Some x, Some y => Ok (PInt (x + y))
      | _, _ => Raise TypeError
      end
  | PStr x, PStr y => Ok (PStr (x ++ y))
  | PList x, PList y => Ok (PList (x ++ y))
  | _, _ => Raise TypeError
  end.

(** [a <= n] for an integer literal [n] *)
Definition py_le_int (a : pyval) (n : Z) : result bool :=
  match as_int a with
  | Some x => Ok (x <=? n)
  | None => Raise TypeError
  end.

(** [sep.join(l)] *)
Fixpoint py_join (sep : string) (l : list pyval) : result string :=
  match l with
  | [] => Ok ""
  | [PStr s] => Ok s
  | PStr s :: r => t <- py_join sep r ;; Ok (s ++ sep ++ t)
  | _ => Raise TypeError
  end.

(** [s.replace(old, new)] for one-character [old] and [new] *)
Fixpoint str_replace (old new : ascii) (s : string) : string :=
  match s with
  | EmptyString => EmptyString
  | String c r =>
      String (if Ascii.eqb c old then new else c) (str_replace old new r)
  end.

(** The elements of [set(l)], each at its first occurrence; [TypeError] for
    an unhashable one. *)
Fixpoint set_elements (seen l : list pyval) : result (list pyval) :=
  match l with
  | [] => Ok (rev seen)
  | x :: r =>
      if hashable x
      then if existsb (key_eqb x) seen then set_elements seen r
           else set_elements (x :: seen) r
      else Raise TypeError
  end.

Fixpoint map_result {A B} (f : A -> result B) (l : list A) : result (list B) :=
  match l with
  | [] => Ok []
  | x :: r => y <- f x ;; ys <- map_result f r ;; Ok (y :: ys)
  end.

(** [l.remove(x)]: the first element equal to [x] goes *)
Fixpoint list_remove (x : pyval) (l : list pyval) : list pyval :=
  match l with
  | [] => []
  | y :: r => if py_eq y x then r else y :: list_remove x r
  end.

(** ** The Python runtime the library runs on *)

Class PyRuntime : Type := {
  (** [int(math.floor(math.log(b, 1024)))] for an integer [b > 0] *)
  floor_log1024 : Z -> Z;
  (** [str(round(b / math.pow(1024, i), 2))], or what the floating-point
      computation raises *)
  round2_str : Z -> Z -> result string;
  (** [datetime.utcfromtimestamp(t).strftime("%Y-%m-%d %H:%M:%S")] *)
  utc_strftime : Z -> result string;
  (** the order in which a set lists its elements [l], given in the order
      of their insertion *)
  set_order : list pyval -> list pyval;
  set_order_perm : forall l, Permutation (set_order l) l;
  (** [str(v)] *)
  py_str : pyval -> string;
  py_str_str : forall s, py_str (PStr s) = s;
  (** [sorted] on records paired with their sort keys *)
  sort_by_key : list (pyval * dict) -> result (list (pyval * dict));
  sort_by_key_perm :
    forall l l', sort_by_key l = Ok l' -> Permutation l' l
}.

(** ** lib/munin_vt.py: the pure functions *)

Section Pure.
Context {R : PyRuntime}.

(** [uniqList], line 95 *)
Definition uniqList (listx : pyval) : result pyval :=
  elems <- py_iter listx ;;
  uniq <- set_elements [] elems ;;
  Ok (PList (set_order uniq)).

Definition size_name : list string :=
  ["B"; "KB"; "MB"; "GB"; "TB"; "PB"; "EB"; "ZB"; "YB"].

(** [convertSize], line 154 *)
Definition convertSize (size_bytes : pyval) : result pyval :=
  if py_eq size_bytes (PInt 0) then Ok (PStr "0B")
  else
    match as_int size_bytes with
    | None => Raise TypeError
    | Some b =>
        if b <? 0 then Raise ValueError
        else
          let i := floor_log1024 b in
          s <- round2_str b i ;;
          unit_name <- seq_index size_name i ;;
          Ok (PStr (s ++ " " ++ unit_name))
    end.

(** [getEmptyInfo], line 170 *)
Definition getEmptyInfo : dict :=
  [ (PStr "hash", PStr "-");
    (PStr "result", PStr "- / -");
    (PStr "virus", PStr "-");
    (PStr "last_submitted", PStr "-");
    (PStr "first_submitted", PStr "-");
    (PStr "filenames", PStr "-");
    (PStr "filetype", PStr "-");
    (PStr "rating", PStr "unknown");
    (PStr "positives", PInt 0);
    (PStr "imphash", PStr "-");
    (PStr "harmless", PBool false);
    (PStr "revoked", PBool false);
    (PStr "signed", PBool false);
    (PStr "expired", PBool false);
    (PStr "mssoft", PBool false);
    (PStr "vendor_results", PDict []);
    (PStr "signer", PStr "-");
    (PStr "vt_queried", PBool true);
    (PStr "tags", PList []);
    (PStr "copyright", PStr "-");
    (PStr "description", PStr "-");
    (PStr "times_submitted", PInt 0);
    (PStr "reputation", PInt 0);
    (PStr "filesize", PInt 0) ].

(** [os.path.basename] of posixpath: what follows the last slash *)
Definition has_slash (s : string) : bool :=
  existsb (Ascii.eqb "/"%char) (list_ascii_of_string s).

Fixpoint basename (p : string) : string :=
  match p with
  | EmptyString => EmptyString
  | String c r =>
      if has_slash r then basename r
      else if Ascii.eqb c "/"%char then r else p
  end.

Definition backslash : ascii := ascii_of_nat 92.

(** [get_crossplatfrom_basename], line 199 *)
Definition get_crossplatfrom_basename (path : pyval) : result pyval :=
  match path with
  | PStr s => Ok (PStr (basename (str_replace backslash "/"%char s)))
  | _ => Raise AttributeError
  end.

(** Statements on the record [info] under construction *)
Definition setitem (k v : pyval) : M unit :=
  fun info => (dict_set k v info, Ok tt).

Definition getinfo (k : pyval) : M pyval :=
  fun info => (info, py_getitem (PDict info) k).

(** [info[k].method(...)] for a list method that rebuilds the list *)
Definition list_method (k : pyval) (f : list pyval -> list pyval) : M unit :=
  v <- getinfo k ;;
  match v with
  | PList l => setitem k (PList (f l))
  | _ => lift (Raise AttributeError)
  end.

(** [info["vendor_results"][vendor] = v] *)
Definition set_vendor_result (vendor v : pyval) : M unit :=
  vr <- getinfo "vendor_results" ;;
  match vr with
  | PDict d =>
      if hashable vendor
      then setitem "vendor_results" (PDict (dict_set vendor v d))
      else lift (Raise TypeError)
  | _ => lift (Raise TypeError)
  end.

(** [datetime.utcfromtimestamp(v).strftime("%Y-%m-%d %H:%M:%S")] *)
Definition timestamp_str (v : pyval) : result pyval :=
  match as_int v with
  | Some t => s <- utc_strftime t ;; Ok (PStr s)
  | None => Raise TypeError
  end.

End Pure.

(** ** [processVirustotalSampleInfo], line 203

    The [try] block is a computation in [M] on the record [info]; the
    statements follow the source in order, one definition per commented
    group of lines.  [sample_info["attributes"]] is evaluated again by every
    statement that names it, as the source does. *)

Section Normalizer.
Context {R : PyRuntime}.
Variable sample_info : pyval.
Variable VENDORS : pyval.

Definition attributes : result pyval := py_getitem sample_info "attributes".

(** [sample_info["attributes"][k]] *)
Definition attr (k : string) : result pyval :=
  a <- attributes ;; py_getitem a k.

(** [k in sample_info["attributes"]] *)
Definition has_attr (k : string) : result bool :=
  a <- attributes ;; py_contains a k.

(** [sample_info["attributes"][k1][k2]] *)
Definition attr2 (k1 k2 : string) : result pyval :=
  a <- attr k1 ;; py_getitem a k2.

(** [k2 in sample_info["attributes"][k1]] *)
Definition has_attr2 (k1 k2 : string) : result bool :=
  a <- attr k1 ;; py_contains a k2.

(** Lines 213-228: file names *)
Definition filenames_block : M unit :=
  names <- lift (attr "names") ;;
  elems <- lift (py_iter names) ;;
  bases <- lift (map_result get_crossplatfrom_basename elems) ;;
  uniq <- lift (set_elements [] bases) ;;
  setitem "filenames" (PList (set_order uniq)) ;;;
  has <- lift (has_attr "meaningful_name") ;;
  (if has : bool then
     meaningful_name <-
       lift (p <- attr "meaningful_name" ;; get_crossplatfrom_basename p) ;;
     fl <- getinfo "filenames" ;;
     dup <- lift (py_contains fl meaningful_name) ;;
     (if dup : bool
      then list_method "filenames" (list_remove meaningful_name)
      else ret tt) ;;;
     list_method "filenames" (cons meaningful_name)
   else ret tt) ;;;
  fl <- getinfo "filenames" ;;
  joined <- lift (elems <- py_iter fl ;; py_join ", " elems) ;;
  setitem "filenames" (PStr (str_replace ";"%char "_"%char joined)).

(** Lines 229-242: file type, size, tags, first submission, counters *)
Definition properties_block : M unit :=
  v <- lift (attr "type_description") ;;
  setitem "filetype" v ;;;
  v <- lift (size <- attr "size" ;; convertSize size) ;;
  setitem "filesize" v ;;;
  v <- lift (attr "tags") ;;
  setitem "tags" v ;;;
  v <- lift (t <- attr "first_submission_date" ;; timestamp_str t) ;;
  setitem "first_submitted" v ;;;
  v <- lift (attr "times_submitted") ;;
  setitem "times_submitted" v ;;;
  v <- lift (attr "reputation") ;;
  setitem "reputation" v.

(** Lines 244-256: Exiftool *)
Definition exiftool_block : M unit :=
  has <- lift (has_attr "exiftool") ;;
  if has : bool then
    has_c <- lift (has_attr2 "exiftool" "LegalCopyright") ;;
    if has_c : bool then
      has_c' <- lift (has_attr2 "exiftool" "LegalCopyright") ;;
      (if has_c' : bool
       then v <- lift (attr2 "exiftool" "LegalCopyright") ;;
            setitem "copyright" v
       else ret tt) ;;;
      has_d <- lift (has_attr2 "exiftool" "FileDescription") ;;
      (if has_d : bool
       then v <- lift (attr2 "exiftool" "FileDescription") ;;
            setitem "description" v
       else ret tt)
    else ret tt
  else ret tt.

(** Lines 257-261: PE info *)
Definition pe_info_block : M unit :=
  has <- lift (has_attr "pe_info") ;;
  if has : bool then
    has_i <- lift (has_attr2 "pe_info" "imphash") ;;
    if has_i : bool
    then v <- lift (attr2 "pe_info" "imphash") ;; setitem "imphash" v
    else ret tt
  else ret tt.

(** Lines 262-274: PE signature *)
Definition signature_block : M unit :=
  has <- lift (has_attr "signature_info") ;;
  if has : bool then
    has_s <- lift (has_attr2 "signature_info" "signers") ;;
    (if has_s : bool
     then v <- lift (attr2 "signature_info" "signers") ;; setitem "signer" v
     else ret tt) ;;;
    has_v <- lift (has_attr2 "signature_info" "verified") ;;
    (if has_v : bool then
       v <- lift (attr2 "signature_info" "verified") ;;
       (if py_eq v "Signed" then setitem "signed" (PBool true) else ret tt) ;;;
       r <- lift (v <- attr2 "signature_info" "verified" ;;
                  py_contains v "Revoked") ;;
       (if r : bool then setitem "revoked" (PBool true) else ret tt) ;;;
       e <- lift (v <- attr2 "signature_info" "verified" ;;
                  py_contains v "Expired") ;;
       (if e : bool then setitem "expired" (PBool true) else ret tt)
     else ret tt)
  else ret tt.

(** Lines 276-279: hashes *)
Definition hashes_block : M unit :=
  v <- lift (attr "md5") ;;
  setitem "md5" v ;;;
  v <- lift (attr "sha1") ;;
  setitem "sha1" v ;;;
  v <- lift (attr "sha256") ;;
  setitem "sha256" v.

Definition stat (k : string) : result pyval := attr2 "last_analysis_stats" k.

(** Lines 280-296: AV matches and rating *)
Definition stats_block : M unit :=
  v <- lift (m <- stat "malicious" ;;
             s <- stat "suspicious" ;;
             py_add m s) ;;
  setitem "positives" v ;;;
  v <- lift (u <- stat "undetected" ;;
             m <- stat "malicious" ;;
             um <- py_add u m ;;
             s <- stat "suspicious" ;;
             ums <- py_add um s ;;
             h <- stat "harmless" ;;
             py_add ums h) ;;
  setitem "total" v ;;;
  positives <- getinfo "positives" ;;
  if py_eq positives (PInt 0) then setitem "rating" "clean"
  else
    positives <- getinfo "positives" ;;
    le <- lift (py_le_int positives 10) ;;
    if le : bool then setitem "rating" "suspicious"
    else setitem "rating" "malicious".

(** Lines 298-300: last submission *)
Definition last_submitted_block : M unit :=
  v <- lift (t <- attr "last_submission_date" ;; timestamp_str t) ;;
  setitem "last_submitted" v.

(** Lines 312-322: the loop over the vendors, [virus_names] threaded *)
Fixpoint vendor_loop (scans : pyval) (vendors : list pyval)
    (virus_names : list pyval) : M (list pyval) :=
  match vendors with
  | [] => ret virus_names
  | vendor :: rest =>
      known <- lift (py_contains scans vendor) ;;
      (if known : bool then
         r <- lift (s <- py_getitem scans vendor ;; py_getitem s "result") ;;
         if py_truthy r then
           r1 <- lift (s <- py_getitem scans vendor ;; py_getitem s "result") ;;
           let entry := PStr (py_str vendor ++ ": " ++ py_str r1) in
           r2 <- lift (s <- py_getitem scans vendor ;; py_getitem s "result") ;;
           set_vendor_result vendor r2 ;;;
           vendor_loop scans rest (virus_names ++ [entry])
         else
           set_vendor_result vendor "-" ;;;
           vendor_loop scans rest virus_names
       else
         set_vendor_result vendor "-" ;;;
         vendor_loop scans rest virus_names)
  end.

(** Lines 301-325: virus names *)
Definition virus_block : M unit :=
  scans <- lift (attr "last_analysis_results") ;;
  setitem "vendor_results" (PDict []) ;;;
  first <- lift (py_getitem VENDORS (PInt 0)) ;;
  loop_vendors <- lift (if py_eq first "ALL" then py_iter scans
                        else py_iter VENDORS) ;;
  virus_names <- vendor_loop scans loop_vendors [] ;;
  match virus_names with
  | [] => ret tt
  | _ :: _ =>
      v <- lift (py_join " / " virus_names) ;;
      setitem "virus" (PStr v)
  end.

(** Lines 209-325: the body of the [try] *)
Definition try_block : M unit :=
  has <- lift (py_contains sample_info "attributes") ;;
  if negb has then ret tt
  else
    filenames_block ;;;
    properties_block ;;;
    exiftool_block ;;;
    pe_info_block ;;;
    signature_block ;;;
    hashes_block ;;;
    stats_block ;;;
    last_submitted_block ;;;
    virus_block.

End Normalizer.

(** [except Exception] swallows what the body raised and [finally] returns
    the record as it then is; [debug] only prints a traceback. *)
Definition processVirustotalSampleInfo {R : PyRuntime}
    (sample_info : pyval) (debug : bool) (VENDORS : pyval) : dict :=
  fst (try_block sample_info VENDORS getEmptyInfo).

(** ** The network

    [requests.get] answers from a script: the outcomes of the calls still to
    come, each a response or the exception the call raises.  A response is
    its status code and what [json.loads] makes of its content ([None] when
    decoding or parsing raises, a [ValueError]).  The trace records the
    requests sent and the sleeps taken.  A run that needs an answer the
    script no longer has ends [OutOfScript]. *)

Record response : Type := {
  status_code : Z;
  json_body : option pyval
}.

(** [response.ok]: [raise_for_status] raises for 400 to 599 *)
Definition ok (r : response) : bool :=
  negb ((400 <=? status_code r) && (status_code r <? 600)).

(** [needle in response]: iterating a response yields chunks of bytes, and
    no [bytes] equals a [str]. *)
Definition response_contains (r : response) (needle : string) : bool := false.

Inductive event : Type :=
| EGet (url : pyval)
| ESleep (seconds : Z).

Record world : Type := {
  script : list (result response);
  trace : list event
}.

Inductive outcome (A : Type) : Type :=
| Returned (a : A)
| Raised (e : exn)
| OutOfScript.
Arguments Returned {A} a.
Arguments Raised {A} e.
Arguments OutOfScript {A}.

Definition W (A : Type) : Type := world -> outcome A * world.

#[export] Instance W_monad : Monad W := {
  ret := fun A a w => (Returned a, w);
  bind := fun A B c k w =>
    match c w with
    | (Returned a, w') => k a w'
    | (Raised e, w') => (Raised e, w')
    | (OutOfScript, w') => (OutOfScript, w')
    end
}.

Definition liftW {A} (r : result A) : W A :=
  fun w => match r with
           | Ok a => (Returned a, w)
           | Raise e => (Raised e, w)
           end.

(** [requests.get(url, ...)]; a URL that is not a string is refused before
    anything is sent. *)
Definition requests_get (url : pyval) : W response :=
  fun w =>
    match url with
    | PStr _ =>
        match script w with
        | [] => (OutOfScript, w)
        | o :: rest =>
            let w' := {| script := rest; trace := trace w ++ [EGet url] |} in
            match o with
            | Ok r => (Returned r, w')
            | Raise e => (Raised e, w')
            end
        end
    | _ => (Raised RequestException, w)
    end.

Definition RETROHUNT_URL : string :=
  "https://www.virustotal.com/api/v3/intelligence/retrohunt_jobs".
Definition VT_USER_API_prefix : string :=
  "https://www.virustotal.com/api/v3/users/".
Definition VT_REPORT_URL_prefix : string :=
  "https://www.virustotal.com/api/v3/files/".
Definition VT_COMMENT_API_suffix : string := "/comments?relationships=author".

(** The names the module binds to values.  The others it binds are its
    imports ([datetime], [json], [math], [requests], [os], [traceback],
    [time], [PROXY]) and its ten functions; none of them is read as a
    value by the functions below. *)
Definition module_globals : dict :=
  [ (PStr "__LICENSE__", PStr "Apache-2.0");
    (PStr "RETROHUNT_URL", PStr RETROHUNT_URL);
    (PStr "VT_COMMENT_API",
     PStr (VT_REPORT_URL_prefix ++ "%s" ++ VT_COMMENT_API_suffix));
    (PStr "VT_USER_API", PStr (VT_USER_API_prefix ++ "%s"));
    (PStr "VT_REPORT_URL", PStr (VT_REPORT_URL_prefix ++ "%s"));
    (PStr "VT_PUBLIC_API_KEY", PStr "-") ].

(** Reading a global name as a value: a [NameError] when the module does
    not bind it *)
Definition load_global (name : string) : result pyval :=
  match dict_get name module_globals with
  | Some v => Ok v
  | None => Raise NameError
  end.

(** [len(v)] *)
Definition py_len (v : pyval) : result Z :=
  match v with
  | PList l => Ok (Z.of_nat (List.length l))
  | PDict d => Ok (Z.of_nat (List.length d))
  | PStr s => Ok (Z.of_nat (List.length (str_chars s)))
  | _ => Raise TypeError
  end.

(** [c[k1][k2]...] *)
Fixpoint py_path (c : pyval) (ks : list string) : result pyval :=
  match ks with
  | [] => Ok c
  | k :: r => v <- py_getitem c k ;; py_path v r
  end.

Section Network.
Context {R : PyRuntime}.

(** *** [searchVirustotalComments], line 335 *)

Definition empty_comments : dict :=
  [ (PStr "comments", PInt 0);
    (PStr "commenter", PList [PStr "-"]);
    (PStr "tags", PList []) ].

(** [info[k].extend(v)] and [info[k].append(v)] on the record in [M] *)
Definition list_extend (k : pyval) (v : pyval) : M unit :=
  elems <- lift (py_iter v) ;;
  list_method k (fun l => (l ++ elems)%list).

(** Lines 354-356: the loop over the comments *)
Fixpoint comments_loop (coms : list pyval) : M unit :=
  match coms with
  | [] => ret tt
  | com :: rest =>
      author <- lift (py_path com ["relationships"; "author"; "data"; "id"]) ;;
      list_method "commenter" (fun l => (l ++ [author])%list) ;;;
      tags <- lift (py_path com ["attributes"; "tags"]) ;;
      list_extend "tags" tags ;;;
      comments_loop rest
  end.

(** Lines 351-356, on the parsed body *)
Definition comments_block (r_comments : pyval) : M unit :=
  n <- lift (d <- py_getitem r_comments "data" ;; py_len d) ;;
  setitem "comments" (PInt n) ;;;
  n' <- lift (d <- py_getitem r_comments "data" ;; py_len d) ;;
  if 0 <? n' then
    setitem "commenter" (PList []) ;;;
    coms <- lift (d <- py_getitem r_comments "data" ;; py_iter d) ;;
    comments_loop coms
  else ret tt.

Definition comment_url (sha256 : pyval) : pyval :=
  PStr (VT_REPORT_URL_prefix ++ py_str sha256 ++ VT_COMMENT_API_suffix).

Definition searchVirustotalComments (sha256 : pyval) (debug : bool) : W dict :=
  fun w =>
    match requests_get (comment_url sha256) w with
    | (OutOfScript, w') => (OutOfScript, w')
    | (Raised _, w') => (Returned empty_comments, w')
    | (Returned r_code_comments, w') =>
        if negb (ok r_code_comments) then (Returned empty_comments, w')
        else
          match json_body r_code_comments with
          | None => (Returned empty_comments, w')
          | Some r_comments =>
              (Returned (fst (comments_block r_comments empty_comments)), w')
          end
    end.

(** *** [checkVirustotalQuota], line 364 *)

Inductive quota : Type :=
| QuotaNone
| QuotaTuple (used_day allowed_day used_month allowed_month : pyval)
| QuotaValue (v : pyval).

(** Lines 390-393: the handler reads [debug], then the function returns
    [info]; both are names the function never assigns. *)
Definition quota_handler : result quota :=
  debug <- load_global "debug" ;;
  info <- load_global "info" ;;
  Ok (QuotaValue info).

(** Lines 376-388, on the parsed body *)
Definition quota_fields (r_user_json : pyval) : result quota :=
  let quotas := ["data"; "attributes"; "quotas"] in
  ud <- py_path r_user_json (quotas ++ ["api_requests_daily"; "used"])%list ;;
  ad <- py_path r_user_json (quotas ++ ["api_requests_daily"; "allowed"])%list ;;
  um <- py_path r_user_json (quotas ++ ["api_requests_monthly"; "used"])%list ;;
  am <- py_path r_user_json (quotas ++ ["api_requests_monthly"; "allowed"])%list ;;
  Ok (QuotaTuple ud ad um am).

Definition user_url (VT_USERID : pyval) : pyval :=
  PStr (VT_USER_API_prefix ++ py_str VT_USERID).

Definition checkVirustotalQuota (VT_USERID : pyval) : W quota :=
  fun w =>
    match requests_get (user_url VT_USERID) w with
    | (OutOfScript, w') => (OutOfScript, w')
    | (Raised _, w') => liftW quota_handler w'
    | (Returned r_user, w') =>
        if negb (ok r_user) then (Returned QuotaNone, w')
        else
          match json_body r_user with
          | None => liftW quota_handler w'
          | Some r_user_json =>
              match quota_fields r_user_json with
              | Ok q => (Returned q, w')
              | Raise _ => liftW quota_handler w'
              end
          end
    end.

(** *** [getVTInfo], line 24 *)

Definition report_url (hash : pyval) : pyval :=
  PStr (VT_REPORT_URL_prefix ++ py_str hash).

(** Lines 39-61: the request loop, one answer of the script per pass; it
    leaves with the response and its parsed body.  A pass that raises (the
    request, the decoding or the parsing, or [time.sleep], a [ValueError]
    for a negative time) is swallowed by [except Exception]; [success] is
    already [True] when [time.sleep] raises. *)
Fixpoint request_loop (url : pyval) (QUOTA_EXCEEDED_WAIT_TIME : Z)
    (vtwaitquota : bool) (answers : list (result response))
    (tr : list event) : outcome (response * pyval) * world :=
  match answers with
  | [] => (OutOfScript, {| script := []; trace := tr |})
  | answer :: rest =>
      let tr' := (tr ++ [EGet url])%list in
      match answer with
      | Raise _ => request_loop url QUOTA_EXCEEDED_WAIT_TIME vtwaitquota rest tr'
      | Ok response_dict_code =>
          match json_body response_dict_code with
          | None =>
              request_loop url QUOTA_EXCEEDED_WAIT_TIME vtwaitquota rest tr'
          | Some response_dict =>
              let leave := (Returned (response_dict_code, response_dict),
                            {| script := rest; trace := tr' |}) in
              if (status_code response_dict_code =? 429) && vtwaitquota then
                if QUOTA_EXCEEDED_WAIT_TIME <? 0 then leave
                else request_loop url QUOTA_EXCEEDED_WAIT_TIME vtwaitquota rest
                       (tr' ++ [ESleep QUOTA_EXCEEDED_WAIT_TIME])%list
              else leave
          end
      end
  end.

(** Lines 64-66: is the error a [NotFoundError]? *)
Definition is_not_found (response_dict : pyval) : result bool :=
  has_error <- py_contains response_dict "error" ;;
  if has_error : bool then
    has_code <- (e <- py_getitem response_dict "error" ;;
                 py_contains e "code") ;;
    if has_code : bool then
      code <- py_path response_dict ["error"; "code"] ;;
      py_contains code "NotFoundError"
    else Ok false
  else Ok false.

(** Lines 63-71: whether the diagnostic line is printed *)
Definition prints_error (debug : bool) (response_dict : pyval) : result bool :=
  if debug then Ok true
  else nf <- is_not_found response_dict ;; Ok (negb nf).

(** Lines 76-92 *)
Definition enrich (hash : pyval) (debug : bool) (vtallvendors : pyval)
    (response_dict_code : response) (response_dict : pyval) : W dict :=
  data <- liftW (py_getitem response_dict "data") ;;
  let info := processVirustotalSampleInfo data debug vtallvendors in
  has_sha <- liftW (py_contains (PDict info) "sha256") ;;
  info <- (if has_sha : bool then
             sha <- liftW (py_getitem (PDict info) "sha256") ;;
             comments <- searchVirustotalComments sha debug ;;
             ret (dict_update comments info)
           else ret info) ;;
  let info := dict_set "hash" hash info in
  tags <- liftW (t <- py_getitem (PDict info) "tags" ;; uniqList t) ;;
  let info := dict_set "tags" tags info in
  let info :=
    if response_contains response_dict_code "Probably harmless!"
    then dict_set "harmless" (PBool true) info else info in
  let info :=
    if response_contains response_dict_code
         "This file belongs to the Microsoft Corporation software catalogue."
    then dict_set "mssoft" (PBool true) info else info in
  ret info.

Definition getVTInfo (hash : pyval) (debug : bool) (vtallvendors : pyval)
    (QUOTA_EXCEEDED_WAIT_TIME : Z) (vtwaitquota : bool) : W dict :=
  fun w =>
    match request_loop (report_url hash) QUOTA_EXCEEDED_WAIT_TIME vtwaitquota
            (script w) (trace w) with
    | (OutOfScript, w') => (OutOfScript, w')
    | (Raised e, w') => (Raised e, w')
    | (Returned (response_dict_code, response_dict), w') =>
        if negb (ok response_dict_code) then
          (_ <- liftW (prints_error debug response_dict) ;;
           ret (dict_set "hash" hash getEmptyInfo)) w'
        else enrich hash debug vtallvendors response_dict_code response_dict w'
    end.

(** *** [getRetrohuntResults], line 100 *)

(** Lines 122-142: the loop over the entries of one page, [files] threaded *)
Fixpoint files_loop (no_comments debug : bool) (vtallvendors : pyval)
    (entries : list pyval) (files : list dict) : W (list dict) :=
  match entries with
  | [] => ret files
  | file :: rest =>
      has_error <- liftW (py_contains file "error") ;;
      if has_error : bool then
        _ <- liftW (py_getitem file "id") ;;
        _ <- liftW (py_path file ["error"; "message"]) ;;
        files_loop no_comments debug vtallvendors rest files
      else
        let file_info := processVirustotalSampleInfo file debug vtallvendors in
        id <- liftW (py_getitem file "id") ;;
        let file_info := dict_set "hash" id file_info in
        rule <- liftW (py_path file ["context_attributes"; "rule_name"]) ;;
        let file_info := dict_set "matching_rule" rule file_info in
        file_info <-
          (if negb no_comments then
             id <- liftW (py_getitem file "id") ;;
             comments <- searchVirustotalComments id false ;;
             ret (dict_update comments file_info)
           else
             ret (dict_update [ (PStr "comments", PInt 0);
                                (PStr "commenter", PList []) ] file_info)) ;;
        tags <- liftW (t <- py_getitem (PDict file_info) "tags" ;; uniqList t) ;;
        let file_info := dict_set "tags" tags file_info in
        files_loop no_comments debug vtallvendors rest (files ++ [file_info])%list
  end.

(** Lines 106-150: the loop over the pages; a pass takes at least one answer
    of the script, which bounds the passes ([pages_loop_fuel]). *)
Fixpoint pages_loop (fuel : nat) (no_comments debug : bool)
    (vtallvendors : pyval) (url : pyval) (files : list dict)
    : W (list dict) :=
  match fuel with
  | O => fun w => (OutOfScript, w)
  | S fuel' =>
      response <- requests_get url ;;
      if negb (ok response) then ret files
      else
        match json_body response with
        | None => ret files
        | Some response_json =>
            entries <- liftW (d <- py_getitem response_json "data" ;;
                              py_iter d) ;;
            files <- files_loop no_comments debug vtallvendors entries files ;;
            has_next <- liftW (l <- py_getitem response_json "links" ;;
                               py_contains l "next") ;;
            if has_next : bool then
              url <- liftW (py_path response_json ["links"; "next"]) ;;
              pages_loop fuel' no_comments debug vtallvendors url files
            else ret files
        end
  end.

Definition retrohunt_url (retrohunt_id : pyval) : pyval :=
  PStr (RETROHUNT_URL ++ "/" ++ py_str retrohunt_id
        ++ "/matching_files?limit=300").

(** Line 151: [sorted(files, key=lambda i: i["matching_rule"])] *)
Definition sorted_by_matching_rule (files : list dict) : result (list dict) :=
  keys <- map_result (fun i => py_getitem (PDict i) "matching_rule") files ;;
  sorted <- sort_by_key (combine keys files) ;;
  Ok (map snd sorted).

Definition getRetrohuntResults (retrohunt_id : pyval) (no_comments debug : bool)
    (vtallvendors : pyval) : W (list dict) :=
  fun w =>
    (files <- pages_loop (S (List.length (script w))) no_comments debug
                vtallvendors (retrohunt_url retrohunt_id) [] ;;
     liftW (sorted_by_matching_rule files)) w.

End Network.

(** ** [commentVTSample], line 396, and the report script
    (munin-json-parse.py) *)

(** [commentVTSample] sends one request; [answer] is what [requests.post]
    makes of it, a response or the exception it raises.
    [response.json()] raises a [ValueError] for a body that is not JSON.
    [printHighlighted] is a name the module does not bind. *)
Definition commentVTSample (resource comment : pyval)
    (answer : result response) : result unit :=
  response <- answer ;;
  response_json <- match json_body response with
                   | Some j => Ok j
                   | None => Raise ValueError
                   end ;;
  code <- py_getitem response_json "response_code" ;;
  if negb (py_eq code (PInt 1)) then
    _ <- py_getitem response_json "verbose_msg" ;;
    Ok tt
  else
    _ <- load_global "printHighlighted" ;;
    Ok tt.

(** What the report script prints, line by line; [Highlighted] is the red
    line of a malicious entry together with the reset of the style that
    follows it. *)
Inductive report_line : Type :=
| Rule
| Total (count : Z)
| Notice
| Highlighted (hash result rating filenames : pyval)
| Plain (hash result rating : pyval).

(** [s in x["rating"]] *)
Definition rating_mentions (x : pyval) (s : string) : result bool :=
  rating <- py_getitem x "rating" ;;
  py_contains rating s.

(** Lines 18-27 of munin-json-parse.py: the line of one entry, if any *)
Definition report_entry (x : pyval) : result (option report_line) :=
  unknown <- rating_mentions x "unknown" ;;
  skipped <- (if unknown : bool then Ok true else rating_mentions x "clean") ;;
  if negb skipped then
    malicious <- rating_mentions x "malicious" ;;
    if malicious : bool then
      hash <- py_getitem x "hash" ;;
      result <- py_getitem x "result" ;;
      rating <- py_getitem x "rating" ;;
      filenames <- py_getitem x "filenames" ;;
      Ok (Some (Highlighted hash result rating filenames))
    else
      hash <- py_getitem x "hash" ;;
      result <- py_getitem x "result" ;;
      rating <- py_getitem x "rating" ;;
      Ok (Some (Plain hash result rating))
  else Ok None.

(** Lines 17-27: the loop; what was printed stays printed when an entry
    raises. *)
Fixpoint report_loop (entries : list pyval) : list report_line * result unit :=
  match entries with
  | [] => ([], Ok tt)
  | x :: rest =>
      match report_entry x with
      | Raise e => ([], Raise e)
      | Ok line =>
          let (printed, r) := report_loop rest in
          (match line with
           | Some l => l :: printed
           | None => printed
           end, r)
      end
  end.

(** Lines 11-27, on the parsed file *)
Definition report (data : pyval) : list report_line * result unit :=
  match py_len data with
  | Raise e => ([Rule], Raise e)
  | Ok n =>
      match py_iter data with
      | Raise e => ([Rule; Total n; Notice; Rule], Raise e)
      | Ok entries =>
          let (printed, r) := report_loop entries in
          ([Rule; Total n; Notice; Rule] ++ printed, r)%list
      end
  end.

(** ** A reference runtime

    One implementation of [PyRuntime], used to run the functions on
    concrete payloads.  Its arithmetic is exact: it agrees with CPython's
    floating point for sizes below 2^53 whose logarithm [math.log] floors
    correctly.  A set is listed in insertion order.  [sorted] is a stable
    insertion sort on keys that are all strings or all integers.  [str] of
    a string inside a container is the string between single quotes. *)

Module Reference.

Definition dec (z : Z) : string :=
  DecimalString.NilZero.string_of_int (Z.to_int z).

Definition floor_log1024 (b : Z) : Z := Z.log2 b / 10.

(** [b / 1024^i] in hundredths, ties to even *)
Definition round2 (b i : Z) : Z :=
  let q := b * 100 in
  let d := 1024 ^ i in
  let h := q / d in
  let r := q mod d in
  if (d <? 2 * r) || ((d =? 2 * r) && Z.odd h) then h + 1 else h.

(** [repr] of a float with at most two decimals *)
Definition float_str (hundredths : Z) : string :=
  let ip := hundredths / 100 in
  let fr := hundredths mod 100 in
  if fr mod 10 =? 0 then dec ip ++ "." ++ dec (fr / 10)
  else dec ip ++ "." ++ dec (fr / 10) ++ dec (fr mod 10).

Definition round2_str (b i : Z) : result string :=
  if (103 <=? i) || (2 ^ 1024 <=? b) then Raise OverflowError
  else Ok (float_str (round2 b i)).

Definition pad2 (z : Z) : string :=
  if z <? 10 then "0" ++ dec z else dec z.

Definition pad4 (z : Z) : string :=
  if z <? 10 then "000" ++ dec z
  else if z <? 100 then "00" ++ dec z
  else if z <? 1000 then "0" ++ dec z
  else dec z.

(** The proleptic Gregorian date of a day count from 1970-01-01 *)
Definition civil_from_days (days : Z) : Z * Z * Z :=
  let z := days + 719468 in
  let era := z / 146097 in
  let doe := z - era * 146097 in
  let yoe := (doe - doe / 1460 + doe / 36524 - doe / 146096) / 365 in
  let doy := doe - (365 * yoe + yoe / 4 - yoe / 100) in
  let mp := (5 * doy + 2) / 153 in
  let d := doy - (153 * mp + 2) / 5 + 1 in
  let m := if mp <? 10 then mp + 3 else mp - 9 in
  let y := yoe + era * 400 + (if m <=? 2 then 1 else 0) in
  (y, m, d).

Definition utc_strftime (t : Z) : result string :=
  let '(y, m, d) := civil_from_days (t / 86400) in
  let s := t mod 86400 in
  if (y <? 1) || (9999 <? y) then Raise ValueError
  else Ok (pad4 y ++ "-" ++ pad2 m ++ "-" ++ pad2 d ++ " "
           ++ pad2 (s / 3600) ++ ":" ++ pad2 (s mod 3600 / 60) ++ ":"
           ++ pad2 (s mod 60)).

Definition set_order (l : list pyval) : list pyval := l.

Definition commas (l : list string) : string := String.concat ", " l.

Fixpoint py_repr (v : pyval) : string :=
  match v with
  | PNone => "None"
  | PBool true => "True"
  | PBool false => "False"
  | PInt z => dec z
  | PStr s => "'" ++ s ++ "'"
  | PList l => "[" ++ commas (map py_repr l) ++ "]"
  | PDict d =>
      "{" ++ commas (map (fun kv => py_repr (fst kv) ++ ": " ++ py_repr (snd kv)) d)
      ++ "}"
  end.

Definition py_str (v : pyval) : string :=
  match v with
  | PStr s => s
  | _ => py_repr v
  end.

(** [a < b] on sort keys *)
Definition key_lt (a b : pyval) : result bool :=
  match a, b with
  | PStr x, PStr y => Ok (String.ltb x y)
  | (PBool _ | PInt _), (PBool _ | PInt _) =>
      match as_int a, as_int b with
      | Some x, Some y => Ok (x <? y)
      | _, _ => Raise TypeError
      end
  | _, _ => Raise TypeError
  end.

Fixpoint insert_by_key (x : pyval * dict) (l : list (pyval * dict))
    : result (list (pyval * dict)) :=
  match l with
  | [] => Ok [x]
  | y :: r =>
      lt <- key_lt (fst x) (fst y) ;;
      if lt : bool then Ok (x :: y :: r)
      else r' <- insert_by_key x r ;; Ok (y :: r')
  end.

Fixpoint sort_from (sorted l : list (pyval * dict))
    : result (list (pyval * dict)) :=
  match l with
  | [] => Ok sorted
  | x :: r => sorted' <- insert_by_key x sorted ;; sort_from sorted' r
  end.

Definition sort_by_key (l : list (pyval * dict)) : result (list (pyval * dict)) :=
  sort_from [] l.

(** The index is the floor of the logarithm: [1024^i <= b < 1024^(i+1)]. *)
Lemma floor_log1024_spec b :
  0 < b ->
  let i := floor_log1024 b in
  0 <= i /\ 1024 ^ i <= b < 1024 ^ (i + 1).
Proof.
  intros Hb i. subst i. unfold floor_log1024.
  pose proof (Z.log2_nonneg b) as Hn.
  pose proof (Z.log2_spec b Hb) as [Hlo Hhi].
  pose proof (Z.div_mod (Z.log2 b) 10 ltac:(lia)) as Hd.
  pose proof (Z.mod_pos_bound (Z.log2 b) 10 ltac:(lia)) as Hm.
  assert (Hi : 0 <= Z.log2 b / 10) by (apply Z.div_pos; lia).
  split; [exact Hi|].
  change 1024 with (2 ^ 10). rewrite <- !Z.pow_mul_r by lia.
  split.
  - apply Z.le_trans with (2 ^ Z.log2 b); [|exact Hlo].
    apply Z.pow_le_mono_r; lia.
  - apply Z.lt_le_trans with (2 ^ Z.succ (Z.log2 b)); [exact Hhi|].
    apply Z.pow_le_mono_r; lia.
Qed.

(** The rounded value is a nearest multiple of a hundredth. *)
Lemma round2_nearest b i :
  0 <= i ->
  2 * Z.abs (round2 b i * 1024 ^ i - 100 * b) <= 1024 ^ i.
Proof.
  intro Hi. unfold round2.
  assert (Hd : 0 < 1024 ^ i) by (apply Z.pow_pos_nonneg; lia).
  set (d := 1024 ^ i) in *.
  pose proof (Z.div_mod (b * 100) d ltac:(lia)) as Hq.
  pose proof (Z.mod_pos_bound (b * 100) d Hd) as Hr.
  set (h := b * 100 / d) in *. set (r := (b * 100) mod d) in *.
  destruct ((d <? 2 * r) || ((d =? 2 * r) && Z.odd h)) eqn:E.
  - apply orb_true_iff in E.
    assert (d <= 2 * r).
    { destruct E as [E|E]; [apply Z.ltb_lt in E; lia|].
      apply andb_true_iff in E. destruct E as [E _].
      apply Z.eqb_eq in E. lia. }
    replace ((h + 1) * d - 100 * b) with (d - r) by lia. lia.
  - apply orb_false_iff in E. destruct E as [E _]. apply Z.ltb_ge in E.
    replace (h * d - 100 * b) with (- r) by lia. lia.
Qed.

Lemma insert_by_key_perm x l l' :
  insert_by_key x l = Ok l' -> Permutation l' (x :: l).
Proof.
  revert l'; induction l as [|y r IH]; simpl; intros l' H.
  - injection H as <-. apply Permutation_refl.
  - destruct (key_lt (fst x) (fst y)) as [[|]|]; try discriminate.
    + injection H as <-. apply Permutation_refl.
    + destruct (insert_by_key x r) as [r'|]; try discriminate.
      injection H as <-.
      apply Permutation_trans with (y :: x :: r).
      * apply perm_skip, IH; reflexivity.
      * apply perm_swap.
Qed.

Lemma sort_from_perm l : forall sorted l',
  sort_from sorted l = Ok l' -> Permutation l' (sorted ++ l)%list.
Proof.
  induction l as [|x r IH]; simpl; intros sorted l' H.
  - injection H as <-. rewrite app_nil_r. apply Permutation_refl.
  - destruct (insert_by_key x sorted) as [s'|] eqn:E; try discriminate.
    apply IH in H. apply insert_by_key_perm in E.
    apply Permutation_trans with (s' ++ r)%list; [exact H|].
    apply Permutation_trans with ((x :: sorted) ++ r)%list.
    + apply Permutation_app_tail; exact E.
    + simpl. apply Permutation_middle.
Qed.

Lemma sort_by_key_perm l l' : sort_by_key l = Ok l' -> Permutation l' l.
Proof. intro H. apply sort_from_perm in H. exact H. Qed.

Lemma py_str_str s : py_str (PStr s) = s.
Proof. reflexivity. Qed.

#[export] Instance runtime : PyRuntime := {
  floor_log1024 := floor_log1024;
  round2_str := round2_str;
  utc_strftime := utc_strftime;
  set_order := set_order;
  set_order_perm := fun l => Permutation_refl l;
  py_str := py_str;
  py_str_str := py_str_str;
  sort_by_key := sort_by_key;
  sort_by_key_perm := sort_by_key_perm
}.

End Reference.

(** * The vocabulary of the properties *)

(** [m] keeps [P]: the record satisfies [P] after [m], returned or raised,
    when it did before. *)
Definition keeps {A} (P : dict -> Prop) (m : M A) : Prop :=
  forall s, P s -> P (fst (m s)).

(** [m] never completes: whatever the record, it raises. *)
Definition always_raises {A} (m : M A) : Prop :=
  forall s, exists s' e, m s = (s', Raise e).

(** The value of a key stays what it is. *)
Definition unchanged (k : string) (v : option pyval) (s : dict) : Prop :=
  dict_get k s = v.

(** [m] assigns to no key outside [ks]. *)
Definition writes {A} (ks : list string) (m : M A) : Prop :=
  forall (k : string) v, ~ In k ks -> keeps (unchanged k v) m.

(** The keys [processVirustotalSampleInfo] assigns to *)
Definition normalizer_fields : list string :=
  [ "filenames"; "filetype"; "filesize"; "tags"; "first_submitted";
    "times_submitted"; "reputation"; "copyright"; "description"; "imphash";
    "signer"; "signed"; "revoked"; "expired"; "md5"; "sha1"; "sha256";
    "positives"; "total"; "rating"; "last_submitted"; "vendor_results";
    "virus" ].

(** Every run of [m] that returns returns a value satisfying [Q]. *)
Definition returns {A} (m : W A) (Q : A -> Prop) : Prop :=
  forall w a w', m w = (Returned a, w') -> Q a.

(** A run of [m] that returns has taken answers from the script and given
    none back. *)
Definition shrinks {A} (m : W A) : Prop :=
  forall w a w', m w = (Returned a, w') ->
                 (List.length (script w') <= List.length (script w))%nat.

(** Two records agree on every key outside [ks]. *)
Definition agree_outside (ks : list string) (r r' : dict) : Prop :=
  forall k : string, ~ In k ks -> dict_get k r = dict_get k r'.

(** [c] has the keys of the comment record, in its order. *)
Definition comment_keys (c : dict) : Prop :=
  map fst c = map fst empty_comments.

(** The keys [getVTInfo] assigns to after the normalizer *)
Definition lookup_keys : list string :=
  ["hash"; "comments"; "commenter"; "tags"].

(** A record [getVTInfo] returns is the record of defaults or a normalized
    payload, but for the hash and the comment fields. *)
Definition lookup_record {R : PyRuntime} (debug : bool) (vtallvendors : pyval)
    (r : dict) : Prop :=
  exists base,
    (base = getEmptyInfo \/
     exists data, base = processVirustotalSampleInfo data debug vtallvendors)
    /\ agree_outside lookup_keys r base.

(** The keys [getRetrohuntResults] assigns to after the normalizer *)
Definition retrohunt_keys : list string :=
  ["hash"; "matching_rule"; "comments"; "commenter"; "tags"].

(** A record [getRetrohuntResults] returns is a normalized entry, but for
    the hash, the rule and the comment fields; without comment enrichment
    the comment count is 0, the commenters are the empty list and the tags
    are the normalized entry's, de-duplicated. *)
Definition retrohunt_record {R : PyRuntime} (no_comments debug : bool)
    (vtallvendors : pyval) (r : dict) : Prop :=
  exists file,
    agree_outside retrohunt_keys r
      (processVirustotalSampleInfo file debug vtallvendors)
    /\ (no_comments = true ->
        dict_get "comments" r = Some (PInt 0)
        /\ dict_get "commenter" r = Some (PList [])
        /\ exists t tags,
             dict_get "tags"
               (processVirustotalSampleInfo file debug vtallvendors) = Some t
             /\ uniqList t = Ok tags
             /\ dict_get "tags" r = Some tags).

(** Lines 291-296: the rating of [z] positives *)
Definition rate (z : Z) : string :=
  if z =? 0 then "clean" else if z <=? 10 then "suspicious" else "malicious".

(** The rating is the default, or the one of the positives. *)
Definition rating_by_positives (r : dict) : Prop :=
  dict_get "rating" r = Some (PStr "unknown")
  \/ exists z, dict_get "positives" r = Some (PInt z)
               /\ dict_get "rating" r = Some (PStr (rate z)).

(** The basename of a path whose backslashes count as slashes *)
Definition xbase (path : string) : string :=
  basename (str_replace backslash "/"%char path).

(** Semicolons replaced by underscores *)
Definition semis (s : string) : string := str_replace ";"%char "_"%char s.

(** [l] without the first occurrence of [x] *)
Fixpoint remove_first (x : string) (l : list string) : list string :=
  match l with
  | [] => []
  | y :: r => if String.eqb y x then r else y :: remove_first x r
  end.

(** The members of ["attributes"] read without a membership test, each
    with the position in [normalizer_fields] of the first field its
    statement assigns *)
Definition unguarded : list (string * nat) :=
  [ ("names", 0%nat); ("type_description", 1%nat); ("size", 2%nat);
    ("tags", 3%nat); ("first_submission_date", 4%nat);
    ("times_submitted", 5%nat); ("reputation", 6%nat);
    ("md5", 14%nat); ("sha1", 15%nat); ("sha256", 16%nat);
    ("last_analysis_stats", 17%nat); ("last_submission_date", 20%nat);
    ("last_analysis_results", 21%nat) ].

(** The field has in [r] the value it has in the record of defaults (none,
    when the defaults lack it). *)
Definition at_default (r : dict) (field : string) : Prop :=
  dict_get field r = dict_get field getEmptyInfo.

(** Lines 213-279: what comes before the stats *)
Definition before_stats {R : PyRuntime} (sample_info : pyval) : M unit :=
  filenames_block sample_info ;;;
  properties_block sample_info ;;;
  exiftool_block sample_info ;;;
  pe_info_block sample_info ;;;
  signature_block sample_info ;;;
  hashes_block sample_info.

(** The fields the stats and virus-name statements assign to *)
Definition stats_fields : list string :=
  ["positives"; "total"; "rating"; "last_submitted"; "vendor_results"; "virus"].

(** ** The vocabulary of the further properties *)

(** [P] survives every assignment to the record. *)
Definition set_stable (P : dict -> Prop) : Prop :=
  forall k v s, P s -> P (dict_set k v s).

Definition has_key (k : string) (s : dict) : Prop := dict_get k s <> None.

(** The keys of the record of defaults *)
Definition baseline_keys : list string :=
  [ "hash"; "result"; "virus"; "last_submitted"; "first_submitted";
    "filenames"; "filetype"; "rating"; "positives"; "imphash"; "harmless";
    "revoked"; "signed"; "expired"; "mssoft"; "vendor_results"; "signer";
    "vt_queried"; "tags"; "copyright"; "description"; "times_submitted";
    "reputation"; "filesize" ].

(** No two elements of [l] are the same set element. *)
Fixpoint no_duplicates (l : list pyval) : bool :=
  match l with
  | [] => true
  | x :: r => negb (existsb (key_eqb x) r) && no_duplicates r
  end.

(** The tags of [r] are a list without duplicates. *)
Definition tags_are_distinct (r : dict) : Prop :=
  exists l, dict_get "tags" r = Some (PList l) /\ no_duplicates l = true.


(** [com] is a comment by [author] with the tags [tags]. *)
Definition comment_of (com author : pyval) (tags : list pyval) : Prop :=
  py_path com ["relationships"; "author"; "data"; "id"] = Ok author
  /\ py_path com ["attributes"; "tags"] = Ok (PList tags).

(** The record of [count] comments by [authors] with [tags] *)
Definition comment_record (count : Z) (authors tags : list pyval) : dict :=
  [ (PStr "comments", PInt count);
    (PStr "commenter", PList authors);
    (PStr "tags", PList tags) ].

Definition is_get (e : event) : bool :=
  match e with
  | EGet _ => true
  | ESleep _ => false
  end.

(** [m] sends requests and does not sleep: it adds only requests to the
    trace. *)
Definition only_gets {A} (m : W A) : Prop :=
  forall w, exists gets,
    trace (snd (m w)) = (trace w ++ gets)%list
    /\ forallb is_get gets = true.

(** An answer the loop cannot use: the request raised, or the body is not
    JSON. *)
Definition unusable (answer : result response) : bool :=
  match answer with
  | Raise _ => true
  | Ok r => match json_body r with
            | None => true
            | Some _ => false
            end
  end.

(** The flag [k] is [False], or it is [True] and [why] holds. *)
Definition flag_only_if (k : string) (why : Prop) (s : dict) : Prop :=
  dict_get k s = Some (PBool false)
  \/ (dict_get k s = Some (PBool true) /\ why).

(** The verified status of the signature *)
Definition verified (sample_info : pyval) : result pyval :=
  attr2 sample_info "signature_info" "verified".

Definition why_signed (sample_info : pyval) : Prop :=
  verified sample_info = Ok (PStr "Signed").

Definition why_mentions (sample_info : pyval) (word : string) : Prop :=
  exists v, verified sample_info = Ok v /\ py_contains v word = Ok true.

(** The three fields at their defaults *)
Definition never_filled (r : dict) : Prop :=
  dict_get "result" r = Some (PStr "- / -")
  /\ dict_get "harmless" r = Some (PBool false)
  /\ dict_get "mssoft" r = Some (PBool false).

Definition has_char (c : ascii) (s : string) : bool :=
  existsb (Ascii.eqb c) (list_ascii_of_string s).

(** The [filenames] of the record, when a string, hold no semicolon. *)
Definition filenames_are_safe (s : dict) : Prop :=
  forall x, dict_get "filenames" s = Some (PStr x) -> has_char ";" x = false.

(** The value of a field of a record, [None] for a missing one *)
Definition record_field (k : string) (r : dict) : pyval :=
  match dict_get k r with
  | Some v => v
  | None => PNone
  end.

(** The line of a record by its rating: a plain one for [suspicious], a
    highlighted one with the file names for [malicious], none otherwise *)
Definition line_of_record (r : dict) : list report_line :=
  match dict_get "rating" r with
  | Some (PStr rating) =>
      if String.eqb rating "suspicious" then
        [Plain (record_field "hash" r) (record_field "result" r)
           (PStr rating)]
      else if String.eqb rating "malicious" then
        [Highlighted (record_field "hash" r) (record_field "result" r)
           (PStr rating) (record_field "filenames" r)]
      else []
  | _ => []
  end.

(** What the script reads of a record: the rating, one of the four of the
    normalizer, and the three fields of the lines *)
Definition reportable (r : dict) : Prop :=
  rating_by_positives r
  /\ has_key "hash" r /\ has_key "result" r /\ has_key "filenames" r.

(** [k] is one of the vendors the loop of line 312 goes through: a key of
    the scans when [VENDORS] starts with ["ALL"], an element of [VENDORS]
    otherwise. *)
Definition listed_vendor (sample_info VENDORS k : pyval) : Prop :=
  exists first vendors,
    py_getitem VENDORS (PInt 0) = Ok first
    /\ (if py_eq first "ALL"
        then scans <- attr sample_info "last_analysis_results" ;;
             py_iter scans
        else py_iter VENDORS) = Ok vendors
    /\ In k vendors.

(** The entries of [vendor_results]: vendors that satisfy [listed], each
    with a dash or a result that counts as true. *)
Definition vendor_results_in (listed : pyval -> Prop) (s : dict) : Prop :=
  exists d,
    dict_get "vendor_results" s = Some (PDict d)
    /\ Forall (fun kv => listed (fst kv)
                         /\ (snd kv = PStr "-" \/ py_truthy (snd kv) = true))
         d.

(** * Payloads to run the functions on, and what the reference runtime
    makes of them *)

Definition members (l : list (string * pyval)) : dict :=
  map (fun kv => (PStr (fst kv), snd kv)) l.

Definition obj (l : list (string * pyval)) : pyval := PDict (members l).

Definition without (k : string) (members : list (string * pyval))
    : list (string * pyval) :=
  filter (fun kv => negb (String.eqb (fst kv) k)) members.

Definition example_attributes : list (string * pyval) :=
  [ ("names", PList [PStr "C:\a\b.exe"; PStr "b.exe"]);
    ("meaningful_name", PStr "b.exe");
    ("type_description", PStr "Win32 EXE");
    ("size", PInt 1536);
    ("tags", PList [PStr "peexe"]);
    ("first_submission_date", PInt 1600000000);
    ("times_submitted", PInt 3);
    ("reputation", PInt 0);
    ("md5", PStr "0cc175b9c0f1b6a831c399e269772661");
    ("sha1", PStr "86f7e437faa5a7fce15d1ddcb9eaeaea377667b8");
    ("sha256", PStr "ca978112ca1bbdcafac231b39a23dc4da786eff8147c4e72b9807785afee48bb");
    ("last_analysis_stats",
     obj [ ("malicious", PInt 20); ("suspicious", PInt 1);
           ("undetected", PInt 40); ("harmless", PInt 0) ]);
    ("last_submission_date", PInt 1700000000);
    ("last_analysis_results",
     obj [ ("VendorA", obj [("result", PStr "Trojan.Generic")]);
           ("VendorB", obj [("result", PNone)]) ]) ].

Definition entry_members (attributes : list (string * pyval)) : dict :=
  members [ ("id", PStr "ca978112");
            ("attributes", obj attributes);
            ("context_attributes", obj [("rule_name", PStr "rule_b")]) ].

Definition example_entry (attributes : list (string * pyval)) : pyval :=
  PDict (entry_members attributes).

Definition example_sample : pyval := example_entry example_attributes.

Definition http (status : Z) (body : pyval) : result response :=
  Ok {| status_code := status; json_body := Some body |}.

Definition example_comment : pyval :=
  obj [ ("relationships",
         obj [("author", obj [("data", obj [("id", PStr "analyst")])])]);
        ("attributes", obj [("tags", PList [PStr "apt"; PStr "apt"])]) ].

(** A report, then the comments of the sample *)
Definition lookup_world : world :=
  {| script := [ http 200 (obj [("data", example_sample)]);
                 http 200 (obj [("data", PList [example_comment])]) ];
     trace := [] |}.

(** One page of one match, no further page *)
Definition retrohunt_world : world :=
  {| script := [ http 200 (obj [ ("data", PList [example_sample]);
                                 ("links", obj []) ]) ];
     trace := [] |}.

Definition ALL : pyval := PList [PStr "ALL"].

(** What the reference runtime makes of them *)
Definition returned {A} (default : A) (o : outcome A * world) : A :=
  match fst o with
  | Returned a => a
  | _ => default
  end.

Definition lookup_run : outcome dict * world :=
  getVTInfo (R := Reference.runtime) "ca978112" false ALL 600 false
    lookup_world.

Definition lookup_result : dict := Eval vm_compute in returned [] lookup_run.

Definition retrohunt_run : outcome (list dict) * world :=
  getRetrohuntResults (R := Reference.runtime) "job" true false ALL
    retrohunt_world.

Definition retrohunt_result : list dict :=
  Eval vm_compute in returned [] retrohunt_run.

Definition quota_body : pyval :=
  obj [("data", obj [("attributes", obj [("quotas", obj
    [ ("api_requests_daily", obj [("used", PInt 5); ("allowed", PInt 500)]);
      ("api_requests_monthly",
       obj [("used", PInt 70); ("allowed", PInt 15500)]) ])])])].

Definition quota_exceeded : response :=
  {| status_code := 429;
     json_body := Some (obj [("error",
                              obj [ ("code", PStr "QuotaExceededError");
                                    ("message", PStr "Quota exceeded") ])]) |}.

Definition without_tags : list (string * pyval) :=
  without "tags" example_attributes.

Definition without_type : list (string * pyval) :=
  without "type_description" example_attributes.

Definition without_stats : list (string * pyval) :=
  without "last_analysis_stats" example_attributes.

Definition partial_record : dict :=
  Eval vm_compute in
    processVirustotalSampleInfo (R := Reference.runtime)
      (example_entry without_stats) false ALL.

(** ** Further payloads *)

Definition duplicated_tags : pyval :=
  PList [PStr "apt"; PStr "peexe"; PStr "apt"; PInt 1; PBool true].

Definition comments_answer : response :=
  {| status_code := 200;
     json_body := Some (obj [("data", PList [example_comment; example_comment])]) |}.

Definition not_found : result response :=
  http 404 (obj [("error", obj [("code", PStr "NotFoundError")])]).

Definition suspicious_sample : pyval :=
  example_entry
    (("last_analysis_stats",
      obj [ ("malicious", PInt 2); ("suspicious", PInt 1);
            ("undetected", PInt 58); ("harmless", PInt 0) ])
       :: without "last_analysis_stats" example_attributes).

Definition reported_records : list dict :=
  Eval vm_compute in
    lookup_result
      :: map (fun sample =>
                processVirustotalSampleInfo (R := Reference.runtime)
                  sample false ALL)
           [obj []; suspicious_sample].

Definition reported_lines : list report_line :=
  Eval vm_compute in flat_map line_of_record reported_records.

(** * Properties *)

(** ** Dicts *)

Lemma key_eqb_str (a b : string) : key_eqb a b = String.eqb a b.
Proof. reflexivity. Qed.

(** Two keys equal to a third are equal to each other. *)
Lemma key_eqb_congr k k1 k2 :
  key_eqb k1 k2 = true -> key_eqb k k2 = key_eqb k k1.
Proof.
  destruct k1 as [|b1|z1|s1|l1|d1], k2 as [|b2|z2|s2|l2|d2];
    simpl; try discriminate; intro H;
    destruct k as [|b|z|s|l|d]; simpl; try reflexivity;
    try (apply Z.eqb_eq in H; rewrite H; reflexivity);
    try (apply String.eqb_eq in H; rewrite H; reflexivity).
Qed.

Lemma dict_get_set_same k v d :
  key_eqb k k = true -> dict_get k (dict_set k v d) = Some v.
Proof.
  intro Hk. induction d as [|[k' v'] r IH]; simpl.
  - now rewrite Hk.
  - destruct (key_eqb k k') eqn:E; simpl; rewrite E; auto.
Qed.

Lemma dict_get_set_other k k' v d :
  key_eqb k k' = false -> dict_get k (dict_set k' v d) = dict_get k d.
Proof.
  intro Hk. induction d as [|[k2 v2] r IH]; simpl.
  - now rewrite Hk.
  - destruct (key_eqb k' k2) eqn:E; simpl.
    + rewrite (key_eqb_congr k _ _ E), Hk. reflexivity.
    + rewrite IH. reflexivity.
Qed.

(** ** The record under construction: what a computation in [M] keeps *)

Section Keeps.
Variable P : dict -> Prop.

Lemma keeps_ret {A} (a : A) : keeps P (ret a).
Proof. intros s H; exact H. Qed.

Lemma keeps_lift {A} (r : result A) : keeps P (lift r).
Proof. intros s H; exact H. Qed.

Lemma keeps_bind {A B} (c : M A) (k : A -> M B) :
  keeps P c -> (forall a, keeps P (k a)) -> keeps P (bind c k).
Proof.
  intros Hc Hk s Hs. specialize (Hc s Hs). simpl.
  destruct (c s) as [s' [a|e]]; simpl in *; [apply Hk|]; assumption.
Qed.

Lemma keeps_bind_raises {A B} (c : M A) (k : A -> M B) :
  keeps P c -> always_raises c -> keeps P (bind c k).
Proof.
  intros Hc Hr s Hs. specialize (Hc s Hs). simpl.
  destruct (Hr s) as (s' & e & E). rewrite E in *. exact Hc.
Qed.

Lemma keeps_setitem k v :
  (forall s, P s -> P (dict_set k v s)) -> keeps P (setitem k v).
Proof. intros H s Hs. apply H, Hs. Qed.

Lemma keeps_getinfo k : keeps P (getinfo k).
Proof. intros s H; exact H. Qed.

Lemma keeps_list_method k f :
  (forall v s, P s -> P (dict_set k v s)) -> keeps P (list_method k f).
Proof.
  intro H. unfold list_method. apply keeps_bind; [apply keeps_getinfo|].
  intros [| | | |l|]; try apply keeps_lift. apply keeps_setitem, H.
Qed.

End Keeps.

Lemma always_raises_lift {A} (e : exn) : always_raises (@lift A (Raise e)).
Proof. intros s; exists s, e; reflexivity. Qed.

Lemma always_raises_bind_l {A B} (c : M A) (k : A -> M B) :
  always_raises c -> always_raises (bind c k).
Proof.
  intros H s. destruct (H s) as (s' & e & E). exists s', e.
  simpl. now rewrite E.
Qed.

Lemma always_raises_bind_r {A B} (c : M A) (k : A -> M B) :
  (forall a, always_raises (k a)) -> always_raises (bind c k).
Proof.
  intros H s. simpl. destruct (c s) as [s' [a|e]].
  - apply H.
  - exists s', e; reflexivity.
Qed.

Lemma unchanged_set (k k' : string) v v' s :
  String.eqb k k' = false -> unchanged k v s -> unchanged k v (dict_set k' v' s).
Proof.
  unfold unchanged. intros E H. rewrite dict_get_set_other; auto.
Qed.

Lemma writes_incl {A} ks ks' (m : M A) :
  incl ks ks' -> writes ks m -> writes ks' m.
Proof. intros Hi Hw k v Hk. apply Hw. intro H; apply Hk, Hi, H. Qed.

Lemma writes_bind {A B} ks (c : M A) (k : A -> M B) :
  writes ks c -> (forall a, writes ks (k a)) -> writes ks (bind c k).
Proof. intros Hc Hk x v Hx. apply keeps_bind; [apply Hc|intro; apply Hk]; auto. Qed.

Ltac not_the_key Hk :=
  apply String.eqb_neq; intro; subst; apply Hk; simpl; tauto.

Ltac keeps_step Hk :=
  first
    [ apply keeps_ret
    | apply keeps_lift
    | apply keeps_getinfo
    | apply keeps_setitem; intros; apply unchanged_set;
      [not_the_key Hk | assumption]
    | apply keeps_list_method; intros; apply unchanged_set;
      [not_the_key Hk | assumption]
    | apply keeps_bind; [ | intros ]
    | match goal with
      | |- keeps _ (if ?b then _ else _) => destruct b
      | |- keeps _ (match ?x with _ => _ end) => destruct x
      end ].

Ltac writes_tac :=
  let k := fresh "k" in
  let v := fresh "v" in
  let Hk := fresh "Hk" in
  intros k v Hk; repeat keeps_step Hk.

Section NormalizerWrites.
Context {R : PyRuntime}.
Variables sample_info VENDORS : pyval.

Lemma filenames_block_writes :
  writes ["filenames"] (filenames_block sample_info).
Proof. unfold filenames_block. writes_tac. Qed.

Lemma properties_block_writes :
  writes ["filetype"; "filesize"; "tags"; "first_submitted";
          "times_submitted"; "reputation"] (properties_block sample_info).
Proof. unfold properties_block. writes_tac. Qed.

Lemma exiftool_block_writes :
  writes ["copyright"; "description"] (exiftool_block sample_info).
Proof. unfold exiftool_block. writes_tac. Qed.

Lemma pe_info_block_writes :
  writes ["imphash"] (pe_info_block sample_info).
Proof. unfold pe_info_block. writes_tac. Qed.

Lemma signature_block_writes :
  writes ["signer"; "signed"; "revoked"; "expired"]
    (signature_block sample_info).
Proof. unfold signature_block. writes_tac. Qed.

Lemma hashes_block_writes :
  writes ["md5"; "sha1"; "sha256"] (hashes_block sample_info).
Proof. unfold hashes_block. writes_tac. Qed.

Lemma stats_block_writes :
  writes ["positives"; "total"; "rating"] (stats_block sample_info).
Proof. unfold stats_block. writes_tac. Qed.

Lemma last_submitted_block_writes :
  writes ["last_submitted"] (last_submitted_block sample_info).
Proof. unfold last_submitted_block. writes_tac. Qed.

Lemma set_vendor_result_writes vendor v :
  writes ["vendor_results"; "virus"] (set_vendor_result vendor v).
Proof. unfold set_vendor_result. writes_tac. Qed.

Lemma vendor_loop_writes scans vendors : forall names,
  writes ["vendor_results"; "virus"] (vendor_loop scans vendors names).
Proof.
  induction vendors as [|vendor rest IH]; intros names; cbn [vendor_loop].
  - writes_tac.
  - repeat first
      [ apply IH
      | apply set_vendor_result_writes
      | apply writes_bind; [ | intros ]
      | match goal with
        | |- writes _ (if ?b then _ else _) => destruct b
        end
      | solve [writes_tac] ].
Qed.

Lemma virus_block_writes :
  writes ["vendor_results"; "virus"] (virus_block sample_info VENDORS).
Proof.
  unfold virus_block.
  repeat first
    [ apply vendor_loop_writes
    | apply writes_bind; [ | intros ]
    | match goal with
      | |- writes _ (match ?x with _ => _ end) => destruct x
      end
    | solve [writes_tac] ].
Qed.

End NormalizerWrites.

Ltac by_block lemma :=
  eapply writes_incl; [ | apply lemma ];
  let x := fresh in let H := fresh in
  intros x H; simpl in H |- *; tauto.

Lemma try_block_writes {R : PyRuntime} sample_info VENDORS :
  writes normalizer_fields (try_block sample_info VENDORS).
Proof.
  unfold try_block. apply writes_bind; [writes_tac|].
  intros has. destruct (negb has); [writes_tac|].
  apply writes_bind; [by_block (filenames_block_writes sample_info)|intros _].
  apply writes_bind; [by_block (properties_block_writes sample_info)|intros _].
  apply writes_bind; [by_block (exiftool_block_writes sample_info)|intros _].
  apply writes_bind; [by_block (pe_info_block_writes sample_info)|intros _].
  apply writes_bind; [by_block (signature_block_writes sample_info)|intros _].
  apply writes_bind; [by_block (hashes_block_writes sample_info)|intros _].
  apply writes_bind; [by_block (stats_block_writes sample_info)|intros _].
  apply writes_bind;
    [by_block (last_submitted_block_writes sample_info)|intros _].
  by_block (virus_block_writes sample_info VENDORS).
Qed.

(** A key the normalizer does not assign to has its default in the record
    it returns. *)
Lemma normalizer_frame {R : PyRuntime} sample_info debug VENDORS (k : string) :
  ~ In k normalizer_fields ->
  dict_get k (processVirustotalSampleInfo sample_info debug VENDORS)
  = dict_get k getEmptyInfo.
Proof.
  intro Hk. unfold processVirustotalSampleInfo.
  apply (try_block_writes sample_info VENDORS (v := dict_get k getEmptyInfo) Hk).
  reflexivity.
Qed.

(** ** The network functions: what a run that returns returns *)

Lemma returns_ret {A} (a : A) (Q : A -> Prop) : Q a -> returns (ret a) Q.
Proof. intros H w a' w' E. injection E as <- _. exact H. Qed.

Lemma returns_liftW {A} (r : result A) (Q : A -> Prop) :
  (forall a, r = Ok a -> Q a) -> returns (liftW r) Q.
Proof.
  intros H w a w' E. unfold liftW in E. destruct r; [|discriminate].
  injection E as <- _. now apply H.
Qed.

Lemma returns_bind {A B} (c : W A) (k : A -> W B) (P : A -> Prop) Q :
  returns c P -> (forall a, P a -> returns (k a) Q) -> returns (bind c k) Q.
Proof.
  intros Hc Hk w b w' E. simpl in E.
  destruct (c w) as [[a|e|] w1] eqn:Ec; try discriminate.
  eapply Hk; [eapply Hc; exact Ec | exact E].
Qed.

Lemma returns_true {A} (c : W A) : returns c (fun _ => True).
Proof. intros w a w' _. exact I. Qed.

Lemma agree_outside_refl ks r : agree_outside ks r r.
Proof. intros k _. reflexivity. Qed.

Lemma agree_outside_set ks (k : string) v r r' :
  In k ks -> agree_outside ks r r' -> agree_outside ks (dict_set k v r) r'.
Proof.
  intros Hin H x Hx. rewrite dict_get_set_other; [apply H, Hx|].
  rewrite key_eqb_str. apply String.eqb_neq. intros ->. apply Hx, Hin.
Qed.

Lemma agree_outside_trans ks r1 r2 r3 :
  agree_outside ks r1 r2 -> agree_outside ks r2 r3 -> agree_outside ks r1 r3.
Proof. intros H1 H2 k Hk. rewrite H1, H2; auto. Qed.

(** *** The comment record has the three comment keys, whatever happens *)

Lemma comment_keys_set (k : string) v c :
  In k ["comments"; "commenter"; "tags"] ->
  comment_keys c -> comment_keys (dict_set k v c).
Proof.
  unfold comment_keys. intros Hk Hc.
  destruct c as [|[k1 v1] [|[k2 v2] [|[k3 v3] [|? ?]]]]; try discriminate.
  simpl in Hc. injection Hc as -> -> ->.
  simpl in Hk. destruct Hk as [<-|[<-|[<-|[]]]]; reflexivity.
Qed.

Ltac comment_keys_step :=
  first
    [ apply keeps_ret
    | apply keeps_lift
    | apply keeps_getinfo
    | apply keeps_setitem; intros; apply comment_keys_set;
      [simpl; tauto | assumption]
    | apply keeps_list_method; intros; apply comment_keys_set;
      [simpl; tauto | assumption]
    | apply keeps_bind; [ | intros ]
    | match goal with
      | |- keeps _ (if ?b then _ else _) => destruct b
      end ].

Section CommentKeys.
Context {R : PyRuntime}.

Lemma comments_loop_keys coms : keeps comment_keys (comments_loop coms).
Proof.
  induction coms as [|com rest IH]; cbn [comments_loop].
  - apply keeps_ret.
  - unfold list_extend. repeat first [ apply IH | comment_keys_step ].
Qed.

Lemma comments_block_keys r_comments :
  keeps comment_keys (comments_block r_comments).
Proof.
  unfold comments_block.
  repeat first [ apply comments_loop_keys | comment_keys_step ].
Qed.

Lemma searchVirustotalComments_keys sha256 debug :
  returns (searchVirustotalComments sha256 debug) comment_keys.
Proof.
  intros w c w' E. unfold searchVirustotalComments in E.
  destruct (requests_get (comment_url sha256) w) as [[r|e|] w1];
    try discriminate.
  - destruct (negb (ok r)).
    + injection E as <- _. reflexivity.
    + destruct (json_body r) as [j|]; injection E as <- _.
      * apply comments_block_keys. reflexivity.
      * reflexivity.
  - injection E as <- _. reflexivity.
Qed.

End CommentKeys.

Lemma dict_update_comments c info :
  comment_keys c ->
  agree_outside ["comments"; "commenter"; "tags"] (dict_update c info) info.
Proof.
  unfold comment_keys. intro Hc.
  destruct c as [|[k1 v1] [|[k2 v2] [|[k3 v3] [|? ?]]]]; try discriminate.
  simpl in Hc. injection Hc as -> -> ->.
  unfold dict_update; simpl.
  repeat (apply agree_outside_set; [simpl; tauto|]).
  apply agree_outside_refl.
Qed.

Lemma agree_outside_incl ks ks' r r' :
  incl ks ks' -> agree_outside ks r r' -> agree_outside ks' r r'.
Proof. intros Hi H k Hk. apply H. intro Hin. apply Hk, Hi, Hin. Qed.

(** *** The records of [getVTInfo] *)

Section LookupRecords.
Context {R : PyRuntime}.

Lemma enrich_record hash debug vtallvendors response_dict_code response_dict :
  returns (enrich hash debug vtallvendors response_dict_code response_dict)
          (lookup_record debug vtallvendors).
Proof.
  unfold enrich.
  eapply returns_bind; [apply returns_true|]. intros data _. cbv zeta.
  eapply returns_bind; [apply returns_true|]. intros has_sha _.
  eapply returns_bind with
    (P := fun info => agree_outside lookup_keys info
            (processVirustotalSampleInfo data debug vtallvendors)).
  - destruct has_sha.
    + eapply returns_bind; [apply returns_true|]. intros sha _.
      eapply returns_bind; [apply searchVirustotalComments_keys|].
      intros c Hc. apply returns_ret.
      eapply agree_outside_incl; [|apply dict_update_comments, Hc].
      intros x Hx; simpl in Hx |- *; tauto.
    + apply returns_ret, agree_outside_refl.
  - intros info Hinfo.
    eapply returns_bind; [apply returns_true|]. intros tags _.
    unfold response_contains. apply returns_ret.
    exists (processVirustotalSampleInfo data debug vtallvendors).
    split; [right; eexists; reflexivity|].
    repeat (apply agree_outside_set; [simpl; tauto|]). exact Hinfo.
Qed.

Lemma getVTInfo_record hash debug vtallvendors wait vtwaitquota :
  returns (getVTInfo hash debug vtallvendors wait vtwaitquota)
          (lookup_record debug vtallvendors).
Proof.
  intros w r w' E. unfold getVTInfo in E.
  destruct (request_loop (report_url hash) wait vtwaitquota (script w) (trace w))
    as [[[rc rd]|e|] w1]; try discriminate.
  destruct (negb (ok rc)).
  - simpl in E. unfold liftW in E.
    destruct (prints_error debug rd); [|discriminate].
    injection E as <- _.
    exists getEmptyInfo. split; [left; reflexivity|].
    refine (@agree_outside_set lookup_keys "hash" hash getEmptyInfo
              getEmptyInfo _ (agree_outside_refl _ _)).
    simpl; tauto.
  - eapply enrich_record; exact E.
Qed.

End LookupRecords.

(** *** The records of [getRetrohuntResults] *)

Section RetrohuntRecords.
Context {R : PyRuntime}.
Variables (no_comments debug : bool) (vtallvendors : pyval).

Let Rec := retrohunt_record no_comments debug vtallvendors.

Lemma files_loop_records entries : forall files,
  Forall Rec files ->
  returns (files_loop no_comments debug vtallvendors entries files) (Forall Rec).
Proof.
  induction entries as [|file rest IH]; intros files Hfiles;
    cbn [files_loop].
  - apply returns_ret, Hfiles.
  - eapply returns_bind; [apply returns_true|]. intros has_error _.
    destruct has_error.
    + eapply returns_bind; [apply returns_true|]. intros _ _.
      eapply returns_bind; [apply returns_true|]. intros _ _.
      apply IH, Hfiles.
    + cbv zeta.
      eapply returns_bind; [apply returns_true|]. intros id _.
      eapply returns_bind; [apply returns_true|]. intros rule _.
      set (normalized := processVirustotalSampleInfo file debug vtallvendors).
      set (tagged := dict_set "matching_rule" rule (dict_set "hash" id normalized)).
      assert (Htagged : agree_outside retrohunt_keys tagged normalized).
      { subst tagged. repeat (apply agree_outside_set; [simpl; tauto|]).
        apply agree_outside_refl. }
      assert (Htags : dict_get "tags" tagged = dict_get "tags" normalized).
      { subst tagged. rewrite !dict_get_set_other by reflexivity. reflexivity. }
      eapply returns_bind with
        (P := fun fi => agree_outside retrohunt_keys fi normalized
                /\ (no_comments = true ->
                    dict_get "comments" fi = Some (PInt 0)
                    /\ dict_get "commenter" fi = Some (PList [])
                    /\ dict_get "tags" fi = dict_get "tags" normalized)).
      * destruct no_comments; simpl negb; cbv iota.
        -- apply returns_ret. split.
           ++ unfold dict_update; simpl fold_left.
              do 2 (apply agree_outside_set; [simpl; tauto|]).
              exact Htagged.
           ++ intros _. unfold dict_update; simpl fold_left.
              rewrite dict_get_set_other by reflexivity.
              rewrite !dict_get_set_same by reflexivity.
              rewrite !dict_get_set_other by reflexivity.
              auto.
        -- eapply returns_bind; [apply returns_true|]. intros id' _.
           eapply returns_bind; [apply searchVirustotalComments_keys|].
           intros c Hc. apply returns_ret. split; [|discriminate].
           eapply agree_outside_trans; [|exact Htagged].
           eapply agree_outside_incl; [|apply dict_update_comments, Hc].
           intros x Hx; simpl in Hx |- *; tauto.
      * intros fi [Hfi Hno].
        eapply returns_bind with
          (P := fun tags => exists t, dict_get "tags" fi = Some t
                                      /\ uniqList t = Ok tags).
        -- apply returns_liftW. intros tags E.
           simpl in E. destruct (dict_get "tags" fi) as [t|]; [|discriminate].
           exists t. split; [reflexivity|exact E].
        -- intros tags (t & Ht & Hu). apply IH.
           apply Forall_app. split; [exact Hfiles|].
           constructor; [|constructor].
           exists file. fold normalized. split.
           ++ apply agree_outside_set; [simpl; tauto|exact Hfi].
           ++ intros Hnc. destruct (Hno Hnc) as (Hc & Hcr & Htg).
              rewrite !dict_get_set_other by reflexivity.
              split; [exact Hc|]. split; [exact Hcr|].
              exists t, tags. rewrite <- Htg, Ht.
              rewrite dict_get_set_same by reflexivity. auto.
Qed.

Lemma pages_loop_records fuel : forall url files,
  Forall Rec files ->
  returns (pages_loop fuel no_comments debug vtallvendors url files)
          (Forall Rec).
Proof.
  induction fuel as [|fuel IH]; intros url files Hfiles; cbn [pages_loop].
  - intros w a w' E. discriminate.
  - eapply returns_bind; [apply returns_true|]. intros response _.
    destruct (negb (ok response)); [apply returns_ret, Hfiles|].
    destruct (json_body response) as [response_json|];
      [|apply returns_ret, Hfiles].
    eapply returns_bind; [apply returns_true|]. intros entries _.
    eapply returns_bind; [apply files_loop_records, Hfiles|].
    intros files' Hfiles'.
    eapply returns_bind; [apply returns_true|]. intros has_next _.
    destruct has_next; [|apply returns_ret, Hfiles'].
    eapply returns_bind; [apply returns_true|]. intros url' _.
    apply IH, Hfiles'.
Qed.

Lemma map_result_length {A B} (f : A -> result B) l : forall l',
  map_result f l = Ok l' -> List.length l' = List.length l.
Proof.
  induction l as [|x r IH]; simpl; intros l' E.
  - injection E as <-. reflexivity.
  - destruct (f x); [|discriminate].
    destruct (map_result f r) as [ys|]; [|discriminate].
    injection E as <-. simpl. f_equal. apply IH. reflexivity.
Qed.

Lemma map_snd_combine {A B} (l : list A) : forall (l' : list B),
  List.length l = List.length l' -> map snd (combine l l') = l'.
Proof.
  induction l as [|x r IH]; intros [|y r']; simpl; try discriminate; auto.
  intro E. f_equal. apply IH. now injection E.
Qed.

Lemma sorted_by_matching_rule_perm files sorted :
  sorted_by_matching_rule files = Ok sorted -> Permutation sorted files.
Proof.
  unfold sorted_by_matching_rule. cbn [bind result_monad].
  destruct (map_result (fun i => py_getitem (PDict i) "matching_rule") files)
    as [keys|] eqn:Ek; [|discriminate].
  destruct (sort_by_key (combine keys files)) as [s|] eqn:Es; [|discriminate].
  intro E. injection E as <-.
  apply sort_by_key_perm in Es. apply map_result_length in Ek.
  rewrite <- (map_snd_combine keys files Ek).
  apply Permutation_map, Es.
Qed.

Lemma getRetrohuntResults_records retrohunt_id :
  returns (getRetrohuntResults retrohunt_id no_comments debug vtallvendors)
          (Forall Rec).
Proof.
  intros w rs w' E. unfold getRetrohuntResults in E.
  revert E. generalize (S (List.length (script w))). intros fuel E.
  revert w rs w' E.
  change (returns
            (files <- pages_loop fuel no_comments debug vtallvendors
                        (retrohunt_url retrohunt_id) [] ;;
             liftW (sorted_by_matching_rule files)) (Forall Rec)).
  eapply returns_bind; [apply pages_loop_records; constructor|].
  intros files Hfiles. apply returns_liftW. intros sorted Es.
  apply sorted_by_matching_rule_perm in Es.
  eapply Permutation_Forall; [apply Permutation_sym, Es|exact Hfiles].
Qed.

End RetrohuntRecords.

(** ** The rating *)

Lemma py_add_kind a b v :
  py_add a b = Ok v ->
  (exists z, v = PInt z) \/ (exists s, v = PStr s) \/ (exists l, v = PList l).
Proof.
  destruct a, b; simpl; intro H; try discriminate; injection H as <-; eauto.
Qed.

Lemma py_getitem_str (d : dict) (k : string) :
  py_getitem (PDict d) k
  = match dict_get k d with Some v => Ok v | None => Raise KeyError end.
Proof. reflexivity. Qed.

Lemma stats_block_rating {R : PyRuntime} sample_info s :
  dict_get "rating" s = Some (PStr "unknown") ->
  rating_by_positives (fst (stats_block sample_info s)).
Proof.
  intro Hs. unfold stats_block, setitem, getinfo, lift.
  cbn [bind M_monad].
  destruct (m <- stat sample_info "malicious";;
            s0 <- stat sample_info "suspicious";; py_add m s0)
    as [v|e] eqn:Ev; cbn [fst]; [|left; exact Hs].
  assert (Hv : (exists z, v = PInt z) \/ (exists x, v = PStr x)
               \/ (exists l, v = PList l)).
  { cbn [bind result_monad] in Ev.
    destruct (stat sample_info "malicious") as [m|]; [|discriminate].
    destruct (stat sample_info "suspicious") as [x|]; [|discriminate].
    eapply py_add_kind, Ev. }
  clear Ev.
  match goal with |- context [match ?c with Ok _ => _ | Raise _ => _ end] =>
    destruct c as [t|e] end; cbn [fst].
  2: { left. rewrite dict_get_set_other by reflexivity. exact Hs. }
  rewrite !py_getitem_str.
  rewrite !dict_get_set_other by reflexivity.
  rewrite !dict_get_set_same by reflexivity.
  destruct Hv as [(z & ->)|[(x & ->)|(l & ->)]].
  - right. exists z. unfold rate. cbn [py_eq].
    destruct (z =? 0); cbn [fst].
    + rewrite dict_get_set_same, !dict_get_set_other, dict_get_set_same
        by reflexivity. auto.
    + rewrite py_getitem_str.
      rewrite !dict_get_set_other, !dict_get_set_same by reflexivity.
      cbn [py_le_int as_int]. destruct (z <=? 10); cbn [fst];
      rewrite dict_get_set_same, !dict_get_set_other, dict_get_set_same
        by reflexivity; auto.
  - left. cbn [py_eq]. rewrite py_getitem_str.
    rewrite !dict_get_set_other, !dict_get_set_same by reflexivity.
    cbn [py_le_int as_int fst].
    rewrite !dict_get_set_other by reflexivity. exact Hs.
  - left. cbn [py_eq]. rewrite py_getitem_str.
    rewrite !dict_get_set_other, !dict_get_set_same by reflexivity.
    cbn [py_le_int as_int fst].
    rewrite !dict_get_set_other by reflexivity. exact Hs.
Qed.


Lemma rating_by_positives_keeps {A} ks (m : M A) :
  writes ks m -> ~ In "rating" ks -> ~ In "positives" ks ->
  keeps rating_by_positives m.
Proof.
  intros Hw Hr Hp s [H|(z & H1 & H2)].
  - left. apply (Hw "rating" _ Hr s H).
  - right. exists z. split.
    + apply (Hw "positives" _ Hp s H1).
    + apply (Hw "rating" _ Hr s H2).
Qed.


(** What a sequence leaves: [c] keeps [P], and from [P] what follows
    establishes [Q], which [P] implies. *)
Lemma seq_establishes {A B} (P Q : dict -> Prop) (c : M A) (k : A -> M B) s :
  P s -> keeps P c -> (forall s', P s' -> Q s') ->
  (forall a s', P s' -> Q (fst (k a s'))) ->
  Q (fst (bind c k s)).
Proof.
  intros Hs Hc HPQ Hk. specialize (Hc s Hs). simpl.
  destruct (c s) as [s' [a|e]]; simpl in *; auto.
Qed.

Lemma seq_keeps_after {A B} (Q : dict -> Prop) (c : M A) (k : A -> M B) s :
  Q (fst (c s)) -> (forall a, keeps Q (k a)) -> Q (fst (bind c k s)).
Proof.
  intros Hc Hk. simpl. destruct (c s) as [s' [a|e]]; simpl in *; auto.
  apply Hk, Hc.
Qed.

Ltac not_in_list := simpl; intuition discriminate.

Lemma normalizer_rating {R : PyRuntime} sample_info debug VENDORS :
  rating_by_positives (processVirustotalSampleInfo sample_info debug VENDORS).
Proof.
  unfold processVirustotalSampleInfo, try_block.
  set (P := unchanged "rating" (Some (PStr "unknown"))).
  assert (HPQ : forall s, P s -> rating_by_positives s) by (intros s H; left; exact H).
  assert (H0 : P getEmptyInfo) by reflexivity.
  apply (seq_establishes (P := P)); auto.
  { apply keeps_lift. }
  intros has s0 Hs0.
  destruct (negb has); [apply HPQ, Hs0|].
  apply (seq_establishes (P := P)); auto.
  { apply (filenames_block_writes sample_info). not_in_list. }
  intros _ s1 H1.
  apply (seq_establishes (P := P)); auto.
  { apply (properties_block_writes sample_info). not_in_list. }
  intros _ s2 H2.
  apply (seq_establishes (P := P)); auto.
  { apply (exiftool_block_writes sample_info). not_in_list. }
  intros _ s3 H3.
  apply (seq_establishes (P := P)); auto.
  { apply (pe_info_block_writes sample_info). not_in_list. }
  intros _ s4 H4.
  apply (seq_establishes (P := P)); auto.
  { apply (signature_block_writes sample_info). not_in_list. }
  intros _ s5 H5.
  apply (seq_establishes (P := P)); auto.
  { apply (hashes_block_writes sample_info). not_in_list. }
  intros _ s6 H6.
  apply seq_keeps_after; [apply stats_block_rating, H6|]. intros _.
  apply keeps_bind.
  - eapply rating_by_positives_keeps;
      [apply (last_submitted_block_writes sample_info)| |]; not_in_list.
  - intros _. eapply rating_by_positives_keeps;
      [apply (virus_block_writes sample_info VENDORS)| |]; not_in_list.
Qed.

(** ** File names *)

Lemma map_result_basenames ns :
  map_result get_crossplatfrom_basename (map PStr ns)
  = Ok (map PStr (map xbase ns)).
Proof.
  induction ns as [|n r IH]; [reflexivity|].
  cbn [map map_result get_crossplatfrom_basename bind result_monad].
  rewrite IH. reflexivity.
Qed.

Lemma existsb_key_str x seen :
  existsb (key_eqb (PStr x)) (map PStr seen) = true <-> In x seen.
Proof.
  induction seen as [|y r IH]; simpl; [split; [discriminate|tauto]|].
  rewrite orb_true_iff, IH, String.eqb_eq. split; intros [H|H]; auto.
Qed.

Lemma set_elements_strings bs : forall seen,
  NoDup seen ->
  exists l, set_elements (map PStr seen) (map PStr bs) = Ok (map PStr l)
            /\ NoDup l /\ forall x, In x l <-> In x seen \/ In x bs.
Proof.
  induction bs as [|b r IH]; intros seen Hseen.
  - exists (rev seen). simpl. rewrite map_rev. split; [reflexivity|].
    split; [apply NoDup_rev, Hseen|].
    intro x. rewrite <- in_rev. tauto.
  - cbn [map set_elements hashable].
    destruct (existsb (key_eqb b) (map PStr seen)) eqn:E.
    + apply existsb_key_str in E.
      destruct (IH seen Hseen) as (l & Hl & Hn & Hi).
      exists l. split; [exact Hl|]. split; [exact Hn|].
      intro x. rewrite Hi. simpl. intuition (subst; auto).
    + assert (Hb : ~ In b seen).
      { intro H. apply existsb_key_str in H. congruence. }
      destruct (IH (b :: seen)) as (l & Hl & Hn & Hi).
      { constructor; assumption. }
      exists l. split; [exact Hl|]. split; [exact Hn|].
      intro x. rewrite Hi. simpl. intuition (subst; auto).
Qed.

Lemma py_join_strings sep l :
  py_join sep (map PStr l) = Ok (String.concat sep l).
Proof.
  induction l as [|x r IH]; [reflexivity|].
  destruct r as [|y r']; [reflexivity|].
  change (py_join sep (map PStr (x :: y :: r')))
    with (t <- py_join sep (map PStr (y :: r')) ;; Ok (x ++ sep ++ t)).
  rewrite IH. reflexivity.
Qed.

Lemma list_remove_strings m l :
  list_remove (PStr m) (map PStr l) = map PStr (remove_first m l).
Proof.
  induction l as [|y r IH]; [reflexivity|].
  cbn [map list_remove remove_first py_eq].
  destruct (String.eqb y m); [reflexivity|]. rewrite IH. reflexivity.
Qed.

Lemma existsb_py_eq_str m l :
  existsb (py_eq (PStr m)) (map PStr l) = true <-> In m l.
Proof.
  induction l as [|y r IH]; simpl; [split; [discriminate|tauto]|].
  rewrite orb_true_iff, IH, String.eqb_eq. split; intros [H|H]; auto.
Qed.

Lemma remove_first_absent m l : ~ In m l -> remove_first m l = l.
Proof.
  induction l as [|y r IH]; [reflexivity|]. simpl. intro H.
  destruct (String.eqb y m) eqn:E.
  - apply String.eqb_eq in E. tauto.
  - rewrite IH; tauto.
Qed.

Lemma remove_first_NoDup m l :
  NoDup l -> NoDup (m :: remove_first m l).
Proof.
  intro H. constructor.
  - induction H as [|y r Hy Hr IH]; simpl; [tauto|].
    destruct (String.eqb y m) eqn:E.
    + apply String.eqb_eq in E. subst. exact Hy.
    + apply String.eqb_neq in E. simpl. intros [?|?]; [congruence|tauto].
  - induction H as [|y r Hy Hr IH]; simpl; [constructor|].
    destruct (String.eqb y m); [exact Hr|].
    constructor; [|exact IH].
    intro Hin. apply Hy. clear - Hin.
    induction r as [|z r IH]; simpl in *; [tauto|].
    destruct (String.eqb z m); simpl in *; tauto.
Qed.

Section FileNames.
Context {R : PyRuntime}.
Variables (sample a : dict) (ns : list string).
Hypothesis Hattr : dict_get "attributes" sample = Some (PDict a).
Hypothesis Hnames : dict_get "names" a = Some (PList (map PStr ns)).

Lemma attr_present (k : string) v :
  dict_get k a = Some v -> attr (PDict sample) k = Ok v.
Proof.
  intro H. unfold attr, attributes.
  cbn [py_getitem hashable bind result_monad]. rewrite Hattr.
  cbn [py_getitem hashable]. rewrite H. reflexivity.
Qed.

Lemma attr_absent (k : string) :
  dict_get k a = None -> attr (PDict sample) k = Raise KeyError.
Proof.
  intro H. unfold attr, attributes.
  cbn [py_getitem hashable bind result_monad]. rewrite Hattr.
  cbn [py_getitem hashable]. rewrite H. reflexivity.
Qed.

Lemma has_attr_dict (k : string) :
  has_attr (PDict sample) k
  = Ok (match dict_get k a with Some _ => true | None => false end).
Proof.
  unfold has_attr, attributes.
  cbn [py_getitem hashable bind result_monad]. rewrite Hattr. reflexivity.
Qed.

Lemma filenames_block_strings s :
  exists l, NoDup l /\ (forall x, In x l <-> In x (map xbase ns))
    /\ (dict_get "meaningful_name" a = None ->
        unchanged "filenames" (Some (PStr (semis (String.concat ", " l))))
          (fst (filenames_block (PDict sample) s)))
    /\ (forall m, dict_get "meaningful_name" a = Some (PStr m) ->
        unchanged "filenames"
          (Some (PStr (semis (String.concat ", "
                                (xbase m :: remove_first (xbase m) l)))))
          (fst (filenames_block (PDict sample) s))).
Proof.
  destruct (set_elements_strings (map xbase ns) (seen := []) (NoDup_nil _))
    as (u & Hu & Hnd & Hin).
  destruct (Permutation_map_inv PStr _ (set_order_perm (map PStr u)))
    as (l & Hl & Hperm).
  exists l. split; [eapply Permutation_NoDup; eassumption|].
  split.
  { intro x. split; intro H.
    - apply (Permutation_in x (Permutation_sym Hperm)) in H.
      apply Hin in H. destruct H as [[]|H]. exact H.
    - apply (Permutation_in x Hperm). apply Hin. right. exact H. }
  change (map PStr []) with (@nil pyval) in Hu.
  unfold filenames_block, list_method, setitem, getinfo, lift, unchanged.
  rewrite (attr_present "names" Hnames), has_attr_dict.
  cbn [bind M_monad py_iter].
  rewrite map_result_basenames, Hu, Hl.
  split.
  - intros Hm. rewrite Hm. cbn [ret M_monad].
    rewrite py_getitem_str, dict_get_set_same by reflexivity.
    cbn [py_iter bind result_monad]. rewrite py_join_strings.
    cbn [fst]. rewrite dict_get_set_same by reflexivity. reflexivity.
  - intros m Hm. rewrite Hm, (attr_present "meaningful_name" Hm).
    cbn [bind result_monad get_crossplatfrom_basename].
    fold (xbase m).
    rewrite py_getitem_str, dict_get_set_same by reflexivity.
    cbn [py_contains].
    assert (Hrem : (if existsb (py_eq (xbase m)) (map PStr l)
                    then list_remove (xbase m) (map PStr l)
                    else map PStr l)
                   = map PStr (remove_first (xbase m) l)).
    { destruct (existsb (py_eq (xbase m)) (map PStr l)) eqn:E.
      - apply list_remove_strings.
      - rewrite remove_first_absent; [reflexivity|].
        intro H. apply existsb_py_eq_str in H. congruence. }
    destruct (existsb (py_eq (xbase m)) (map PStr l));
      cbn [ret M_monad];
      repeat (rewrite py_getitem_str, dict_get_set_same by reflexivity;
              cbv beta iota);
      rewrite Hrem;
      change (PStr (xbase m) :: map PStr (remove_first (xbase m) l))
        with (map PStr (xbase m :: remove_first (xbase m) l));
      cbn [py_iter bind result_monad]; rewrite py_join_strings;
      cbn [fst]; rewrite dict_get_set_same by reflexivity; reflexivity.
Qed.

End FileNames.

Lemma rest_keeps_filenames {R : PyRuntime} sample_info VENDORS v :
  keeps (unchanged "filenames" v)
    (properties_block sample_info ;;;
     exiftool_block sample_info ;;;
     pe_info_block sample_info ;;;
     signature_block sample_info ;;;
     hashes_block sample_info ;;;
     stats_block sample_info ;;;
     last_submitted_block sample_info ;;;
     virus_block sample_info VENDORS).
Proof.
  apply keeps_bind; [apply (properties_block_writes sample_info); not_in_list|intros _].
  apply keeps_bind; [apply (exiftool_block_writes sample_info); not_in_list|intros _].
  apply keeps_bind; [apply (pe_info_block_writes sample_info); not_in_list|intros _].
  apply keeps_bind; [apply (signature_block_writes sample_info); not_in_list|intros _].
  apply keeps_bind; [apply (hashes_block_writes sample_info); not_in_list|intros _].
  apply keeps_bind; [apply (stats_block_writes sample_info); not_in_list|intros _].
  apply keeps_bind; [apply (last_submitted_block_writes sample_info); not_in_list|intros _].
  apply (virus_block_writes sample_info VENDORS); not_in_list.
Qed.

Lemma try_block_with_attributes {R : PyRuntime} (sample : dict) VENDORS a s :
  dict_get "attributes" sample = Some a ->
  try_block (PDict sample) VENDORS s
  = (filenames_block (PDict sample) ;;;
     properties_block (PDict sample) ;;;
     exiftool_block (PDict sample) ;;;
     pe_info_block (PDict sample) ;;;
     signature_block (PDict sample) ;;;
     hashes_block (PDict sample) ;;;
     stats_block (PDict sample) ;;;
     last_submitted_block (PDict sample) ;;;
     virus_block (PDict sample) VENDORS) s.
Proof.
  intro H. unfold try_block at 1.
  cbn [bind M_monad lift py_contains hashable]. rewrite H. reflexivity.
Qed.

Lemma singleton_of_NoDup (b : string) l :
  NoDup l -> (forall x, In x l <-> x = b) -> l = [b].
Proof.
  intros Hn Hi. destruct l as [|x r].
  - exfalso. apply (proj2 (Hi b) eq_refl).
  - assert (x = b) by (apply Hi; left; reflexivity). subst x.
    destruct r as [|y r]; [reflexivity|]. exfalso.
    assert (y = b) by (apply Hi; right; left; reflexivity). subst y.
    inversion Hn as [|? ? Hnot _]. apply Hnot. left. reflexivity.
Qed.

(** ** What an absent field stops *)

Ltac raises_tac :=
  first
    [ apply always_raises_lift
    | apply always_raises_bind_l; raises_tac
    | apply always_raises_bind_r; intros; raises_tac ].

Ltac keeps_default_step :=
  first
    [ apply keeps_ret
    | apply keeps_lift
    | apply keeps_getinfo
    | apply keeps_setitem; intros; apply unchanged_set;
      [reflexivity | assumption]
    | apply keeps_bind_raises; [apply keeps_lift | apply always_raises_lift]
    | apply keeps_bind; [ | intros ] ].

Section Absent.
Context {R : PyRuntime}.
Variables (sample a : dict) (VENDORS : pyval).
Hypothesis Hattr : dict_get "attributes" sample = Some (PDict a).

Lemma stat_absent k :
  dict_get "last_analysis_stats" a = None ->
  stat (PDict sample) k = Raise KeyError.
Proof.
  intro H. unfold stat, attr2. rewrite (@attr_absent sample a Hattr _ H). reflexivity.
Qed.

Ltac use_absent Habs :=
  first [ rewrite !(@attr_absent sample a Hattr _ Habs)
        | rewrite !(stat_absent _ Habs) ];
  cbn [bind result_monad].

Ltac block_unfold :=
  unfold filenames_block, properties_block, hashes_block, stats_block,
         last_submitted_block, virus_block.

Ltac failing_block Habs :=
  apply keeps_bind_raises;
  [ block_unfold; use_absent Habs; repeat keeps_default_step
  | block_unfold; use_absent Habs; raises_tac ].

Ltac passing_block :=
  apply keeps_bind;
  [ first [ apply (filenames_block_writes (PDict sample))
          | apply (properties_block_writes (PDict sample))
          | apply (exiftool_block_writes (PDict sample))
          | apply (pe_info_block_writes (PDict sample))
          | apply (signature_block_writes (PDict sample))
          | apply (hashes_block_writes (PDict sample))
          | apply (stats_block_writes (PDict sample))
          | apply (last_submitted_block_writes (PDict sample)) ];
    not_in_list
  | intros _ ].

Ltac stops_at Habs :=
  repeat first
    [ failing_block Habs
    | passing_block
    | block_unfold; use_absent Habs; solve [repeat keeps_default_step] ].

Lemma absent_field_stops_extraction debug key p :
  In (key, p) unguarded ->
  dict_get key a = None ->
  Forall (at_default (processVirustotalSampleInfo (PDict sample) debug VENDORS))
         (skipn p normalizer_fields).
Proof.
  intros Hin Habs.
  assert (Hk : forall field,
    keeps (unchanged field (dict_get field getEmptyInfo))
      (filenames_block (PDict sample) ;;;
       properties_block (PDict sample) ;;;
       exiftool_block (PDict sample) ;;;
       pe_info_block (PDict sample) ;;;
       signature_block (PDict sample) ;;;
       hashes_block (PDict sample) ;;;
       stats_block (PDict sample) ;;;
       last_submitted_block (PDict sample) ;;;
       virus_block (PDict sample) VENDORS) ->
    at_default (processVirustotalSampleInfo (PDict sample) debug VENDORS) field).
  { intros field H. unfold at_default, processVirustotalSampleInfo.
    rewrite (try_block_with_attributes _ _ _ Hattr). apply H. reflexivity. }
  simpl in Hin.
  repeat (destruct Hin as [E|Hin];
          [injection E as <- <-; cbn [skipn normalizer_fields];
           repeat (constructor; [apply Hk; stops_at Habs|]); constructor|]).
  destruct Hin.
Qed.

End Absent.

Section Guarded.
Context {R : PyRuntime}.
Variables (sample a : dict).
Hypothesis Hattr : dict_get "attributes" sample = Some (PDict a).

Lemma exiftool_block_absent s :
  dict_get "exiftool" a = None ->
  exiftool_block (PDict sample) s = (s, Ok tt).
Proof.
  intro H. unfold exiftool_block.
  rewrite (@has_attr_dict sample a Hattr). rewrite H. reflexivity.
Qed.

Lemma pe_info_block_absent s :
  dict_get "pe_info" a = None ->
  pe_info_block (PDict sample) s = (s, Ok tt).
Proof.
  intro H. unfold pe_info_block.
  rewrite (@has_attr_dict sample a Hattr). rewrite H. reflexivity.
Qed.

Lemma signature_block_absent s :
  dict_get "signature_info" a = None ->
  signature_block (PDict sample) s = (s, Ok tt).
Proof.
  intro H. unfold signature_block.
  rewrite (@has_attr_dict sample a Hattr). rewrite H. reflexivity.
Qed.

End Guarded.

(** ** Without the analysis stats *)

Lemma seq_congr {A B} (c : M A) (k k' : A -> M B) s :
  (forall x s', fst (k x s') = fst (k' x s')) ->
  fst (bind c k s) = fst (bind c k' s).
Proof.
  intro H. simpl. destruct (c s) as [s' [x|e]]; [apply H|reflexivity].
Qed.

Lemma seq_tail_raises {A B} (c : M A) (k : A -> M B) s :
  (forall x s', exists e, k x s' = (s', Raise e)) ->
  fst (bind c k s) = fst (c s).
Proof.
  intro H. simpl. destruct (c s) as [s' [x|e]]; [|reflexivity].
  destruct (H x s') as (e & ->). reflexivity.
Qed.

Lemma before_stats_writes {R : PyRuntime} sample_info :
  writes (firstn 17 normalizer_fields) (before_stats sample_info).
Proof.
  unfold before_stats.
  apply writes_bind; [by_block (filenames_block_writes sample_info)|intros _].
  apply writes_bind; [by_block (properties_block_writes sample_info)|intros _].
  apply writes_bind; [by_block (exiftool_block_writes sample_info)|intros _].
  apply writes_bind; [by_block (pe_info_block_writes sample_info)|intros _].
  apply writes_bind; [by_block (signature_block_writes sample_info)|intros _].
  by_block (hashes_block_writes sample_info).
Qed.

(** ** Without comment enrichment *)

(** ** The page loop has fuel enough *)

Lemma bind_ext_on {A B} (c : W A) (k k' : A -> W B) w :
  (forall a w1, c w = (Returned a, w1) -> k a w1 = k' a w1) ->
  bind c k w = bind c k' w.
Proof.
  intro H. simpl. destruct (c w) as [[a|e|] w1]; auto.
Qed.

Lemma shrinks_ret {A} (a : A) : shrinks (ret a).
Proof. intros w a' w1 E. injection E as _ <-. apply le_n. Qed.

Lemma shrinks_liftW {A} (r : result A) : shrinks (liftW r).
Proof.
  intros w a w1 E. unfold liftW in E. destruct r; [|discriminate].
  injection E as _ <-. apply le_n.
Qed.

Lemma shrinks_bind {A B} (c : W A) (k : A -> W B) :
  shrinks c -> (forall a, shrinks (k a)) -> shrinks (bind c k).
Proof.
  intros Hc Hk w b w2 E. simpl in E.
  destruct (c w) as [[a|e|] w1] eqn:Ec; try discriminate.
  apply Nat.le_trans with (List.length (script w1));
    [eapply Hk, E|eapply Hc, Ec].
Qed.

Lemma requests_get_pops url w r w1 :
  requests_get url w = (Returned r, w1) ->
  S (List.length (script w1)) = List.length (script w).
Proof.
  unfold requests_get. destruct url; try discriminate.
  destruct (script w) as [|[r'|e] rest]; try discriminate.
  intro E. injection E as _ <-. reflexivity.
Qed.

Section Fuel.
Context {R : PyRuntime}.

Lemma searchVirustotalComments_shrinks sha256 debug :
  shrinks (searchVirustotalComments sha256 debug).
Proof.
  intros w c w2 E. unfold searchVirustotalComments in E.
  destruct (requests_get (comment_url sha256) w) as [[r|e|] w1] eqn:Eg;
    try discriminate.
  - apply requests_get_pops in Eg.
    assert (w2 = w1).
    { destruct (negb (ok r)); [now injection E|].
      destruct (json_body r); now injection E. }
    subst. rewrite <- Eg. apply Nat.le_succ_diag_r.
  - injection E as _ <-. unfold requests_get, comment_url in Eg.
    destruct (script w) as [|[r'|e'] rest] eqn:Es; try discriminate.
    injection Eg as _ <-. simpl. apply Nat.le_succ_diag_r.
Qed.

Lemma files_loop_shrinks no_comments debug vtallvendors entries :
  forall files,
  shrinks (files_loop no_comments debug vtallvendors entries files).
Proof.
  induction entries as [|file rest IH]; intros files; cbn [files_loop].
  - apply shrinks_ret.
  - repeat first
      [ apply IH
      | apply shrinks_ret
      | apply shrinks_liftW
      | apply searchVirustotalComments_shrinks
      | apply shrinks_bind; [ | intros ]
      | match goal with
        | |- shrinks (if ?b then _ else _) => destruct b
        end ].
Qed.

(** A pass of the page loop takes an answer of the script, so that more
    passes than the script has answers are never made: with one unit of
    fuel more than answers, more fuel changes nothing. *)
Lemma pages_loop_fuel no_comments debug vtallvendors fuel :
  forall url files w,
  (List.length (script w) < fuel)%nat ->
  pages_loop (S fuel) no_comments debug vtallvendors url files w
  = pages_loop fuel no_comments debug vtallvendors url files w.
Proof.
  induction fuel as [|fuel IH]; intros url files w Hw; [inversion Hw|].
  cbn [pages_loop].
  apply bind_ext_on. intros response w1 Eg. apply requests_get_pops in Eg.
  destruct (negb (ok response)); [reflexivity|].
  destruct (json_body response) as [response_json|]; [|reflexivity].
  apply bind_ext_on. intros entries w2 E2.
  apply shrinks_liftW in E2.
  apply bind_ext_on. intros files' w3 E3.
  apply files_loop_shrinks in E3.
  apply bind_ext_on. intros has_next w4 E4.
  apply shrinks_liftW in E4.
  destruct has_next; [|reflexivity].
  apply bind_ext_on. intros url' w5 E5.
  apply shrinks_liftW in E5.
  apply IH. lia.
Qed.

Lemma getRetrohuntResults_fuel retrohunt_id no_comments debug vtallvendors w n :
  pages_loop (S (List.length (script w)) + n) no_comments debug vtallvendors
    (retrohunt_url retrohunt_id) [] w
  = pages_loop (S (List.length (script w))) no_comments debug vtallvendors
      (retrohunt_url retrohunt_id) [] w.
Proof.
  induction n as [|n IH].
  - rewrite Nat.add_0_r. reflexivity.
  - rewrite Nat.add_succ_r, <- IH. apply pages_loop_fuel. lia.
Qed.

End Fuel.

(** ** What every record keeps *)

Lemma dict_set_has_key (k : string) k' v s :
  has_key k s -> has_key k (dict_set k' v s).
Proof.
  unfold has_key. induction s as [|[k2 v2] r IH];
    cbn [dict_get dict_set]; [congruence|].
  destruct (key_eqb k' k2); cbn [dict_get];
    destruct (key_eqb (PStr k) k2); auto; discriminate.
Qed.

Lemma has_key_stable k : set_stable (has_key k).
Proof. intros k' v s. apply dict_set_has_key. Qed.

Lemma dict_update_stable P u s : set_stable P -> P s -> P (dict_update u s).
Proof.
  intro HP. unfold dict_update. revert s.
  induction u as [|[k v] r IH]; simpl; intros s Hs; [exact Hs|].
  apply IH, HP, Hs.
Qed.

Ltac stable_step HP :=
  first
    [ apply keeps_ret
    | apply keeps_lift
    | apply keeps_getinfo
    | apply keeps_setitem; intros; apply HP; assumption
    | apply keeps_list_method; intros; apply HP; assumption
    | apply keeps_bind; [ | intros ]
    | match goal with
      | |- keeps _ (if ?b then _ else _) => destruct b
      | |- keeps _ (match ?x with _ => _ end) => destruct x
      end ].

Section Stable.

Context {R : PyRuntime}.

Variable P : dict -> Prop.

Hypothesis HP : set_stable P.

Lemma vendor_loop_stable scans vendors : forall names,
  keeps P (vendor_loop scans vendors names).
Proof.
  induction vendors as [|vendor rest IH]; intros names; cbn [vendor_loop].
  - apply keeps_ret.
  - unfold set_vendor_result. repeat first [ apply IH | stable_step HP ].
Qed.

Lemma try_block_stable sample_info VENDORS :
  keeps P (try_block sample_info VENDORS).
Proof.
  unfold try_block, filenames_block, properties_block, exiftool_block,
    pe_info_block, signature_block, hashes_block, stats_block,
    last_submitted_block, virus_block.
  repeat first [ apply vendor_loop_stable | stable_step HP ].
Qed.

Lemma normalizer_stable sample_info debug VENDORS :
  P getEmptyInfo -> P (processVirustotalSampleInfo sample_info debug VENDORS).
Proof. intro H0. apply try_block_stable, H0. Qed.

Lemma enrich_stable hash debug vtallvendors response_dict_code response_dict :
  P getEmptyInfo ->
  returns (enrich hash debug vtallvendors response_dict_code response_dict) P.
Proof.
  intro H0. unfold enrich.
  eapply returns_bind; [apply returns_true|]. intros data _. cbv zeta.
  eapply returns_bind; [apply returns_true|]. intros has_sha _.
  eapply returns_bind with (P := P).
  - destruct has_sha.
    + eapply returns_bind; [apply returns_true|]. intros sha _.
      eapply returns_bind; [apply returns_true|]. intros c _.
      apply returns_ret, dict_update_stable; [exact HP|].
      apply normalizer_stable, H0.
    + apply returns_ret, normalizer_stable, H0.
  - intros info Hinfo.
    eapply returns_bind; [apply returns_true|]. intros tags _.
    unfold response_contains. apply returns_ret. apply HP, HP, Hinfo.
Qed.

Lemma getVTInfo_stable hash debug vtallvendors wait vtwaitquota :
  P getEmptyInfo ->
  returns (getVTInfo hash debug vtallvendors wait vtwaitquota) P.
Proof.
  intros H0 w r w' E. unfold getVTInfo in E.
  destruct (request_loop (report_url hash) wait vtwaitquota (script w) (trace w))
    as [[[rc rd]|e|] w1]; try discriminate.
  destruct (negb (ok rc)).
  - cbn [bind W_monad liftW ret] in E.
    destruct (prints_error debug rd); [|discriminate].
    injection E as <- _. exact (HP (PStr "hash") hash H0).
  - eapply enrich_stable; eassumption.
Qed.

Lemma files_loop_stable no_comments debug vtallvendors entries :
  P getEmptyInfo ->
  forall files, Forall P files ->
  returns (files_loop no_comments debug vtallvendors entries files) (Forall P).
Proof.
  intro H0.
  induction entries as [|file rest IH]; intros files Hfiles;
    cbn [files_loop].
  - apply returns_ret, Hfiles.
  - eapply returns_bind; [apply returns_true|]. intros has_error _.
    destruct has_error.
    + eapply returns_bind; [apply returns_true|]. intros _ _.
      eapply returns_bind; [apply returns_true|]. intros _ _.
      apply IH, Hfiles.
    + cbv zeta.
      eapply returns_bind; [apply returns_true|]. intros id _.
      eapply returns_bind; [apply returns_true|]. intros rule _.
      eapply returns_bind with (P := P).
      * destruct (negb no_comments).
        -- eapply returns_bind; [apply returns_true|]. intros id' _.
           eapply returns_bind; [apply returns_true|]. intros c _.
           apply returns_ret, dict_update_stable; [exact HP|].
           apply HP, HP, normalizer_stable, H0.
        -- apply returns_ret, dict_update_stable; [exact HP|].
           apply HP, HP, normalizer_stable, H0.
      * intros fi Hfi.
        eapply returns_bind; [apply returns_true|]. intros tags _.
        apply IH. apply Forall_app. split; [exact Hfiles|].
        constructor; [apply HP, Hfi|constructor].
Qed.

Lemma pages_loop_stable no_comments debug vtallvendors fuel :
  P getEmptyInfo ->
  forall url files, Forall P files ->
  returns (pages_loop fuel no_comments debug vtallvendors url files) (Forall P).
Proof.
  intro H0.
  induction fuel as [|fuel IH]; intros url files Hfiles; cbn [pages_loop].
  - intros w a w' E. discriminate.
  - eapply returns_bind; [apply returns_true|]. intros response _.
    destruct (negb (ok response)); [apply returns_ret, Hfiles|].
    destruct (json_body response) as [response_json|];
      [|apply returns_ret, Hfiles].
    eapply returns_bind; [apply returns_true|]. intros entries _.
    eapply returns_bind; [apply files_loop_stable; assumption|].
    intros files' Hfiles'.
    eapply returns_bind; [apply returns_true|]. intros has_next _.
    destruct has_next; [|apply returns_ret, Hfiles'].
    eapply returns_bind; [apply returns_true|]. intros url' _.
    apply IH, Hfiles'.
Qed.

Lemma getRetrohuntResults_stable retrohunt_id no_comments debug vtallvendors :
  P getEmptyInfo ->
  returns (getRetrohuntResults retrohunt_id no_comments debug vtallvendors)
          (Forall P).
Proof.
  intros H0 w rs w' E. unfold getRetrohuntResults in E.
  revert E. generalize (S (List.length (script w))). intros fuel E.
  revert w rs w' E.
  change (returns
            (files <- pages_loop fuel no_comments debug vtallvendors
                        (retrohunt_url retrohunt_id) [] ;;
             liftW (sorted_by_matching_rule files)) (Forall P)).
  eapply returns_bind; [apply pages_loop_stable; [exact H0|constructor]|].
  intros files Hfiles. apply returns_liftW. intros sorted Es.
  apply sorted_by_matching_rule_perm in Es.
  eapply Permutation_Forall; [apply Permutation_sym, Es|exact Hfiles].
Qed.

End Stable.

(** ** Sets, tags and hashes *)

Lemma key_eqb_sym a b : key_eqb a b = key_eqb b a.
Proof.
  destruct a, b; simpl; try reflexivity;
    try apply Z.eqb_sym; try apply String.eqb_sym.
Qed.

Lemma key_eqb_same_class x y z :
  key_eqb x y = true -> key_eqb x z = key_eqb y z.
Proof.
  intro H. rewrite (key_eqb_sym x z), (key_eqb_sym y z).
  symmetry. apply key_eqb_congr, H.
Qed.

Lemma existsb_same_class x y l :
  key_eqb x y = true -> existsb (key_eqb x) l = existsb (key_eqb y) l.
Proof.
  intro H. induction l as [|z r IH]; simpl; [reflexivity|].
  rewrite IH, (key_eqb_same_class _ _ z H). reflexivity.
Qed.

Lemma existsb_Permutation {A} (f : A -> bool) l l' :
  Permutation l l' -> existsb f l = existsb f l'.
Proof.
  induction 1; simpl; try congruence.
  - destruct (f x), (f y); reflexivity.
Qed.

Lemma no_duplicates_Permutation l l' :
  Permutation l l' -> no_duplicates l = no_duplicates l'.
Proof.
  induction 1; simpl; try congruence.
  - rewrite IHPermutation, (existsb_Permutation _ H). reflexivity.
  - rewrite (key_eqb_sym y x).
    destruct (key_eqb x y), (existsb (key_eqb x) l),
      (existsb (key_eqb y) l), (no_duplicates l); reflexivity.
Qed.

Lemma set_elements_spec l : forall seen out,
  no_duplicates seen = true ->
  set_elements seen l = Ok out ->
  no_duplicates out = true
  /\ forall x, existsb (key_eqb x) out
               = existsb (key_eqb x) seen || existsb (key_eqb x) l.
Proof.
  induction l as [|y r IH]; intros seen out Hseen E; simpl in E.
  - injection E as <-. split.
    + rewrite (no_duplicates_Permutation (Permutation_sym (Permutation_rev seen))).
      exact Hseen.
    + intro x. simpl. rewrite orb_false_r.
      apply existsb_Permutation, Permutation_sym, Permutation_rev.
  - destruct (hashable y); [|discriminate].
    destruct (existsb (key_eqb y) seen) eqn:Ey.
    + destruct (IH _ _ Hseen E) as [Hn Hm]. split; [exact Hn|].
      intro x. rewrite Hm. simpl.
      destruct (key_eqb x y) eqn:Exy; [|reflexivity].
      rewrite (existsb_same_class _ _ seen Exy), Ey. reflexivity.
    + destruct (IH (y :: seen) out) as [Hn Hm]; [simpl; now rewrite Ey|exact E|].
      split; [exact Hn|]. intro x. rewrite Hm. simpl.
      destruct (key_eqb x y), (existsb (key_eqb x) seen); reflexivity.
Qed.

Lemma set_elements_unhashable l : forall seen,
  existsb (fun x => negb (hashable x)) l = true ->
  set_elements seen l = Raise TypeError.
Proof.
  induction l as [|y r IH]; intros seen H; simpl in *; [discriminate|].
  destruct (hashable y); simpl in H; [|reflexivity].
  destruct (existsb (key_eqb y) seen); apply IH, H.
Qed.

Lemma uniqList_distinct {R : PyRuntime} t tags :
  uniqList t = Ok tags -> exists l, tags = PList l /\ no_duplicates l = true.
Proof.
  intro E. unfold uniqList in E.
  destruct (py_iter t) as [elems|] eqn:Ei; [|discriminate].
  cbn [bind result_monad] in E.
  destruct (set_elements [] elems) as [u|] eqn:Eu; [|discriminate].
  injection E as <-. exists (set_order u). split; [reflexivity|].
  rewrite (no_duplicates_Permutation (set_order_perm u)).
  apply (set_elements_spec elems [] eq_refl Eu).
Qed.

Section LookupInvariants.

Context {R : PyRuntime}.

Lemma getVTInfo_hash_and_tags hash debug vtallvendors wait vtwaitquota :
  returns (getVTInfo hash debug vtallvendors wait vtwaitquota)
          (fun r => dict_get "hash" r = Some hash /\ tags_are_distinct r).
Proof.
  intros w r w' E. unfold getVTInfo in E.
  destruct (request_loop (report_url hash) wait vtwaitquota (script w) (trace w))
    as [[[rc rd]|e|] w1]; try discriminate.
  destruct (negb (ok rc)).
  - cbn [bind W_monad liftW ret] in E.
    destruct (prints_error debug rd); [|discriminate].
    injection E as <- _. split; [reflexivity|].
    exists []. split; reflexivity.
  - revert w1 r w' E.
    change (returns (enrich hash debug vtallvendors rc rd)
              (fun r => dict_get "hash" r = Some hash /\ tags_are_distinct r)).
    unfold enrich.
    eapply returns_bind; [apply returns_true|]. intros data _. cbv zeta.
    eapply returns_bind; [apply returns_true|]. intros has_sha _.
    eapply returns_bind; [apply returns_true|]. intros info _.
    eapply returns_bind with
      (P := fun tags => exists l, tags = PList l /\ no_duplicates l = true).
    + apply returns_liftW. intros tags Et.
      cbn [bind result_monad] in Et.
      destruct (py_getitem (PDict (dict_set "hash" hash info)) "tags");
        [|discriminate].
      eapply uniqList_distinct, Et.
    + intros tags (l & -> & Hl). unfold response_contains.
      apply returns_ret. split.
      * rewrite dict_get_set_other by reflexivity.
        apply dict_get_set_same. reflexivity.
      * exists l. split; [apply dict_get_set_same; reflexivity|exact Hl].
Qed.

End LookupInvariants.

Section RetrohuntInvariants.

Context {R : PyRuntime}.

Variables (no_comments debug : bool) (vtallvendors : pyval).




End RetrohuntInvariants.

(** ** The comments *)

Lemma comments_loop_run coms : forall authors tagss count acc_a acc_t,
  Forall2 (fun com at_ => comment_of com (fst at_) (snd at_))
          coms (combine authors tagss) ->
  List.length authors = List.length tagss ->
  comments_loop coms (comment_record count acc_a acc_t)
  = (comment_record count (acc_a ++ authors)%list
       (acc_t ++ List.concat tagss)%list, Ok tt).
Proof.
  unfold comment_record.
  induction coms as [|com rest IH];
    intros authors tagss count acc_a acc_t H Hlen.
  - destruct authors as [|a authors], tagss as [|t tagss];
      try discriminate; [|inversion H].
    simpl. rewrite !app_nil_r. reflexivity.
  - destruct authors as [|a authors], tagss as [|t tagss];
      try discriminate; [inversion H|].
    inversion H as [|? ? ? ? [Ha Ht] Hrest]; subst.
    cbn [fst snd] in Ha, Ht.
    cbn [comments_loop]. unfold list_extend, list_method, getinfo, setitem, lift.
    cbn [bind M_monad]. rewrite Ha. cbn [bind M_monad].
    rewrite Ht.
    cbn -[comments_loop py_path].
    rewrite (IH authors tagss); [|exact Hrest|now injection Hlen].
    cbn [List.concat]. rewrite <- !app_assoc. reflexivity.
Qed.

(** ** The request loop *)

Lemma only_gets_ret {A} (a : A) : only_gets (ret a).
Proof. intro w. exists []. simpl. rewrite app_nil_r. auto. Qed.

Lemma only_gets_liftW {A} (r : result A) : only_gets (liftW r).
Proof.
  intro w. exists []. unfold liftW. destruct r; simpl;
    rewrite app_nil_r; auto.
Qed.

Lemma only_gets_bind {A B} (c : W A) (k : A -> W B) :
  only_gets c -> (forall a, only_gets (k a)) -> only_gets (bind c k).
Proof.
  intros Hc Hk w. destruct (Hc w) as (g1 & E1 & F1). simpl.
  destruct (c w) as [[a|e|] w1]; simpl in *.
  - destruct (Hk a w1) as (g2 & E2 & F2).
    exists (g1 ++ g2)%list. rewrite E2, E1, app_assoc, forallb_app, F1, F2.
    auto.
  - exists g1. auto.
  - exists g1. auto.
Qed.

Lemma only_gets_requests_get url : only_gets (requests_get url).
Proof.
  intro w. unfold requests_get. destruct url;
    try (exists []; simpl; rewrite app_nil_r; auto; fail).
  destruct (script w) as [|[r|e] rest].
  - exists []. simpl. rewrite app_nil_r. auto.
  - exists [EGet (PStr s)]. auto.
  - exists [EGet (PStr s)]. auto.
Qed.

Section RequestLoop.

Context {R : PyRuntime}.

Lemma only_gets_comments sha256 debug :
  only_gets (searchVirustotalComments sha256 debug).
Proof.
  intro w. destruct (only_gets_requests_get (comment_url sha256) w)
    as (g & E & F).
  exists g. split; [|exact F]. rewrite <- E.
  unfold searchVirustotalComments.
  destruct (requests_get (comment_url sha256) w) as [[r|e|] w1];
    try reflexivity.
  destruct (negb (ok r)); [reflexivity|].
  destruct (json_body r); reflexivity.
Qed.

Lemma only_gets_enrich hash debug vtallvendors rc rd :
  only_gets (enrich hash debug vtallvendors rc rd).
Proof.
  unfold enrich.
  repeat first
    [ apply only_gets_ret
    | apply only_gets_liftW
    | apply only_gets_comments
    | apply only_gets_bind; [ | intros ]
    | match goal with
      | |- only_gets (if ?b then _ else _) => destruct b
      end
    | progress cbv zeta ].
Qed.

Lemma request_loop_without_wait url wait answers : forall tr,
  exists gets,
    trace (snd (request_loop url wait false answers tr)) = (tr ++ gets)%list
    /\ forallb is_get gets = true.
Proof.
  induction answers as [|answer rest IH]; intro tr; cbn [request_loop].
  - exists []. simpl. rewrite app_nil_r. auto.
  - assert (Hnext : exists gets,
              trace (snd (request_loop url wait false rest
                            (tr ++ [EGet url])%list)) = (tr ++ gets)%list
              /\ forallb is_get gets = true).
    { destruct (IH (tr ++ [EGet url])%list) as (g & E & F).
      exists (EGet url :: g). rewrite E, <- app_assoc. auto. }
    destruct answer as [r|e]; [|exact Hnext].
    destruct (json_body r); [|exact Hnext].
    rewrite andb_false_r. exists [EGet url]. auto.
Qed.


End RequestLoop.

Lemma request_loop_unusable {R : PyRuntime} url wait vtwaitquota answers :
  forall rest tr,
  forallb unusable answers = true ->
  request_loop url wait vtwaitquota (answers ++ rest)%list tr
  = request_loop url wait vtwaitquota rest
      (tr ++ repeat (EGet url) (List.length answers))%list.
Proof.
  induction answers as [|a answers IH]; intros rest tr H; simpl in *.
  - rewrite app_nil_r. reflexivity.
  - apply andb_true_iff in H. destruct H as [Ha Hr].
    destruct a as [r|e]; cbn [unusable] in Ha; cbn [app request_loop].
    + destruct (json_body r); [discriminate|]. rewrite IH by exact Hr.
      rewrite <- app_assoc. reflexivity.
    + rewrite IH by exact Hr. rewrite <- app_assoc. reflexivity.
Qed.

(** ** What the fields of a record say *)

Lemma keeps_bind_lift {A B} (P : dict -> Prop) (r : result A) (k : A -> M B) :
  (forall a, r = Ok a -> keeps P (k a)) -> keeps P (bind (lift r) k).
Proof.
  intros H s Hs. cbn [bind M_monad lift].
  destruct r as [a|e]; [|exact Hs]. apply (H a eq_refl), Hs.
Qed.

(** A property of the value of one key is kept by what does not assign to
    the key. *)
Lemma keeps_of_writes {A} (P : dict -> Prop) (k : string) ks (m : M A) :
  (forall s s', dict_get k s' = dict_get k s -> P s -> P s') ->
  writes ks m -> ~ In k ks -> keeps P m.
Proof.
  intros Hext Hw Hk s Hs.
  apply (Hext s); [|exact Hs]. apply (Hw k (dict_get k s) Hk s). reflexivity.
Qed.

Lemma py_eq_str v (s : string) : py_eq v s = true -> v = PStr s.
Proof.
  destruct v; simpl; try discriminate.
  intro H. apply String.eqb_eq in H. congruence.
Qed.

Lemma flag_only_if_ext (k : string) why s s' :
  dict_get k s' = dict_get k s -> flag_only_if k why s -> flag_only_if k why s'.
Proof. unfold flag_only_if. intros ->. auto. Qed.

Lemma flag_only_if_other (k k' : string) why v s :
  String.eqb k k' = false ->
  flag_only_if k why s -> flag_only_if k why (dict_set k' v s).
Proof.
  intros E. apply flag_only_if_ext. apply dict_get_set_other.
  rewrite key_eqb_str. exact E.
Qed.

Lemma flag_only_if_set (k : string) (why : Prop) s :
  why -> flag_only_if k why (dict_set k (PBool true) s).
Proof.
  intro H. right. split; [|exact H].
  apply dict_get_set_same. rewrite key_eqb_str. apply String.eqb_refl.
Qed.

Section Flags.

Context {R : PyRuntime}.

Variables (sample_info VENDORS : pyval).

Ltac flag_step :=
  first
    [ apply keeps_ret
    | apply keeps_setitem; intros; apply flag_only_if_other;
      [reflexivity | assumption]
    | apply keeps_bind_lift; intros ].

Lemma signature_block_signed :
  keeps (flag_only_if "signed" (why_signed sample_info)) (signature_block sample_info).
Proof.
  unfold signature_block.
  apply keeps_bind_lift; intros has _. destruct has; [|apply keeps_ret].
  apply keeps_bind_lift; intros has_s _.
  apply keeps_bind; [destruct has_s; repeat flag_step|].
  intros _. apply keeps_bind_lift; intros has_v _.
  destruct has_v; [|apply keeps_ret].
  apply keeps_bind_lift; intros v Hv.
  apply keeps_bind.
  { destruct (py_eq v "Signed") eqn:E; [|apply keeps_ret].
    apply keeps_setitem. intros s _. apply flag_only_if_set.
    apply py_eq_str in E. subst v. exact Hv. }
  intros _. apply keeps_bind_lift; intros r _.
  apply keeps_bind; [destruct r; repeat flag_step|].
  intros _. apply keeps_bind_lift; intros e _.
  destruct e; repeat flag_step.
Qed.

Lemma lift_bind_ok {A} (r : result pyval) (f : pyval -> result A) a :
  (v <- r ;; f v) = Ok a -> exists v, r = Ok v /\ f v = Ok a.
Proof.
  destruct r as [v|]; [|discriminate]. intro H. exists v. auto.
Qed.

Lemma signature_block_revoked :
  keeps (flag_only_if "revoked" (why_mentions sample_info "Revoked"))
        (signature_block sample_info).
Proof.
  unfold signature_block.
  apply keeps_bind_lift; intros has _. destruct has; [|apply keeps_ret].
  apply keeps_bind_lift; intros has_s _.
  apply keeps_bind; [destruct has_s; repeat flag_step|].
  intros _. apply keeps_bind_lift; intros has_v _.
  destruct has_v; [|apply keeps_ret].
  apply keeps_bind_lift; intros v _.
  apply keeps_bind; [destruct (py_eq v "Signed"); repeat flag_step|].
  intros _. apply keeps_bind_lift; intros r Hr.
  apply keeps_bind.
  { destruct r; [|apply keeps_ret].
    apply keeps_setitem. intros s _. apply flag_only_if_set.
    apply lift_bind_ok in Hr. exact Hr. }
  intros _. apply keeps_bind_lift; intros e _.
  destruct e; repeat flag_step.
Qed.

Lemma signature_block_expired :
  keeps (flag_only_if "expired" (why_mentions sample_info "Expired"))
        (signature_block sample_info).
Proof.
  unfold signature_block.
  apply keeps_bind_lift; intros has _. destruct has; [|apply keeps_ret].
  apply keeps_bind_lift; intros has_s _.
  apply keeps_bind; [destruct has_s; repeat flag_step|].
  intros _. apply keeps_bind_lift; intros has_v _.
  destruct has_v; [|apply keeps_ret].
  apply keeps_bind_lift; intros v _.
  apply keeps_bind; [destruct (py_eq v "Signed"); repeat flag_step|].
  intros _. apply keeps_bind_lift; intros r _.
  apply keeps_bind; [destruct r; repeat flag_step|].
  intros _. apply keeps_bind_lift; intros e He.
  destruct e; [|apply keeps_ret].
  apply keeps_setitem. intros s _. apply flag_only_if_set.
  apply lift_bind_ok in He. exact He.
Qed.

(** The signature statements apart, nothing assigns to a signature flag. *)
Lemma flag_through_the_blocks (k : string) why :
  In k ["signed"; "revoked"; "expired"] ->
  keeps (flag_only_if k why) (signature_block sample_info) ->
  flag_only_if k why (processVirustotalSampleInfo sample_info false VENDORS).
Proof.
  intros Hk Hsig.
  assert (Hother : forall ks (m : M unit),
            writes ks m -> ~ In k ks -> keeps (flag_only_if k why) m).
  { intros ks m. apply keeps_of_writes. apply flag_only_if_ext. }
  assert (H0 : flag_only_if k why getEmptyInfo).
  { left. simpl in Hk. destruct Hk as [<-|[<-|[<-|[]]]]; reflexivity. }
  assert (Hk' : k = "signed" \/ k = "revoked" \/ k = "expired")
    by (simpl in Hk; intuition).
  unfold processVirustotalSampleInfo. revert H0. generalize getEmptyInfo.
  change (keeps (flag_only_if k why) (try_block sample_info VENDORS)).
  unfold try_block. apply keeps_bind; [apply keeps_lift|]. intros has.
  destruct (negb has); [apply keeps_ret|].
  apply keeps_bind.
  { eapply Hother; [apply (filenames_block_writes sample_info)|].
    destruct Hk' as [->|[->| ->]]; not_in_list. }
  intros _. apply keeps_bind.
  { eapply Hother; [apply (properties_block_writes sample_info)|].
    destruct Hk' as [->|[->| ->]]; not_in_list. }
  intros _. apply keeps_bind.
  { eapply Hother; [apply (exiftool_block_writes sample_info)|].
    destruct Hk' as [->|[->| ->]]; not_in_list. }
  intros _. apply keeps_bind.
  { eapply Hother; [apply (pe_info_block_writes sample_info)|].
    destruct Hk' as [->|[->| ->]]; not_in_list. }
  intros _. apply keeps_bind; [exact Hsig|].
  intros _. apply keeps_bind.
  { eapply Hother; [apply (hashes_block_writes sample_info)|].
    destruct Hk' as [->|[->| ->]]; not_in_list. }
  intros _. apply keeps_bind.
  { eapply Hother; [apply (stats_block_writes sample_info)|].
    destruct Hk' as [->|[->| ->]]; not_in_list. }
  intros _. apply keeps_bind.
  { eapply Hother; [apply (last_submitted_block_writes sample_info)|].
    destruct Hk' as [->|[->| ->]]; not_in_list. }
  intros _. eapply Hother; [apply (virus_block_writes sample_info VENDORS)|].
  destruct Hk' as [->|[->| ->]]; not_in_list.
Qed.

End Flags.

(** ** Paths and file names *)

Lemma basename_suffix p : exists d, p = d ++ basename p.
Proof.
  induction p as [|c r IH]; [exists ""; reflexivity|].
  cbn [basename]. destruct (has_slash r).
  - destruct IH as (d & Hd). exists (String c d).
    cbn [append]. congruence.
  - destruct (Ascii.eqb c "/"); [exists (String c ""); reflexivity|].
    exists "". reflexivity.
Qed.

Lemma basename_no_slash p : has_char "/" (basename p) = false.
Proof.
  induction p as [|c r IH]; [reflexivity|].
  cbn [basename]. destruct (has_slash r) eqn:E; [exact IH|].
  destruct (Ascii.eqb c "/") eqn:Ec; [exact E|].
  rewrite Ascii.eqb_sym in Ec. unfold has_slash in E.
  unfold has_char. cbn [list_ascii_of_string existsb].
  rewrite Ec, E. reflexivity.
Qed.

Lemma has_char_app c a b : has_char c (a ++ b) = has_char c a || has_char c b.
Proof.
  unfold has_char.
  induction a as [|x a IH]; cbn [append list_ascii_of_string existsb];
    [reflexivity|].
  rewrite IH, orb_assoc. reflexivity.
Qed.

Lemma str_replace_removes old new s :
  Ascii.eqb new old = false -> has_char old (str_replace old new s) = false.
Proof.
  intro H. unfold has_char.
  induction s as [|c r IH];
    cbn [str_replace list_ascii_of_string existsb]; [reflexivity|].
  rewrite IH, orb_false_r. destruct (Ascii.eqb c old) eqn:E.
  - rewrite Ascii.eqb_sym. exact H.
  - rewrite Ascii.eqb_sym. exact E.
Qed.

Lemma str_replace_absent old new s :
  has_char old s = false -> str_replace old new s = s.
Proof.
  unfold has_char.
  induction s as [|c r IH];
    cbn [str_replace list_ascii_of_string existsb]; [reflexivity|].
  intro H. apply orb_false_iff in H. destruct H as [Hc Hr].
  rewrite Ascii.eqb_sym in Hc. rewrite Hc, IH by exact Hr. reflexivity.
Qed.

Lemma basename_without_slash p : has_char "/" p = false -> basename p = p.
Proof.
  destruct p as [|c r]; [reflexivity|].
  unfold has_char. cbn [list_ascii_of_string existsb basename].
  intro H. apply orb_false_iff in H.
  destruct H as [Hc Hr]. unfold has_slash. rewrite Hr.
  rewrite Ascii.eqb_sym in Hc. rewrite Hc. reflexivity.
Qed.

Lemma keeps_list_method_list (P : dict -> Prop) k f :
  (forall l s, P s -> P (dict_set k (PList l) s)) ->
  keeps P (list_method k f).
Proof.
  intro H. unfold list_method. apply keeps_bind; [apply keeps_getinfo|].
  intros [| | | |l|]; try apply keeps_lift. apply keeps_setitem, H.
Qed.

Lemma filenames_safe_list l s :
  filenames_are_safe (dict_set "filenames" (PList l) s).
Proof.
  intros x E. rewrite dict_get_set_same in E by reflexivity. discriminate.
Qed.

Lemma filenames_block_safe {R : PyRuntime} sample_info :
  keeps filenames_are_safe (filenames_block sample_info).
Proof.
  unfold filenames_block.
  repeat first
    [ apply keeps_ret
    | apply keeps_lift
    | apply keeps_getinfo
    | apply keeps_list_method_list; intros; apply filenames_safe_list
    | apply keeps_setitem; intros; apply filenames_safe_list
    | apply keeps_setitem; intros ? _ x E;
      rewrite dict_get_set_same in E by reflexivity;
      injection E as <-; apply str_replace_removes; reflexivity
    | apply keeps_bind; [ | intros ]
    | match goal with
      | |- keeps _ (if ?b then _ else _) => destruct b
      end ].
Qed.

Lemma filenames_are_safe_ext s s' :
  dict_get "filenames" s' = dict_get "filenames" s ->
  filenames_are_safe s -> filenames_are_safe s'.
Proof. unfold filenames_are_safe. intros ->. auto. Qed.

Lemma normalizer_filenames_safe {R : PyRuntime} sample_info debug VENDORS :
  filenames_are_safe (processVirustotalSampleInfo sample_info debug VENDORS).
Proof.
  unfold processVirustotalSampleInfo.
  assert (H0 : filenames_are_safe getEmptyInfo).
  { intros x E. injection E as <-. reflexivity. }
  revert H0. generalize getEmptyInfo.
  change (keeps filenames_are_safe (try_block sample_info VENDORS)).
  unfold try_block. apply keeps_bind; [apply keeps_lift|]. intros has.
  destruct (negb has); [apply keeps_ret|].
  apply keeps_bind; [apply filenames_block_safe|]. intros _.
  intros s Hs. apply (@filenames_are_safe_ext s); [|exact Hs].
  apply (rest_keeps_filenames sample_info VENDORS
           (v := dict_get "filenames" s)). reflexivity.
Qed.

(** ** The report of the records *)

Lemma has_key_field k r :
  has_key k r -> py_getitem (PDict r) k = Ok (record_field k r).
Proof.
  unfold has_key, record_field. rewrite py_getitem_str.
  destruct (dict_get k r); congruence.
Qed.

Lemma report_entry_of_record r :
  reportable r ->
  report_entry (PDict r)
  = Ok (match line_of_record r with l :: _ => Some l | [] => None end).
Proof.
  intros (Hr & Hh & Hres & Hf).
  assert (E : exists rating,
             dict_get "rating" r = Some (PStr rating)
             /\ (rating = "unknown" \/ rating = "clean"
                 \/ rating = "suspicious" \/ rating = "malicious")).
  { destruct Hr as [H|(z & _ & H)]; [eauto|].
    exists (rate z). split; [exact H|]. unfold rate.
    destruct (z =? 0); [|destruct (z <=? 10)]; auto. }
  destruct E as (rating & Er & Hcases).
  unfold report_entry, rating_mentions, line_of_record.
  rewrite !(has_key_field Hh), !(has_key_field Hres), !(has_key_field Hf).
  rewrite !py_getitem_str, Er.
  destruct Hcases as [ -> | [ -> | [ -> | -> ] ] ]; reflexivity.
Qed.

Lemma report_loop_of_records rs :
  Forall reportable rs ->
  report_loop (map PDict rs) = (flat_map line_of_record rs, Ok tt).
Proof.
  induction 1 as [|r rs Hr _ IH]; [reflexivity|].
  cbn [map report_loop flat_map].
  rewrite (report_entry_of_record Hr), IH.
  unfold line_of_record. destruct (dict_get "rating" r) as [[| | |rating| |]|];
    try reflexivity.
  destruct (String.eqb rating "suspicious"); [reflexivity|].
  destruct (String.eqb rating "malicious"); reflexivity.
Qed.

(** ** The vendors of a record *)

Lemma dict_set_Forall (Q : pyval * pyval -> Prop) k v d :
  Q (k, v) -> (forall k' v', Q (k', v') -> Q (k', v)) ->
  Forall Q d -> Forall Q (dict_set k v d).
Proof.
  intros Hk Hv. induction 1 as [|[k' v'] r Hx Hr IH]; cbn [dict_set].
  - constructor; [exact Hk|constructor].
  - destruct (key_eqb k k'); constructor;
      [apply (Hv k' v'), Hx|assumption|exact Hx|exact IH].
Qed.

Lemma vendor_results_in_ext listed s s' :
  dict_get "vendor_results" s' = dict_get "vendor_results" s ->
  vendor_results_in listed s -> vendor_results_in listed s'.
Proof. unfold vendor_results_in. intros ->. auto. Qed.

Lemma set_vendor_result_listed (listed : pyval -> Prop) vendor v :
  listed vendor -> v = PStr "-" \/ py_truthy v = true ->
  keeps (vendor_results_in listed) (set_vendor_result vendor v).
Proof.
  intros Hl Hv s (d & Hd & Hall).
  unfold set_vendor_result, getinfo, setitem, lift.
  cbn [bind M_monad]. rewrite py_getitem_str, Hd.
  destruct (hashable vendor); cbn [fst]; [|exists d; auto].
  exists (dict_set vendor v d). split.
  - apply dict_get_set_same. reflexivity.
  - apply dict_set_Forall; [split; assumption| |exact Hall].
    cbn [fst snd]. intros k' v' (H & _). split; assumption.
Qed.

Lemma vendor_loop_listed {R : PyRuntime} (listed : pyval -> Prop)
    scans vendors :
  Forall listed vendors ->
  forall names,
    keeps (vendor_results_in listed) (vendor_loop scans vendors names).
Proof.
  induction 1 as [|vendor rest Hv _ IH]; intros names; cbn [vendor_loop].
  - apply keeps_ret.
  - apply keeps_bind_lift; intros known _. destruct known.
    + apply keeps_bind_lift; intros r Hr.
      destruct (py_truthy r) eqn:Ht.
      * apply keeps_bind_lift; intros r1 _.
        apply keeps_bind_lift; intros r2 Hr2.
        assert (r2 = r) as -> by congruence.
        apply keeps_bind; [|intros _; apply IH].
        apply set_vendor_result_listed; auto.
      * apply keeps_bind; [|intros _; apply IH].
        apply set_vendor_result_listed; auto.
    + apply keeps_bind; [|intros _; apply IH].
      apply set_vendor_result_listed; auto.
Qed.

Lemma virus_block_listed {R : PyRuntime} sample_info VENDORS s :
  dict_get "vendor_results" s = Some (PDict []) ->
  vendor_results_in (listed_vendor sample_info VENDORS)
    (fst (virus_block sample_info VENDORS s)).
Proof.
  intro Hs.
  assert (H0 : vendor_results_in (listed_vendor sample_info VENDORS) s)
    by (exists []; split; [exact Hs|constructor]).
  revert s H0 Hs.
  change (forall s, vendor_results_in (listed_vendor sample_info VENDORS) s ->
                    dict_get "vendor_results" s = Some (PDict []) ->
                    vendor_results_in (listed_vendor sample_info VENDORS)
                      (fst (virus_block sample_info VENDORS s))).
  intros s H0 _. revert s H0.
  change (keeps (vendor_results_in (listed_vendor sample_info VENDORS))
            (virus_block sample_info VENDORS)).
  unfold virus_block.
  apply keeps_bind_lift; intros scans Hscans.
  apply keeps_bind.
  { apply keeps_setitem. intros s _. exists []. split; [|constructor].
    apply dict_get_set_same. reflexivity. }
  intros _.
  apply keeps_bind_lift; intros first Hfirst.
  apply keeps_bind_lift; intros loop_vendors Hloop.
  apply keeps_bind.
  - apply vendor_loop_listed. apply Forall_forall. intros k Hk.
    exists first, loop_vendors. split; [exact Hfirst|]. split; [|exact Hk].
    destruct (py_eq first "ALL"); [|exact Hloop].
    unfold attr in *. cbn [bind result_monad] in *.
    rewrite Hscans. exact Hloop.
  - intros [|n ns]; [apply keeps_ret|].
    apply keeps_bind_lift; intros v _.
    apply keeps_setitem. intros s. apply vendor_results_in_ext.
    apply dict_get_set_other. reflexivity.
Qed.

(** * The claims *)

(** C1, as the code has it. With an ["attributes"] mapping that lacks
    ["last_analysis_stats"], the record returned is the record as the
    statements before the stats left it: what they extracted is kept, and
    the fields of the stats and virus-name block have their defaults. *)
Theorem missing_stats_keep_what_was_extracted {R : PyRuntime}
    (sample a : dict) (debug : bool) (VENDORS : pyval) :
  dict_get "attributes" sample = Some (PDict a) ->
  dict_get "last_analysis_stats" a = None ->
  let r := processVirustotalSampleInfo (PDict sample) debug VENDORS in
  r = fst (before_stats (PDict sample) getEmptyInfo)
  /\ Forall (at_default r) stats_fields.
Proof.
  intros Hattr Habs r.
  assert (Hr : r = fst (before_stats (PDict sample) getEmptyInfo)).
  { subst r. unfold processVirustotalSampleInfo, before_stats.
    rewrite (try_block_with_attributes _ _ _ Hattr).
    do 5 (apply seq_congr; intros _ ?).
    apply seq_tail_raises. intros _ s6. exists KeyError.
    cbn [bind M_monad]. unfold stats_block.
    rewrite !(@stat_absent sample a Hattr _ Habs). reflexivity. }
  split; [exact Hr|]. rewrite Hr.
  unfold stats_fields.
  repeat (constructor;
          [apply (@before_stats_writes R (PDict sample)
                    _ (dict_get _ getEmptyInfo));
           [not_in_list|reflexivity]|]).
  constructor.
Qed.

Lemma missing_stats_example :
  let r := processVirustotalSampleInfo (R := Reference.runtime)
             (example_entry without_stats) false ALL in
  dict_get "attributes" (entry_members without_stats)
  = Some (PDict (members without_stats))
  /\ dict_get "last_analysis_stats" (members without_stats) = None
  /\ r = fst (before_stats (R := Reference.runtime)
                (example_entry without_stats) getEmptyInfo)
  /\ Forall (at_default r) stats_fields.
Proof.
  split; [reflexivity|]. split; [reflexivity|].
  exact (@missing_stats_keep_what_was_extracted Reference.runtime
           (entry_members without_stats) (members without_stats) false ALL
           eq_refl eq_refl).
Defined.

(** C1 as stated fails on a payload that lacks only
    ["last_analysis_stats"]: the record returned is not the record of
    defaults, it has the file type, the size and the hashes of the
    payload. *)
Lemma missing_stats_record_is_partial :
  dict_get "last_analysis_stats" (members without_stats) = None
  /\ processVirustotalSampleInfo (R := Reference.runtime)
       (example_entry without_stats) false ALL = partial_record
  /\ dict_get "filetype" partial_record = Some (PStr "Win32 EXE")
  /\ dict_get "filetype" getEmptyInfo = Some (PStr "-")
  /\ dict_get "filesize" partial_record = Some (PStr "1.5 KB")
  /\ dict_get "filesize" getEmptyInfo = Some (PInt 0)
  /\ dict_get "sha256" partial_record
     = Some (PStr "ca978112ca1bbdcafac231b39a23dc4da786eff8147c4e72b9807785afee48bb")
  /\ dict_get "sha256" getEmptyInfo = None.
Proof. repeat split; vm_compute; reflexivity. Qed.




(** C3. [checkVirustotalQuota] returns [None] for a response that is not
    ok, but a failure inside its [try] reaches the caller as a [NameError]:
    the handler reads [debug], a name the function never binds.  The
    answers are: a 404; a 200 whose body is not JSON; a 200 whose JSON
    lacks the quota fields; a request that raises; and, for the tuple, a
    200 with the quota fields. *)
Theorem checkVirustotalQuota_handler_raises {R : PyRuntime}
    (VT_USERID : pyval) (tr : list event) :
  let sent := {| script := []; trace := (tr ++ [EGet (user_url VT_USERID)])%list |} in
  checkVirustotalQuota VT_USERID
    {| script := [Ok {| status_code := 404; json_body := Some (obj []) |}];
       trace := tr |} = (Returned QuotaNone, sent)
  /\ checkVirustotalQuota VT_USERID
       {| script := [Ok {| status_code := 200; json_body := None |}];
          trace := tr |} = (Raised NameError, sent)
  /\ checkVirustotalQuota VT_USERID
       {| script := [Ok {| status_code := 200; json_body := Some (obj []) |}];
          trace := tr |} = (Raised NameError, sent)
  /\ checkVirustotalQuota VT_USERID
       {| script := [Raise RequestException]; trace := tr |}
     = (Raised NameError, sent)
  /\ checkVirustotalQuota VT_USERID
       {| script := [Ok {| status_code := 200; json_body := Some quota_body |}];
          trace := tr |}
     = (Returned (QuotaTuple (PInt 5) (PInt 500) (PInt 70) (PInt 15500)), sent).
Proof. repeat split. Qed.




(** C5, as the code has it. Of the members of ["attributes"], the ones
    read behind a membership test are optional: without ["exiftool"],
    ["pe_info"] or ["signature_info"] the block that reads it completes and
    leaves the record as it is.  The others ([unguarded]) are read without
    a test, in the order of [normalizer_fields]: when one is absent, every
    field assigned from its statement on has its default in the record
    returned, whatever else the payload holds. *)
Theorem only_guarded_fields_are_optional {R : PyRuntime}
    (sample a : dict) (debug : bool) (VENDORS : pyval) :
  dict_get "attributes" sample = Some (PDict a) ->
  (forall s, dict_get "exiftool" a = None ->
             exiftool_block (PDict sample) s = (s, Ok tt))
  /\ (forall s, dict_get "pe_info" a = None ->
                pe_info_block (PDict sample) s = (s, Ok tt))
  /\ (forall s, dict_get "signature_info" a = None ->
                signature_block (PDict sample) s = (s, Ok tt))
  /\ (forall key p,
        In (key, p) unguarded ->
        dict_get key a = None ->
        Forall (at_default
                  (processVirustotalSampleInfo (PDict sample) debug VENDORS))
               (skipn p normalizer_fields)).
Proof.
  intro Hattr.
  split; [intros; eapply exiftool_block_absent; eassumption|].
  split; [intros; eapply pe_info_block_absent; eassumption|].
  split; [intros; eapply signature_block_absent; eassumption|].
  intros key p. apply (@absent_field_stops_extraction R sample a VENDORS Hattr).
Qed.

Lemma absent_tags_example :
  dict_get "attributes" (entry_members without_tags)
  = Some (PDict (members without_tags))
  /\ In ("tags", 3%nat) unguarded
  /\ dict_get "tags" (members without_tags) = None
  /\ Forall (at_default
               (processVirustotalSampleInfo (R := Reference.runtime)
                  (example_entry without_tags) false ALL))
            [ "tags"; "first_submitted"; "times_submitted"; "reputation";
              "copyright"; "description"; "imphash"; "signer"; "signed";
              "revoked"; "expired"; "md5"; "sha1"; "sha256"; "positives";
              "total"; "rating"; "last_submitted"; "vendor_results"; "virus" ].
Proof.
  split; [reflexivity|]. split; [simpl; tauto|]. split; [reflexivity|].
  refine (proj2 (proj2 (proj2
    (@only_guarded_fields_are_optional Reference.runtime
       (entry_members without_tags) (members without_tags) false ALL
       eq_refl)))
    "tags" 3%nat _ eq_refl).
  simpl. tauto.
Defined.

(** C5 as stated fails on a payload that lacks only ["type_description"]:
    its size, its tags and its md5 are there and none is extracted, where
    the full payload gives ["1.5 KB"], the tags and the md5. *)
Lemma absent_type_stops_the_others :
  dict_get "size" (members without_type) = Some (PInt 1536)
  /\ dict_get "filesize"
       (processVirustotalSampleInfo (R := Reference.runtime)
          (example_entry without_type) false ALL) = Some (PInt 0)
  /\ dict_get "tags"
       (processVirustotalSampleInfo (R := Reference.runtime)
          (example_entry without_type) false ALL) = Some (PList [])
  /\ dict_get "md5"
       (processVirustotalSampleInfo (R := Reference.runtime)
          (example_entry without_type) false ALL) = None
  /\ dict_get "filesize"
       (processVirustotalSampleInfo (R := Reference.runtime)
          example_sample false ALL) = Some (PStr "1.5 KB")
  /\ dict_get "tags"
       (processVirustotalSampleInfo (R := Reference.runtime)
          example_sample false ALL) = Some (PList [PStr "peexe"])
  /\ dict_get "md5"
       (processVirustotalSampleInfo (R := Reference.runtime)
          example_sample false ALL)
     = Some (PStr "0cc175b9c0f1b6a831c399e269772661").
Proof. repeat split; vm_compute; reflexivity. Qed.

(** C6, as the code has it. A 429 answer whose body is JSON on which the
    test for a [NotFoundError] is defined (or [debug] is on), with
    [vtwaitquota] false: [getVTInfo] takes that one answer, sends one
    request, sleeps never, and returns the record of defaults with the
    input hash. *)
Theorem rate_limited_without_wait_is_terminal {R : PyRuntime}
    (hash : pyval) (debug : bool) (vtallvendors : pyval) (wait : Z)
    (r : response) (body : pyval) (rest : list (result response))
    (tr : list event) :
  status_code r = 429 ->
  json_body r = Some body ->
  (exists printed, prints_error debug body = Ok printed) ->
  getVTInfo hash debug vtallvendors wait false
    {| script := Ok r :: rest; trace := tr |}
  = (Returned (dict_set "hash" hash getEmptyInfo),
     {| script := rest; trace := (tr ++ [EGet (report_url hash)])%list |})
  /\ dict_get "hash" (dict_set "hash" hash getEmptyInfo) = Some hash.
Proof.
  intros Hs Hb (printed & Hp). split; [|reflexivity].
  unfold getVTInfo. cbn [request_loop script trace].
  rewrite Hb, andb_false_r.
  assert (Hok : ok r = false) by (unfold ok; rewrite Hs; reflexivity).
  rewrite Hok. cbn [negb bind W_monad liftW]. rewrite Hp. reflexivity.
Qed.

Lemma rate_limited_example :
  getVTInfo (R := Reference.runtime) "ca978112" false ALL 600 false
    {| script := [Ok quota_exceeded]; trace := [] |}
  = (Returned (dict_set "hash" "ca978112" getEmptyInfo),
     {| script := [];
        trace := [EGet (report_url (R := Reference.runtime) "ca978112")] |})
  /\ dict_get "hash" (dict_set "hash" "ca978112" getEmptyInfo)
     = Some (PStr "ca978112").
Proof.
  apply (rate_limited_without_wait_is_terminal (R := Reference.runtime)
           (body := obj [("error",
                          obj [ ("code", PStr "QuotaExceededError");
                                ("message", PStr "Quota exceeded") ])])
           "ca978112" false ALL 600 quota_exceeded [] []
           eq_refl eq_refl).
  exists true. reflexivity.
Defined.

(** C6 as stated fails on a 429 answer whose body is not JSON: parsing it
    raises inside the [try], the pass is swallowed, and the loop sends a
    second request at once. *)
Lemma rate_limited_malformed_body_is_retried :
  getVTInfo (R := Reference.runtime) "ca978112" false ALL 600 false
    {| script := [ Ok {| status_code := 429; json_body := None |};
                   Ok quota_exceeded ];
       trace := [] |}
  = (Returned (dict_set "hash" "ca978112" getEmptyInfo),
     {| script := [];
        trace := [ EGet (PStr "https://www.virustotal.com/api/v3/files/ca978112");
                   EGet (PStr "https://www.virustotal.com/api/v3/files/ca978112") ] |}).
Proof. reflexivity. Qed.






(** C9. With a list of names [ns] the [filenames] of the record are built
    from the distinct basenames [l] of the names, a backslash counting as a
    slash ([xbase]): without a meaningful name they are [l] joined with
    [", "], semicolons replaced by underscores; with a meaningful name [m],
    its basename comes first and its other occurrence is removed, so that
    no name is repeated.  The names [C:\a\b.exe] and [b.exe] with the
    meaningful name [b.exe] give ["b.exe"]. *)
Theorem filenames_deduplicated_and_promoted {R : PyRuntime}
    (sample a : dict) (ns : list string) (debug : bool) (VENDORS : pyval) :
  dict_get "attributes" sample = Some (PDict a) ->
  dict_get "names" a = Some (PList (map PStr ns)) ->
  let r := processVirustotalSampleInfo (PDict sample) debug VENDORS in
  (exists l,
     NoDup l /\ (forall x, In x l <-> In x (map xbase ns))
     /\ (dict_get "meaningful_name" a = None ->
         dict_get "filenames" r = Some (PStr (semis (String.concat ", " l))))
     /\ (forall m,
           dict_get "meaningful_name" a = Some (PStr m) ->
           NoDup (xbase m :: remove_first (xbase m) l)
           /\ dict_get "filenames" r
              = Some (PStr (semis (String.concat ", "
                                     (xbase m :: remove_first (xbase m) l))))))
  /\ (ns = ["C:\a\b.exe"; "b.exe"] ->
      dict_get "meaningful_name" a = Some (PStr "b.exe") ->
      dict_get "filenames" r = Some (PStr "b.exe")).
Proof.
  intros Hattr Hnames r.
  assert (Hmain : exists l,
     NoDup l /\ (forall x, In x l <-> In x (map xbase ns))
     /\ (dict_get "meaningful_name" a = None ->
         dict_get "filenames" r = Some (PStr (semis (String.concat ", " l))))
     /\ (forall m,
           dict_get "meaningful_name" a = Some (PStr m) ->
           NoDup (xbase m :: remove_first (xbase m) l)
           /\ dict_get "filenames" r
              = Some (PStr (semis (String.concat ", "
                                     (xbase m :: remove_first (xbase m) l)))))).
  { destruct (@filenames_block_strings R sample a ns Hattr Hnames getEmptyInfo)
      as (l & Hnd & Hin & Hnone & Hsome).
    exists l. split; [exact Hnd|]. split; [exact Hin|].
    subst r. unfold processVirustotalSampleInfo.
    rewrite (try_block_with_attributes _ _ _ Hattr).
    split.
    - intro Hm. apply seq_keeps_after; [apply Hnone, Hm|].
      intros _. apply rest_keeps_filenames.
    - intros m Hm. split; [apply remove_first_NoDup, Hnd|].
      apply seq_keeps_after; [apply Hsome, Hm|].
      intros _. apply rest_keeps_filenames. }
  split; [exact Hmain|].
  intros -> Hm. destruct Hmain as (l & Hnd & Hin & _ & Hsome).
  destruct (Hsome _ Hm) as [_ ->].
  assert (Hl : l = ["b.exe"]).
  { apply singleton_of_NoDup; [exact Hnd|].
    intro x. rewrite Hin. vm_compute. intuition. }
  rewrite Hl. reflexivity.
Qed.

Lemma filenames_example :
  dict_get "attributes" (entry_members example_attributes)
  = Some (PDict (members example_attributes))
  /\ dict_get "names" (members example_attributes)
     = Some (PList (map PStr ["C:\a\b.exe"; "b.exe"]))
  /\ dict_get "meaningful_name" (members example_attributes)
     = Some (PStr "b.exe")
  /\ dict_get "filenames"
       (processVirustotalSampleInfo (R := Reference.runtime) example_sample
          false ALL)
     = Some (PStr "b.exe").
Proof.
  repeat (split; [reflexivity|]).
  refine (proj2 (@filenames_deduplicated_and_promoted Reference.runtime
                   (entry_members example_attributes)
                   (members example_attributes)
                   ["C:\a\b.exe"; "b.exe"] false ALL eq_refl eq_refl)
            eq_refl eq_refl).
Defined.

(** C10. Every record [getEmptyInfo], [processVirustotalSampleInfo],
    [getVTInfo] and [getRetrohuntResults] produce has the field
    [vt_queried], and its value is [True]: no function assigns to it. *)
Theorem vt_queried_always_true {R : PyRuntime} :
  dict_get "vt_queried" getEmptyInfo = Some (PBool true)
  /\ (forall sample debug VENDORS,
        dict_get "vt_queried" (processVirustotalSampleInfo sample debug VENDORS)
        = Some (PBool true))
  /\ (forall hash debug vtallvendors wait vtwaitquota w r w',
        getVTInfo hash debug vtallvendors wait vtwaitquota w = (Returned r, w') ->
        dict_get "vt_queried" r = Some (PBool true))
  /\ (forall retrohunt_id no_comments debug vtallvendors w rs w',
        getRetrohuntResults retrohunt_id no_comments debug vtallvendors w
        = (Returned rs, w') ->
        Forall (fun r => dict_get "vt_queried" r = Some (PBool true)) rs).
Proof.
  assert (Hn : forall sample debug VENDORS,
             dict_get "vt_queried"
               (processVirustotalSampleInfo sample debug VENDORS)
             = Some (PBool true)).
  { intros. rewrite normalizer_frame by not_in_list. reflexivity. }
  split; [reflexivity|]. split; [exact Hn|]. split.
  - intros hash debug vtallvendors wait vtwaitquota w r w' E.
    apply getVTInfo_record in E. destruct E as (base & Hb & Ha).
    rewrite (Ha "vt_queried") by not_in_list.
    destruct Hb as [->|(data & ->)]; [reflexivity|apply Hn].
  - intros retrohunt_id no_comments debug vtallvendors w rs w' E.
    apply getRetrohuntResults_records in E.
    eapply Forall_impl; [|exact E].
    intros r (file & Ha & _).
    rewrite (Ha "vt_queried") by not_in_list. apply Hn.
Qed.

Lemma vt_queried_examples :
  (lookup_run = (Returned lookup_result, snd lookup_run)
   /\ dict_get "vt_queried" lookup_result = Some (PBool true))
  /\ (retrohunt_run = (Returned retrohunt_result, snd retrohunt_run)
      /\ Forall (fun r => dict_get "vt_queried" r = Some (PBool true))
           retrohunt_result).
Proof.
  assert (H1 : lookup_run = (Returned lookup_result, snd lookup_run))
    by (vm_compute; reflexivity).
  assert (H2 : retrohunt_run = (Returned retrohunt_result, snd retrohunt_run))
    by (vm_compute; reflexivity).
  split; (split; [assumption|]).
  - exact (proj1 (proj2 (proj2 (vt_queried_always_true (R := Reference.runtime))))
             _ _ _ _ _ _ _ _ H1).
  - exact (proj2 (proj2 (proj2 (vt_queried_always_true (R := Reference.runtime))))
             _ _ _ _ _ _ _ H2).
Defined.

(** * Beyond the claims *)

(** ** The shape of a record *)

(** X1. No record lacks a baseline field: every key of the record of
    defaults is a key of every record [processVirustotalSampleInfo],
    [getVTInfo] and [getRetrohuntResults] return, whatever the payload
    holds or lacks. *)
Theorem records_have_the_baseline_keys {R : PyRuntime} :
  (forall sample debug VENDORS,
     Forall (fun k => has_key k (processVirustotalSampleInfo sample debug VENDORS))
            baseline_keys)
  /\ (forall hash debug vtallvendors wait vtwaitquota w r w',
        getVTInfo hash debug vtallvendors wait vtwaitquota w = (Returned r, w') ->
        Forall (fun k => has_key k r) baseline_keys)
  /\ (forall retrohunt_id no_comments debug vtallvendors w rs w',
        getRetrohuntResults retrohunt_id no_comments debug vtallvendors w
        = (Returned rs, w') ->
        Forall (fun r => Forall (fun k => has_key k r) baseline_keys) rs).
Proof.
  assert (H0 : Forall (fun k => has_key k getEmptyInfo) baseline_keys).
  { unfold baseline_keys. repeat constructor; discriminate. }
  assert (HP : set_stable (fun s => Forall (fun k => has_key k s) baseline_keys)).
  { intros k v s H. eapply Forall_impl; [|exact H].
    intros a Ha. apply dict_set_has_key, Ha. }
  split; [|split].
  - intros. apply (normalizer_stable HP _ _ _ H0).
  - intros hash debug vtallvendors wait vtwaitquota w r w' E.
    eapply (getVTInfo_stable HP); eassumption.
  - intros retrohunt_id no_comments debug vtallvendors w rs w' E.
    eapply (getRetrohuntResults_stable HP); eassumption.
Qed.

Lemma baseline_keys_examples :
  (lookup_run = (Returned lookup_result, snd lookup_run)
   /\ Forall (fun k => has_key k lookup_result) baseline_keys)
  /\ (retrohunt_run = (Returned retrohunt_result, snd retrohunt_run)
      /\ Forall (fun r => Forall (fun k => has_key k r) baseline_keys)
           retrohunt_result).
Proof.
  assert (H1 : lookup_run = (Returned lookup_result, snd lookup_run))
    by (vm_compute; reflexivity).
  assert (H2 : retrohunt_run = (Returned retrohunt_result, snd retrohunt_run))
    by (vm_compute; reflexivity).
  pose proof (records_have_the_baseline_keys (R := Reference.runtime))
    as (_ & Hl & Hr).
  split; (split; [assumption|]).
  - exact (Hl _ _ _ _ _ _ _ _ H1).
  - exact (Hr _ _ _ _ _ _ _ H2).
Defined.

(** X2. The fields [result], [harmless] and [mssoft] keep their defaults
    in every record: there is no assignment to [result], the normalizer
    does not assign to the other two, and the two tests of [getVTInfo]
    that would set them look for a [str] among the chunks of bytes of the
    response, where there is none. *)
Theorem result_harmless_mssoft_keep_their_defaults {R : PyRuntime} :
  let kept := never_filled in
  (forall sample debug VENDORS,
     kept (processVirustotalSampleInfo sample debug VENDORS))
  /\ (forall hash debug vtallvendors wait vtwaitquota w r w',
        getVTInfo hash debug vtallvendors wait vtwaitquota w = (Returned r, w') ->
        kept r)
  /\ (forall retrohunt_id no_comments debug vtallvendors w rs w',
        getRetrohuntResults retrohunt_id no_comments debug vtallvendors w
        = (Returned rs, w') ->
        Forall kept rs).
Proof.
  cbv zeta.
  assert (Hn : forall sample debug VENDORS,
             never_filled (processVirustotalSampleInfo sample debug VENDORS)).
  { intros. unfold never_filled.
    rewrite !normalizer_frame by not_in_list. repeat split; reflexivity. }
  split; [exact Hn|]. split.
  - intros hash debug vtallvendors wait vtwaitquota w r w' E.
    apply getVTInfo_record in E. destruct E as (base & Hb & Ha).
    unfold never_filled.
    rewrite (Ha "result"), (Ha "harmless"), (Ha "mssoft") by not_in_list.
    destruct Hb as [ -> |(data & ->)]; [repeat split; reflexivity|apply Hn].
  - intros retrohunt_id no_comments debug vtallvendors w rs w' E.
    apply getRetrohuntResults_records in E.
    eapply Forall_impl; [|exact E].
    intros r (file & Ha & _). unfold never_filled.
    rewrite (Ha "result"), (Ha "harmless"), (Ha "mssoft") by not_in_list.
    apply Hn.
Qed.

Lemma never_filled_examples :
  (lookup_run = (Returned lookup_result, snd lookup_run)
   /\ never_filled lookup_result)
  /\ (retrohunt_run = (Returned retrohunt_result, snd retrohunt_run)
      /\ Forall never_filled retrohunt_result).
Proof.
  assert (H1 : lookup_run = (Returned lookup_result, snd lookup_run))
    by (vm_compute; reflexivity).
  assert (H2 : retrohunt_run = (Returned retrohunt_result, snd retrohunt_run))
    by (vm_compute; reflexivity).
  pose proof (result_harmless_mssoft_keep_their_defaults
                (R := Reference.runtime))
    as (_ & Hl & Hr).
  split; (split; [assumption|]).
  - exact (Hl _ _ _ _ _ _ _ _ H1).
  - exact (Hr _ _ _ _ _ _ _ H2).
Defined.

(** X3. The signature flags of a normalized record are booleans, and one
    is [True] only for the reason the source gives: [signed] only when the
    verified status of the payload is exactly ["Signed"], [revoked] only
    when the status mentions ["Revoked"], [expired] only when it mentions
    ["Expired"]. *)
Theorem signature_flags_follow_the_status {R : PyRuntime}
    (sample_info : pyval) (debug : bool) (VENDORS : pyval) :
  let r := processVirustotalSampleInfo sample_info debug VENDORS in
  flag_only_if "signed" (why_signed sample_info) r
  /\ flag_only_if "revoked" (why_mentions sample_info "Revoked") r
  /\ flag_only_if "expired" (why_mentions sample_info "Expired") r.
Proof.
  cbv zeta.
  change (processVirustotalSampleInfo sample_info debug VENDORS)
    with (processVirustotalSampleInfo sample_info false VENDORS).
  split; [|split]; apply flag_through_the_blocks;
    try (simpl; tauto).
  - apply signature_block_signed.
  - apply signature_block_revoked.
  - apply signature_block_expired.
Qed.

(** X4. The vendor filter.  In every record of the normalizer
    [vendor_results] is a dict whose keys are vendors of the loop, the
    elements of [VENDORS] unless it starts with ["ALL"], and whose values
    are a dash or a result that counts as true. *)
Theorem vendor_results_hold_listed_vendors {R : PyRuntime}
    (sample_info : pyval) (debug : bool) (VENDORS : pyval) :
  vendor_results_in (listed_vendor sample_info VENDORS)
    (processVirustotalSampleInfo sample_info debug VENDORS).
Proof.
  unfold processVirustotalSampleInfo, try_block.
  set (Q := vendor_results_in (listed_vendor sample_info VENDORS)).
  set (P := unchanged "vendor_results" (Some (PDict []))).
  assert (HPQ : forall s, P s -> Q s).
  { intros s H. exists []. split; [exact H|constructor]. }
  assert (H0 : P getEmptyInfo) by reflexivity.
  apply (seq_establishes (P := P)); auto.
  { apply keeps_lift. }
  intros has s0 Hs0.
  destruct (negb has); [apply HPQ, Hs0|].
  apply (seq_establishes (P := P)); auto.
  { apply (filenames_block_writes sample_info). not_in_list. }
  intros _ s1 H1.
  apply (seq_establishes (P := P)); auto.
  { apply (properties_block_writes sample_info). not_in_list. }
  intros _ s2 H2.
  apply (seq_establishes (P := P)); auto.
  { apply (exiftool_block_writes sample_info). not_in_list. }
  intros _ s3 H3.
  apply (seq_establishes (P := P)); auto.
  { apply (pe_info_block_writes sample_info). not_in_list. }
  intros _ s4 H4.
  apply (seq_establishes (P := P)); auto.
  { apply (signature_block_writes sample_info). not_in_list. }
  intros _ s5 H5.
  apply (seq_establishes (P := P)); auto.
  { apply (hashes_block_writes sample_info). not_in_list. }
  intros _ s6 H6.
  apply (seq_establishes (P := P)); auto.
  { apply (stats_block_writes sample_info). not_in_list. }
  intros _ s7 H7.
  apply (seq_establishes (P := P)); auto.
  { apply (last_submitted_block_writes sample_info). not_in_list. }
  intros _ s8 H8.
  apply virus_block_listed, H8.
Qed.

(** X5. The [filenames] of a record are delimiter-safe: when they are a
    string, as in every record whose file names were joined and in the
    record of defaults, the string holds no semicolon, whatever the names
    of the payload. *)
Theorem filenames_hold_no_semicolon {R : PyRuntime} :
  (forall sample debug VENDORS,
     filenames_are_safe (processVirustotalSampleInfo sample debug VENDORS))
  /\ (forall hash debug vtallvendors wait vtwaitquota w r w',
        getVTInfo hash debug vtallvendors wait vtwaitquota w = (Returned r, w') ->
        filenames_are_safe r)
  /\ (forall retrohunt_id no_comments debug vtallvendors w rs w',
        getRetrohuntResults retrohunt_id no_comments debug vtallvendors w
        = (Returned rs, w') ->
        Forall filenames_are_safe rs).
Proof.
  split; [intros; apply normalizer_filenames_safe|]. split.
  - intros hash debug vtallvendors wait vtwaitquota w r w' E.
    apply getVTInfo_record in E. destruct E as (base & Hb & Ha).
    apply (@filenames_are_safe_ext base); [apply Ha; not_in_list|].
    destruct Hb as [->|(data & ->)]; [|apply normalizer_filenames_safe].
    intros x E. injection E as <-. reflexivity.
  - intros retrohunt_id no_comments debug vtallvendors w rs w' E.
    apply getRetrohuntResults_records in E.
    eapply Forall_impl; [|exact E].
    intros r (file & Ha & _).
    eapply filenames_are_safe_ext; [apply Ha; not_in_list|].
    apply normalizer_filenames_safe.
Qed.

Lemma filenames_safe_examples :
  (lookup_run = (Returned lookup_result, snd lookup_run)
   /\ filenames_are_safe lookup_result)
  /\ (retrohunt_run = (Returned retrohunt_result, snd retrohunt_run)
      /\ Forall filenames_are_safe retrohunt_result).
Proof.
  assert (H1 : lookup_run = (Returned lookup_result, snd lookup_run))
    by (vm_compute; reflexivity).
  assert (H2 : retrohunt_run = (Returned retrohunt_result, snd retrohunt_run))
    by (vm_compute; reflexivity).
  pose proof (filenames_hold_no_semicolon (R := Reference.runtime))
    as (_ & Hl & Hr).
  split; (split; [assumption|]).
  - exact (Hl _ _ _ _ _ _ _ _ H1).
  - exact (Hr _ _ _ _ _ _ _ H2).
Defined.

(** ** [uniqList] and [get_crossplatfrom_basename] *)

(** X6. [uniqList] gives a list without duplicates that has the elements
    of its argument and no other; it raises a [TypeError] when an element
    is a list or a dict. *)
Theorem uniqList_is_the_set {R : PyRuntime} (listx : pyval)
    (elems : list pyval) :
  py_iter listx = Ok elems ->
  (forall out, uniqList listx = Ok out ->
     exists l, out = PList l
               /\ no_duplicates l = true
               /\ forall x, existsb (key_eqb x) l = existsb (key_eqb x) elems)
  /\ (existsb (fun x => negb (hashable x)) elems = true ->
      uniqList listx = Raise TypeError)
  /\ (existsb (fun x => negb (hashable x)) elems = false ->
      exists out, uniqList listx = Ok out).
Proof.
  intro Hi. unfold uniqList. rewrite Hi. cbn [bind result_monad].
  split; [|split].
  - intros out E.
    destruct (set_elements [] elems) as [u|] eqn:Eu; [|discriminate].
    injection E as <-. exists (set_order u).
    destruct (set_elements_spec elems [] eq_refl Eu) as [Hn Hm].
    split; [reflexivity|]. split.
    + rewrite (no_duplicates_Permutation (set_order_perm u)). exact Hn.
    + intro x. rewrite (existsb_Permutation _ (set_order_perm u)), Hm.
      reflexivity.
  - intro H. rewrite (set_elements_unhashable elems [] H). reflexivity.
  - intro H.
    assert (Hs : forall l seen,
               existsb (fun x => negb (hashable x)) l = false ->
               exists u, set_elements seen l = Ok u).
    { clear. induction l as [|y r IH]; intros seen H; simpl in *.
      - eexists; reflexivity.
      - apply orb_false_iff in H. destruct H as [Hy Hr].
        apply negb_false_iff in Hy. rewrite Hy.
        destruct (existsb (key_eqb y) seen); apply IH, Hr. }
    destruct (Hs elems [] H) as (u & ->). eexists; reflexivity.
Qed.

Lemma uniqList_example :
  py_iter duplicated_tags
  = Ok [PStr "apt"; PStr "peexe"; PStr "apt"; PInt 1; PBool true]
  /\ uniqList (R := Reference.runtime) duplicated_tags
     = Ok (PList [PStr "apt"; PStr "peexe"; PInt 1])
  /\ exists l, PList [PStr "apt"; PStr "peexe"; PInt 1] = PList l
               /\ no_duplicates l = true
               /\ forall x, existsb (key_eqb x) l
                            = existsb (key_eqb x)
                                [PStr "apt"; PStr "peexe"; PStr "apt";
                                 PInt 1; PBool true].
Proof.
  split; [reflexivity|]. split; [reflexivity|].
  exact (proj1 (@uniqList_is_the_set Reference.runtime duplicated_tags _
                  eq_refl) _ eq_refl).
Defined.

(** X7. [get_crossplatfrom_basename] gives, for a string, what follows
    the last slash or backslash: the result holds neither separator, it is
    the end of the path, taking the basename again changes nothing, and a
    name without separator is its own basename.  What is not a string
    raises an [AttributeError]. *)
Theorem basename_has_no_separator (path : string) :
  get_crossplatfrom_basename (PStr path) = Ok (PStr (xbase path))
  /\ has_char "/" (xbase path) = false
  /\ has_char backslash (xbase path) = false
  /\ (exists d, str_replace backslash "/" path = d ++ xbase path)
  /\ xbase (xbase path) = xbase path
  /\ (has_char "/" path = false -> has_char backslash path = false ->
      xbase path = path)
  /\ (forall v, (forall s, v <> PStr s) ->
                get_crossplatfrom_basename v = Raise AttributeError).
Proof.
  assert (Hs : has_char "/" (xbase path) = false) by apply basename_no_slash.
  assert (Hsuf : exists d, str_replace backslash "/" path = d ++ xbase path)
    by apply basename_suffix.
  assert (Hb : has_char backslash (xbase path) = false).
  { destruct Hsuf as (d & Hd).
    pose proof (str_replace_removes backslash "/" path eq_refl) as H.
    rewrite Hd, has_char_app in H. apply orb_false_iff in H. apply H. }
  assert (Hid : forall p, has_char "/" p = false ->
                          has_char backslash p = false -> xbase p = p).
  { intros p H1 H2. unfold xbase.
    rewrite (str_replace_absent backslash "/" p H2).
    apply basename_without_slash, H1. }
  split; [reflexivity|]. split; [exact Hs|]. split; [exact Hb|].
  split; [exact Hsuf|]. split; [apply Hid; assumption|].
  split; [apply Hid|].
  intros v Hv. destruct v; try reflexivity. exfalso. eapply Hv. reflexivity.
Qed.

Lemma basename_examples :
  xbase "C:\dir\a.exe" = "a.exe"
  /\ xbase "a.exe" = "a.exe"
  /\ get_crossplatfrom_basename (PInt 1) = Raise AttributeError.
Proof.
  pose proof (basename_has_no_separator "C:\dir\a.exe")
    as (_ & _ & _ & _ & _ & _ & Hv).
  pose proof (basename_has_no_separator "a.exe")
    as (_ & _ & _ & _ & _ & Hid & _).
  split; [reflexivity|]. split.
  - apply Hid; reflexivity.
  - apply Hv. intros s. discriminate.
Defined.

(** ** [getVTInfo] and [getRetrohuntResults] *)

(** X8. The record [getVTInfo] returns has the hash it was asked for in
    its [hash] field, whatever the answers were, and its tags are a list
    without duplicates. *)
Theorem lookup_record_has_the_input_hash {R : PyRuntime}
    (hash : pyval) (debug : bool) (vtallvendors : pyval) (wait : Z)
    (vtwaitquota : bool) (w : world) (r : dict) (w' : world) :
  getVTInfo hash debug vtallvendors wait vtwaitquota w = (Returned r, w') ->
  dict_get "hash" r = Some hash /\ tags_are_distinct r.
Proof. apply getVTInfo_hash_and_tags. Qed.

Lemma lookup_hash_example :
  lookup_run = (Returned lookup_result, snd lookup_run)
  /\ dict_get "hash" lookup_result = Some (PStr "ca978112")
  /\ tags_are_distinct lookup_result.
Proof.
  assert (H : lookup_run = (Returned lookup_result, snd lookup_run))
    by (vm_compute; reflexivity).
  split; [exact H|].
  exact (@lookup_record_has_the_input_hash Reference.runtime
           _ _ _ _ _ _ _ _ H).
Defined.



(** X10. An answer that is not ok and ends the loop (any status but 429,
    or a 429 without [vtwaitquota]), with a JSON body on which the test
    for a [NotFoundError] is defined, gives the record of defaults with
    the input hash: one request, no sleep, and no request for comments. *)
Theorem failed_lookup_gives_the_defaults {R : PyRuntime}
    (hash : pyval) (debug : bool) (vtallvendors : pyval) (wait : Z)
    (vtwaitquota : bool) (r : response) (body : pyval)
    (rest : list (result response)) (tr : list event) :
  ok r = false ->
  json_body r = Some body ->
  status_code r <> 429 \/ vtwaitquota = false ->
  (exists printed, prints_error debug body = Ok printed) ->
  getVTInfo hash debug vtallvendors wait vtwaitquota
    {| script := Ok r :: rest; trace := tr |}
  = (Returned (dict_set "hash" hash getEmptyInfo),
     {| script := rest; trace := (tr ++ [EGet (report_url hash)])%list |}).
Proof.
  intros Hok Hb Hterm (printed & Hp).
  unfold getVTInfo. cbn [request_loop script trace]. rewrite Hb.
  assert (Hc : (status_code r =? 429) && vtwaitquota = false).
  { destruct Hterm as [H| ->]; [|apply andb_false_r].
    apply Z.eqb_neq in H. rewrite H. reflexivity. }
  rewrite Hc, Hok. cbn [negb bind W_monad liftW]. rewrite Hp. reflexivity.
Qed.

Lemma not_found_example :
  getVTInfo (R := Reference.runtime) "ca978112" false ALL 600 true
    {| script := [not_found]; trace := [] |}
  = (Returned (dict_set "hash" "ca978112" getEmptyInfo),
     {| script := [];
        trace := [EGet (report_url (R := Reference.runtime) "ca978112")] |}).
Proof.
  refine (@failed_lookup_gives_the_defaults Reference.runtime
            "ca978112" false ALL 600 true
            {| status_code := 404;
               json_body := Some (obj [("error",
                                        obj [("code", PStr "NotFoundError")])]) |}
            (obj [("error", obj [("code", PStr "NotFoundError")])])
            [] [] eq_refl eq_refl _ _).
  - left. discriminate.
  - exists false. reflexivity.
Defined.

(** ** The requests *)

(** X11. Without [vtwaitquota], [getVTInfo] never sleeps: whatever the
    answers, and however the call ends, it adds only requests to the
    trace. *)
Theorem no_sleep_without_wait {R : PyRuntime}
    (hash : pyval) (debug : bool) (vtallvendors : pyval) (wait : Z)
    (w : world) :
  exists gets,
    trace (snd (getVTInfo hash debug vtallvendors wait false w))
    = (trace w ++ gets)%list
    /\ forallb is_get gets = true.
Proof.
  unfold getVTInfo.
  destruct (request_loop_without_wait (report_url hash) wait (script w) (trace w))
    as (g1 & E1 & F1).
  destruct (request_loop (report_url hash) wait false (script w) (trace w))
    as [[[rc rd]|e|] w1]; simpl in E1; try (exists g1; auto; fail).
  assert (Hrest : only_gets
            (if negb (ok rc)
             then (_ <- liftW (prints_error debug rd) ;;
                   ret (dict_set "hash" hash getEmptyInfo))
             else enrich hash debug vtallvendors rc rd)).
  { destruct (negb (ok rc)); [|apply only_gets_enrich].
    apply only_gets_bind; [apply only_gets_liftW|intro; apply only_gets_ret]. }
  destruct (Hrest w1) as (g2 & E2 & F2).
  exists (g1 ++ g2)%list. rewrite app_assoc, <- E1, forallb_app, F1, F2.
  split; [|reflexivity]. rewrite <- E2.
  destruct (negb (ok rc)); reflexivity.
Qed.



(** X13. A request that raises, or an answer whose body is not JSON, is
    asked again at once, without a sleep and without a bound: after a run
    of such answers [getVTInfo] has sent as many requests and goes on with
    the answers that follow. *)
Theorem failed_requests_are_repeated_at_once {R : PyRuntime}
    (hash : pyval) (debug : bool) (vtallvendors : pyval) (wait : Z)
    (vtwaitquota : bool) (answers rest : list (result response))
    (tr : list event) :
  forallb unusable answers = true ->
  getVTInfo hash debug vtallvendors wait vtwaitquota
    {| script := (answers ++ rest)%list; trace := tr |}
  = getVTInfo hash debug vtallvendors wait vtwaitquota
      {| script := rest;
         trace := (tr ++ repeat (EGet (report_url hash))
                           (List.length answers))%list |}.
Proof.
  intro H. unfold getVTInfo. cbn [script trace].
  rewrite (request_loop_unusable _ _ _ _ _ _ H). reflexivity.
Qed.

Lemma failed_requests_example :
  getVTInfo (R := Reference.runtime) "ca978112" false ALL 600 false
    {| script := [ Raise RequestException;
                   Ok {| status_code := 200; json_body := None |};
                   not_found ];
       trace := [] |}
  = getVTInfo (R := Reference.runtime) "ca978112" false ALL 600 false
      {| script := [not_found];
         trace := [ EGet (report_url (R := Reference.runtime) "ca978112");
                    EGet (report_url (R := Reference.runtime) "ca978112") ] |}.
Proof.
  exact (@failed_requests_are_repeated_at_once Reference.runtime
           "ca978112" false ALL 600 false
           [ Raise RequestException;
             Ok {| status_code := 200; json_body := None |} ]
           [not_found] [] eq_refl).
Defined.

(** ** [searchVirustotalComments] *)

(** X14. [searchVirustotalComments] never raises: whatever the answer to
    its one request (an exception, a status that is not ok, a body that is
    not JSON or lacks fields), it returns a record with the three comment
    keys; and when the request raised, the status was not ok or the body
    was not JSON, that record is the empty one: 0 comments, the commenter
    ["-"], no tags. *)
Theorem comments_never_raise {R : PyRuntime}
    (sha256 : pyval) (debug : bool) (answer : result response)
    (rest : list (result response)) (tr : list event) :
  exists c,
    searchVirustotalComments sha256 debug
      {| script := answer :: rest; trace := tr |}
    = (Returned c,
       {| script := rest; trace := (tr ++ [EGet (comment_url sha256)])%list |})
    /\ comment_keys c
    /\ (forall e, answer = Raise e -> c = empty_comments)
    /\ (forall r, answer = Ok r -> ok r = false \/ json_body r = None ->
                  c = empty_comments).
Proof.
  unfold searchVirustotalComments, requests_get, comment_url.
  cbn [script trace].
  destruct answer as [r|e].
  - destruct (ok r) eqn:Eok; cbn [negb].
    + destruct (json_body r) as [j|] eqn:Ej.
      * eexists. split; [reflexivity|]. split.
        -- apply comments_block_keys. reflexivity.
        -- split; [discriminate|]. intros r' E [H|H]; injection E as <-;
             congruence.
      * exists empty_comments. repeat split; reflexivity.
    + exists empty_comments. repeat split; reflexivity.
  - exists empty_comments. repeat split; reflexivity.
Qed.

(** X15. On an ok answer whose body lists comments, each with an author id
    and a list of tags, [searchVirustotalComments] returns their number,
    the authors in the order of the comments, and the tags of all comments
    one after the other, repeats included; without a comment the
    commenter stays ["-"]. *)
Theorem comments_are_counted_and_listed {R : PyRuntime}
    (sha256 : pyval) (debug : bool) (r : response) (body : pyval)
    (coms authors : list pyval) (tagss : list (list pyval))
    (rest : list (result response)) (tr : list event) :
  ok r = true ->
  json_body r = Some body ->
  py_getitem body "data" = Ok (PList coms) ->
  List.length authors = List.length tagss ->
  Forall2 (fun com at_ => comment_of com (fst at_) (snd at_))
          coms (combine authors tagss) ->
  searchVirustotalComments sha256 debug
    {| script := Ok r :: rest; trace := tr |}
  = (Returned
       (comment_record (Z.of_nat (List.length coms))
          (match coms with [] => [PStr "-"] | _ => authors end)
          (List.concat tagss)),
     {| script := rest; trace := (tr ++ [EGet (comment_url sha256)])%list |}).
Proof.
  intros Hok Hb Hd Hlen Hc.
  unfold searchVirustotalComments, requests_get, comment_url.
  cbn [script trace]. rewrite Hok, Hb. cbn [negb].
  f_equal. f_equal.
  unfold comments_block, setitem, lift.
  cbn [bind M_monad]. rewrite Hd. cbn [bind result_monad py_len py_iter].
  cbn [bind M_monad].
  destruct coms as [|com coms'].
  - inversion Hc as [E|]; subst.
    destruct authors, tagss; try discriminate; reflexivity.
  - replace (0 <? Z.of_nat (List.length (com :: coms'))) with true
      by (symmetry; apply Z.ltb_lt; simpl List.length; lia).
    change (dict_set "commenter" (PList [])
              (dict_set "comments"
                 (PInt (Z.of_nat (List.length (com :: coms')))) empty_comments))
      with (comment_record (Z.of_nat (List.length (com :: coms'))) [] []).
    erewrite comments_loop_run; [reflexivity|exact Hc|exact Hlen].
Qed.

Lemma comments_example :
  searchVirustotalComments (R := Reference.runtime) "ca978112" false
    {| script := [Ok comments_answer]; trace := [] |}
  = (Returned
       (comment_record 2 [PStr "analyst"; PStr "analyst"]
          [PStr "apt"; PStr "apt"; PStr "apt"; PStr "apt"]),
     {| script := [];
        trace := [EGet (comment_url (R := Reference.runtime) "ca978112")] |}).
Proof.
  refine (@comments_are_counted_and_listed Reference.runtime
            "ca978112" false comments_answer
            (obj [("data", PList [example_comment; example_comment])])
            [example_comment; example_comment]
            [PStr "analyst"; PStr "analyst"]
            [[PStr "apt"; PStr "apt"]; [PStr "apt"; PStr "apt"]]
            [] [] eq_refl eq_refl eq_refl eq_refl _).
  repeat constructor.
Defined.

(** ** [checkVirustotalQuota] and [commentVTSample] *)

(** X16. What [checkVirustotalQuota] can do.  With no answer left it sends
    nothing; otherwise it sends one request to the URL of the user and
    does not sleep.  It returns [None] only for an answer that is not ok
    and the four numbers only for an ok answer whose body has them; it
    never returns [info]; and the one exception that reaches the caller is
    the [NameError] of its handler. *)
Theorem checkVirustotalQuota_outcomes {R : PyRuntime}
    (VT_USERID : pyval) (w : world) :
  match script w with
  | [] => checkVirustotalQuota VT_USERID w = (OutOfScript, w)
  | answer :: rest =>
      exists o,
        checkVirustotalQuota VT_USERID w
        = (o, {| script := rest;
                 trace := (trace w ++ [EGet (user_url VT_USERID)])%list |})
        /\ match o with
           | Returned QuotaNone => exists r, answer = Ok r /\ ok r = false
           | Returned (QuotaTuple ud ad um am) =>
               exists r body,
                 answer = Ok r /\ ok r = true /\ json_body r = Some body
                 /\ quota_fields body = Ok (QuotaTuple ud ad um am)
           | Returned (QuotaValue _) => False
           | Raised e => e = NameError
           | OutOfScript => False
           end
  end.
Proof.
  unfold checkVirustotalQuota, requests_get, user_url.
  destruct (script w) as [|[r|e] rest]; [reflexivity| |].
  - destruct (ok r) eqn:Eok; cbn [negb].
    + destruct (json_body r) as [body|] eqn:Eb.
      * destruct (quota_fields body) as [q|e] eqn:Eq.
        -- exists (Returned q). split; [reflexivity|].
           unfold quota_fields in Eq. cbv zeta in Eq.
           repeat match type of Eq with
                  | context [py_path ?b ?ks] =>
                      let E := fresh "E" in
                      destruct (py_path b ks) eqn:E;
                      cbn [bind result_monad] in Eq; [|discriminate]
                  end.
           injection Eq as <-. exists r, body.
           repeat split; try assumption.
           unfold quota_fields. cbv zeta.
           repeat match goal with
                  | H : py_path _ _ = Ok _ |- _ => rewrite H; clear H
                  end.
           reflexivity.
        -- exists (Raised NameError). split; reflexivity.
      * exists (Raised NameError). split; reflexivity.
    + exists (Returned QuotaNone). split; [reflexivity|]. exists r. auto.
  - exists (Raised NameError). split; reflexivity.
Qed.

(** X17. [commentVTSample] raises a [NameError] whenever the comment was
    accepted (a [response_code] equal to 1), and returns only for a
    refused comment whose body has a [verbose_msg]. *)
Theorem commentVTSample_raises_on_success
    (resource comment : pyval) (answer : result response) :
  (forall response body code,
     answer = Ok response -> json_body response = Some body ->
     py_getitem body "response_code" = Ok code ->
     py_eq code (PInt 1) = true ->
     commentVTSample resource comment answer = Raise NameError)
  /\ (commentVTSample resource comment answer = Ok tt ->
      exists response body code msg,
        answer = Ok response /\ json_body response = Some body
        /\ py_getitem body "response_code" = Ok code
        /\ py_eq code (PInt 1) = false
        /\ py_getitem body "verbose_msg" = Ok msg).
Proof.
  unfold commentVTSample. split.
  - intros response body code -> Hb Hc He.
    cbn [bind result_monad]. rewrite Hb, Hc, He. reflexivity.
  - destruct answer as [response|e]; cbn [bind result_monad];
      [|discriminate].
    destruct (json_body response) as [body|] eqn:Hb; [|discriminate].
    destruct (py_getitem body "response_code") as [code|e] eqn:Hc;
      [|discriminate].
    destruct (py_eq code (PInt 1)) eqn:He; cbn [negb].
    + discriminate.
    + destruct (py_getitem body "verbose_msg") as [msg|e] eqn:Hm;
        [|discriminate].
      intros _. exists response, body, code, msg.
      repeat split; assumption || reflexivity.
Qed.

Lemma commentVTSample_examples :
  commentVTSample "ca978112" "seen"
    (http 200 (obj [("response_code", PInt 1)])) = Raise NameError
  /\ commentVTSample "ca978112" "seen"
       (http 200 (obj [("response_code", PInt 0);
                       ("verbose_msg", PStr "Invalid resource")])) = Ok tt.
Proof.
  split.
  - pose proof (commentVTSample_raises_on_success "ca978112" "seen"
                  (http 200 (obj [("response_code", PInt 1)]))) as (H & _).
    eapply H; reflexivity.
  - reflexivity.
Defined.

(** ** The report script *)

(** X18. The report script on a list of records, each with its rating by
    the positives and the fields [hash], [result] and [filenames]: it does
    not raise; after the header with the number of records it prints, in
    the order of the list, one plain line for each record rated
    [suspicious] and one highlighted line with the file names for each
    record rated [malicious], and nothing for the others. *)
Theorem report_shows_suspicious_and_malicious (records : list dict) :
  Forall reportable records ->
  report (PList (map PDict records))
  = ([Rule; Total (Z.of_nat (List.length records)); Notice; Rule]
       ++ flat_map line_of_record records, Ok tt)%list.
Proof.
  intro H. unfold report. cbn [py_len py_iter].
  rewrite (report_loop_of_records H), length_map. reflexivity.
Qed.

Lemma report_example :
  Forall reportable reported_records
  /\ report (PList (map PDict reported_records))
     = ([Rule; Total 3; Notice; Rule] ++ reported_lines, Ok tt)%list
  /\ List.length reported_lines = 2%nat.
Proof.
  assert (H : Forall reportable reported_records).
  { constructor; [|constructor; [|constructor; [|constructor]]].
    - split; [right; exists 21; split; reflexivity|].
      repeat split; discriminate.
    - split; [left; reflexivity|]. repeat split; discriminate.
    - split; [right; exists 3; split; reflexivity|].
      repeat split; discriminate. }
  split; [exact H|]. split; [|reflexivity].
  exact (report_shows_suspicious_and_malicious H).
Defined.

(** X19. The report of the normalizer's own records: whatever the
    payloads, the script does not raise on them, and what it prints after
    the header are the lines of the records rated [suspicious] and
    [malicious]. *)
Theorem report_of_normalized_samples {R : PyRuntime}
    (samples : list pyval) (debug : bool) (VENDORS : pyval) :
  let records :=
    map (fun sample => processVirustotalSampleInfo sample debug VENDORS)
      samples in
  report (PList (map PDict records))
  = ([Rule; Total (Z.of_nat (List.length samples)); Notice; Rule]
       ++ flat_map line_of_record records, Ok tt)%list.
Proof.
  cbv zeta. unfold report. cbn [py_len py_iter].
  rewrite report_loop_of_records, !length_map; [reflexivity|].
  apply Forall_forall. intros r Hin. apply in_map_iff in Hin.
  destruct Hin as (sample & <- & _).
  split; [apply normalizer_rating|].
  repeat split;
    (apply normalizer_stable; [apply has_key_stable|discriminate]).
Qed.
